(** * pebble-transit-server: the GTFS service core

    A shallow embedding of the class [GTFSService] of the service source
    ([services/gtfsService.ts], in its full version): the static catalog
    indexes, the live-arrival and scheduled-departure reconciliation, the
    status classification, the nearby-stop search and the trip browsing
    accessor, followed by the properties that the specification states
    about them.  The loaders of the static bundle, the route browsing
    accessors, the queries for one route, the alert and vehicle feeds and
    the request validation and pagination of the handlers ([utils/api.ts],
    [index.ts]) follow the same conventions; their properties are at the
    end.

    Conventions of the embedding.
    - JavaScript numbers that hold Unix seconds, milliseconds, minutes,
      delays and stop sequences are integers of type [Z]; [NaN] is [None].
    - Coordinates and distances are binary64 numbers in the program.  The
      nearby-stop search is embedded twice.  [Double.getNearbyStops]
      computes as the program does, on primitive binary64 numbers, with
      [Math.sin], [Math.cos] and [Math.atan2], which the language leaves to
      the implementation, as parameters; it settles which stops are
      returned.  [getNearbyStops] computes the same formula in exact
      arithmetic over the reals ([R]); it carries the facts that rest on
      the order of the distances and on the shape of the loop only.
    - An optional or possibly-empty string is an [option string]; the
      JavaScript truthiness test on it is [truthyStr].
    - [Map] objects that the code iterates over are insertion-ordered
      association lists ([JsMap]); the route and trip indexes, which are only
      ever looked up by key, are finite maps ([gmap]).
    - The network fetch and the protobuf decoding are inputs: a call receives
      the outcome of the fetch ([FetchResult]) and the clock reading.  The
      clock is read once per call.
    - The time zone of the host and the string-to-number conversion of the
      runtime are parameters of the schedule functions.
    - The text files of the bundle are strings.  The white space that [trim]
      removes, [parseFloat], [parseInt] and the enumeration name tables of
      the protobuf bindings are parameters of the functions that use them.
    - The decoder of the feed hands a 64-bit integer field as a number or
      as a [Long] object; which of the two is a parameter ([longs]) of the
      alert and vehicle functions.
    - The entries of the trip index in insertion order are an argument of
      [buildRouteStopsMapping], the one function that iterates over that
      index. *)

From Stdlib Require Import ZArith List String Ascii Bool Lia.
From Stdlib Require Import Sorted Permutation DecimalString.
From Stdlib Require Import Reals Lra.
From Stdlib Require Floats.
From stdpp Require Import gmap strings.
Import ListNotations.

Local Open Scope string_scope.
Local Open Scope Z_scope.
Local Open Scope list_scope.

(** ** JavaScript runtime fragments used by the service *)

Module Js.

(** [s.split(sep)] for a one-character separator: never returns the empty
    array, [split sep ""] is [[""]]. *)
Fixpoint split (sep : ascii) (s : string) : list string :=
  match s with
  | EmptyString => [EmptyString]
  | String c rest =>
      if Ascii.eqb c sep then EmptyString :: split sep rest
      else match split sep rest with
           | [] => [String c EmptyString]
           | hd :: tl => String c hd :: tl
           end
  end.

Definition digit_of (c : ascii) : option Z :=
  let n := Z.of_nat (nat_of_ascii c) in
  if (48 <=? n) && (n <=? 57) then Some (n - 48) else None.

Fixpoint digits_value (acc : Z) (s : string) : option Z :=
  match s with
  | EmptyString => Some acc
  | String c rest =>
      match digit_of c with
      | Some d => digits_value (10 * acc + d) rest
      | None => None
      end
  end.

(** [Number(s)] on strings of decimal digits, the form of the fields of a
    schedule time: the value of the digits, 0 for the empty string.  Other
    strings are outside this conversion ([None]); the properties of the
    schedule queries are stated for an arbitrary conversion and this one is
    used on the sample data. *)
Definition Number (s : string) : option Z := digits_value 0 s.

(** Template-literal rendering of an integer: [`${n}`]. *)
Definition toString (n : Z) : string := NilZero.string_of_int (Z.to_int n).

(** Truthiness of an optional string: [undefined], [null] and [""] are
    falsy.  The result carries the string when it is truthy. *)
Definition truthyStr (s : option string) : option string :=
  match s with
  | Some v => if decide (v = "") then None else Some v
  | None => None
  end.

(** Truthiness of an optional number: [undefined] and [0] are falsy. *)
Definition truthyNum (n : option Z) : option Z :=
  match n with
  | Some v => if decide (v = 0) then None else Some v
  | None => None
  end.

(** [a === b] between a possibly-absent string and a string. *)
Definition strictEq (a : option string) (b : string) : bool :=
  match a with
  | Some v => bool_decide (v = b)
  | None => false
  end.

(** [x >= n] on a number that may be [NaN]. *)
Definition geNum (x : option Z) (n : Z) : bool :=
  match x with Some v => n <=? v | None => false end.

(** The number of elements that [arr.slice(0, n)] takes from an array of
    length [len], for an integer [n]: a negative end counts from the end of
    the array. *)
Definition sliceEnd (n : Z) (len : nat) : nat :=
  if 0 <=? n then Z.to_nat n else Z.to_nat (Z.of_nat len + n).

(** [arr.slice(0, n)]. *)
Definition slice0 {A : Type} (n : Z) (l : list A) : list A :=
  firstn (sliceEnd n (length l)) l.

Section Sort.
Context {A : Type} (key : A -> Z).

(** [arr.sort((a, b) => key(a) - key(b))]: the sort of the runtime is
    stable, so an element goes in front of the first element whose key
    is not smaller, and elements with equal keys keep their order. *)
Fixpoint insert (x : A) (l : list A) : list A :=
  match l with
  | [] => [x]
  | y :: l' => if key x <=? key y then x :: y :: l' else y :: insert x l'
  end.

Definition sortBy (l : list A) : list A := fold_right insert [] l.
End Sort.

End Js.

(** ** Insertion-ordered maps ([Map] objects that are iterated) *)

Module JsMap.
Section Ops.
Context {K : Type} `{EqDecision K} {V : Type}.

(** [m.get(k)]. *)
Fixpoint get (k : K) (m : list (K * V)) : option V :=
  match m with
  | [] => None
  | (k', v) :: m' => if decide (k' = k) then Some v else get k m'
  end.

(** [m.has(k)]. *)
Definition has (k : K) (m : list (K * V)) : bool :=
  match get k m with Some _ => true | None => false end.

(** [m.set(k, v)]: an existing key keeps its position, a new key goes
    last. *)
Fixpoint set (k : K) (v : V) (m : list (K * V)) : list (K * V) :=
  match m with
  | [] => [(k, v)]
  | (k', v') :: m' =>
      if decide (k' = k) then (k, v) :: m' else (k', v') :: set k v m'
  end.

(** [m.keys()] and [m.values()], in insertion order. *)
Definition keys (m : list (K * V)) : list K := map fst m.

Definition values (m : list (K * V)) : list V := map snd m.
End Ops.

(** The grouping idiom
    [if (!m.has(k)) m.set(k, []); m.get(k)?.push(x)]. *)
Definition push {K : Type} `{EqDecision K} {X : Type}
    (k : K) (x : X) (m : list (K * list X)) : list (K * list X) :=
  let m1 := if has k m then m else set k [] m in
  match get k m1 with
  | Some arr => set k (arr ++ [x]) m1
  | None => m1
  end.
End JsMap.

(** ** Static schedule entities ([src/types/gtfs.ts]) *)

Record GTFSRoute := mkRoute {
  routeId : string;
  shortName : string;
  longName : string;
  routeColor : string;
  routeTextColor : string
}.

Record GTFSTrip := mkTrip {
  tripId : string;
  trip_routeId : string;
  tripHeadsign : string
}.

Record GTFSStop := mkStop {
  stopId : string;
  stopName : string;
  stopDesc : option string;
  stopLat : R;
  stopLon : R;
  stopCode : option string
}.

Record GTFSStopTime := mkStopTime {
  st_tripId : string;
  arrivalTime : string;
  departureTime : string;
  st_stopId : string;
  stopSequence : Z
}.

(** The indexes that a [GTFSService] object owns. *)
Record GTFSService := mkService {
  routes : gmap string GTFSRoute;
  trips : gmap string GTFSTrip;
  stops : list (string * GTFSStop);
  stopTimes : list (string * list GTFSStopTime);
  routeStops : list (string * list string)
}.

(** A call that may throw. *)
Inductive Outcome (A : Type) : Type :=
| Returns (v : A)
| Throws (message : string).
Arguments Returns {A} v.
Arguments Throws {A} message.

(** ** Static catalog *)

(** One data line of [stop_times.txt] after the header-driven field lookup:
    [fields[i]?.trim()] for the four text columns ([None] when the column or
    the field is missing) and [parseInt] of the sequence column ([None] for
    [NaN]). *)
Record StopTimeFields := mkFields {
  f_tripId : option string;
  f_stopId : option string;
  f_arrivalTime : option string;
  f_departureTime : option string;
  f_stopSequence : option Z
}.

Definition addStopTime (index : list (string * list GTFSStopTime))
    (row : StopTimeFields) : list (string * list GTFSStopTime) :=
  match Js.truthyStr (f_tripId row), Js.truthyStr (f_stopId row),
        Js.truthyStr (f_arrivalTime row), Js.truthyStr (f_departureTime row),
        f_stopSequence row with
  | Some tripId, Some stopId, Some arrival, Some departure, Some sequence =>
      JsMap.push tripId
        {| st_tripId := tripId; arrivalTime := arrival;
           departureTime := departure; st_stopId := stopId;
           stopSequence := sequence |} index
  | _, _, _, _, _ => index
  end.

(** [for (const [tripId, stopTimes] of this.stopTimes)
      stopTimes.sort((a, b) => a.stopSequence - b.stopSequence)]. *)
Definition sortStopTimes (index : list (string * list GTFSStopTime))
    : list (string * list GTFSStopTime) :=
  map (fun entry => (fst entry, Js.sortBy stopSequence (snd entry))) index.

(** [loadStopTimes]: [None] is a bundle without [stop_times.txt]. *)
Definition loadStopTimes (file : option (list StopTimeFields))
    (svc : GTFSService) : GTFSService :=
  match file with
  | None => svc
  | Some rows =>
      {| routes := routes svc; trips := trips svc; stops := stops svc;
         stopTimes := sortStopTimes (fold_left addStopTime rows (stopTimes svc));
         routeStops := routeStops svc |}
  end.

(** [getOrCreateRoute]: the route found, or a minimal one that is stored. *)
Definition getOrCreateRoute (id : string) (svc : GTFSService)
    : GTFSRoute * GTFSService :=
  match routes svc !! id with
  | Some route => (route, svc)
  | None =>
      let first := hd "" (Js.split "-" id) in
      let route :=
        {| routeId := id;
           shortName := if decide (first = "") then id else first;
           longName := id;
           routeColor := "000000";
           routeTextColor := "FFFFFF" |} in
      (route,
       {| routes := <[id := route]> (routes svc); trips := trips svc;
          stops := stops svc; stopTimes := stopTimes svc;
          routeStops := routeStops svc |})
  end.

(** ** Status classification *)

Definition getArrivalStatus (minutesUntil delaySeconds : Z) : string :=
  if minutesUntil <=? 1 then "Arriving"
  else if minutesUntil <=? 2 then "Due"
  else if delaySeconds >? 300 then "Delayed"
  else if delaySeconds <? -60 then "Early"
  else (Js.toString minutesUntil ++ " min")%string.

Definition getDepartureStatus (minutesUntil : Z) : string :=
  if minutesUntil <=? 1 then "Departing"
  else if minutesUntil <=? 2 then "Due"
  else (Js.toString minutesUntil ++ " min")%string.

(** ** Real-time feed entities (the decoded [FeedMessage]) *)

Inductive ScheduleRelationship := SCHEDULED | SKIPPED | NO_DATA | UNSCHEDULED.

(** [rel ? ScheduleRelationship[rel] : undefined]: the enum value 0
    ([SCHEDULED]) is falsy. *)
Definition scheduleRelationshipName (rel : option ScheduleRelationship)
    : option string :=
  match rel with
  | Some SKIPPED => Some "SKIPPED"
  | Some NO_DATA => Some "NO_DATA"
  | Some UNSCHEDULED => Some "UNSCHEDULED"
  | Some SCHEDULED | None => None
  end.

Record StopTimeEvent := mkEvent {
  ev_time : option Z;
  ev_delay : option Z;
  ev_uncertainty : option Z
}.

Record StopTimeUpdate := mkUpdate {
  stu_stopId : option string;
  stu_arrival : option StopTimeEvent;
  stu_scheduleRelationship : option ScheduleRelationship
}.

Record TripDescriptor := mkDescriptor {
  td_tripId : option string;
  td_routeId : option string
}.

Record TripUpdate := mkTripUpdate {
  tu_trip : option TripDescriptor;
  stopTimeUpdate : list StopTimeUpdate
}.

Record FeedEntity := mkEntity {
  fe_id : string;
  tripUpdate : option TripUpdate
}.

(** What [fetch] and [FeedMessage.decode] hand to a live query. *)
Inductive FetchResult :=
| HttpFailure (status : Z) (statusText : string)
| MalformedFeed (message : string)
| Feed (entity : list FeedEntity).

(** ** Live arrivals *)

(** An element of the per-route arrays of the local [arrivals] map. *)
Record Arrival := mkArrival {
  a_time : Z;
  a_tripId : string;
  a_delay : Z;
  a_uncertainty : option Z;
  a_scheduleRelationship : option string
}.

Record ArrivalTime := mkArrivalTime {
  at_time : Z;
  at_headsign : string;
  minutesUntilArrival : Z;
  delaySeconds : Z;
  isRealTime : bool;
  at_uncertainty : option Z;
  at_status : string
}.

Record BusArrival := mkBusArrival {
  ba_stopId : string;
  ba_routeId : string;
  ba_routeShortName : string;
  ba_routeLongName : string;
  ba_routeColor : string;
  ba_routeTextColor : string;
  ba_tripHeadsign : string;
  arrivalTimes : list ArrivalTime
}.

(** A parameter with a default value: [undefined] selects the default. *)
Definition orDefault {A : Type} (x : option A) (d : A) : A :=
  match x with Some v => v | None => d end.

(** [x || 0] on an optional number. *)
Definition orZero (x : option Z) : Z :=
  match Js.truthyNum x with Some v => v | None => 0 end.

(** The body of the inner [forEach] over [stopTimeUpdate]. *)
Definition processUpdate (stop : string) (currentTime : Z)
    (trip route : option string)
    (arrivals : list (string * list Arrival)) (update : StopTimeUpdate)
    : list (string * list Arrival) :=
  if Js.strictEq (stu_stopId update) stop then
    match stu_arrival update with
    | Some arrival =>
        match Js.truthyNum (ev_time arrival),
              Js.truthyStr trip, Js.truthyStr route with
        | Some arrivalTime, Some tripId, Some routeId =>
            if (arrivalTime >? currentTime)
               && (arrivalTime <? currentTime + 7200)
            then
              JsMap.push routeId
                {| a_time := arrivalTime;
                   a_tripId := tripId;
                   a_delay := orZero (ev_delay arrival);
                   a_uncertainty := Js.truthyNum (ev_uncertainty arrival);
                   a_scheduleRelationship :=
                     scheduleRelationshipName
                       (stu_scheduleRelationship update) |}
                arrivals
            else arrivals
        | _, _, _ => arrivals
        end
    | None => arrivals
    end
  else arrivals.

(** [routeFilter && routeId !== routeFilter]. *)
Definition filteredOut (routeFilter : option string) (route : option string)
    : bool :=
  match Js.truthyStr routeFilter with
  | Some wanted => negb (Js.strictEq route wanted)
  | None => false
  end.

(** The body of the outer [forEach] over [feed.entity]. *)
Definition processEntity (stop : string) (routeFilter : option string)
    (currentTime : Z)
    (arrivals : list (string * list Arrival)) (entity : FeedEntity)
    : list (string * list Arrival) :=
  match tripUpdate entity with
  | Some tu =>
      let trip := match tu_trip tu with Some d => td_tripId d | None => None end in
      let route := match tu_trip tu with Some d => td_routeId d | None => None end in
      if filteredOut routeFilter route then arrivals
      else fold_left (processUpdate stop currentTime trip route)
             (stopTimeUpdate tu) arrivals
  | None => arrivals
  end.

Definition collectArrivals (stop : string) (routeFilter : option string)
    (currentTime : Z) (entity : list FeedEntity)
    : list (string * list Arrival) :=
  fold_left (processEntity stop routeFilter currentTime) entity [].

(** [trip?.tripHeadsign || ""]. *)
Definition headsignOf (svc : GTFSService) (trip : string) : string :=
  match trips svc !! trip with
  | Some t => tripHeadsign t
  | None => ""
  end.

Definition arrivalWithHeadsign (svc : GTFSService) (currentTime : Z)
    (arrival : Arrival) : ArrivalTime :=
  let minutes := (a_time arrival - currentTime) / 60 in
  {| at_time := a_time arrival;
     at_headsign := headsignOf svc (a_tripId arrival);
     minutesUntilArrival := minutes;
     delaySeconds := orZero (Some (a_delay arrival));
     isRealTime := negb (Js.strictEq (a_scheduleRelationship arrival) "SCHEDULED");
     at_uncertainty := a_uncertainty arrival;
     at_status := getArrivalStatus minutes (orZero (Some (a_delay arrival))) |}.

(** The body of the loop over the [arrivals] map that fills [results]. *)
Definition arrivalsOfRoute (svc : GTFSService) (stop : string)
    (maxArrivals : Z) (currentTime : Z)
    (results : list BusArrival) (group : string * list Arrival)
    : list BusArrival :=
  let '(id, arrivalData) := group in
  match routes svc !! id with
  | Some route =>
      let sortedArrivals := Js.slice0 maxArrivals (Js.sortBy a_time arrivalData) in
      let arrivalTimesWithHeadsigns :=
        map (arrivalWithHeadsign svc currentTime) sortedArrivals in
      results ++
      [ {| ba_stopId := stop;
           ba_routeId := id;
           ba_routeShortName := shortName route;
           ba_routeLongName := longName route;
           ba_routeColor := routeColor route;
           ba_routeTextColor := routeTextColor route;
           ba_tripHeadsign :=
             match arrivalTimesWithHeadsigns with
             | first :: _ => at_headsign first
             | [] => ""
             end;
           arrivalTimes := arrivalTimesWithHeadsigns |} ]
  | None => results
  end.

Definition getNextArrivals (svc : GTFSService) (response : FetchResult)
    (nowMs : Z) (stop : string) (routeFilter : option string)
    (maxArrivals : option Z) : Outcome (list BusArrival) :=
  match response with
  | HttpFailure status statusText =>
      Throws ("Failed to fetch GTFS feed: " ++ Js.toString status ++ " "
              ++ statusText)%string
  | MalformedFeed message => Throws message
  | Feed entity =>
      let currentTime := nowMs / 1000 in
      let arrivals := collectArrivals stop routeFilter currentTime entity in
      Returns (fold_left
                 (arrivalsOfRoute svc stop (orDefault maxArrivals 5) currentTime)
                 arrivals [])
  end.

(** ** The [Date] object

    The time-value arithmetic of the language standard.  A time value is a
    number of milliseconds since the epoch, [None] for an invalid date. *)

Module JsDate.

Definition msPerDay : Z := 86400000.
Definition msPerHour : Z := 3600000.
Definition msPerMinute : Z := 60000.
Definition msPerSecond : Z := 1000.

Definition Day (t : Z) : Z := t / msPerDay.
Definition TimeWithinDay (t : Z) : Z := t mod msPerDay.

Definition DayFromYear (y : Z) : Z :=
  365 * (y - 1970) + (y - 1969) / 4 - (y - 1901) / 100 + (y - 1601) / 400.

Definition leapDays (y : Z) : Z :=
  if (y mod 4 =? 0) && (negb (y mod 100 =? 0) || (y mod 400 =? 0))
  then 1 else 0.

(** The largest year whose first day is not after the day of [t]: the
    mean-year estimate is off by at most one. *)
Definition YearFromTime (t : Z) : Z :=
  let d := Day t in
  let y := 1970 + (d * 400) / 146097 in
  if DayFromYear (y + 1) <=? d then y + 1
  else if DayFromYear y <=? d then y
  else y - 1.

Definition InLeapYear (t : Z) : Z := leapDays (YearFromTime t).
Definition DayWithinYear (t : Z) : Z := Day t - DayFromYear (YearFromTime t).

(** Day within the year on which month [m] (0 = January) starts. *)
Definition monthStart (leap m : Z) : Z :=
  match m with
  | 0 => 0
  | 1 => 31
  | 2 => 59 + leap
  | 3 => 90 + leap
  | 4 => 120 + leap
  | 5 => 151 + leap
  | 6 => 181 + leap
  | 7 => 212 + leap
  | 8 => 243 + leap
  | 9 => 273 + leap
  | 10 => 304 + leap
  | _ => 334 + leap
  end.

Definition MonthFromTime (t : Z) : Z :=
  let d := DayWithinYear t in
  let leap := InLeapYear t in
  if d <? 31 then 0
  else if d <? 59 + leap then 1
  else if d <? 90 + leap then 2
  else if d <? 120 + leap then 3
  else if d <? 151 + leap then 4
  else if d <? 181 + leap then 5
  else if d <? 212 + leap then 6
  else if d <? 243 + leap then 7
  else if d <? 273 + leap then 8
  else if d <? 304 + leap then 9
  else if d <? 334 + leap then 10
  else 11.

Definition DateFromTime (t : Z) : Z :=
  DayWithinYear t - monthStart (InLeapYear t) (MonthFromTime t) + 1.

Definition MakeTime (hour min sec ms : Z) : Z :=
  hour * msPerHour + min * msPerMinute + sec * msPerSecond + ms.

Definition MakeDay (year month date : Z) : Z :=
  let ym := year + month / 12 in
  let mn := month mod 12 in
  DayFromYear ym + monthStart (leapDays ym) mn + date - 1.

Definition MakeDate (day time : Z) : Z := day * msPerDay + time.

Definition TimeClip (time : Z) : option Z :=
  if Z.abs time <=? 8640000000000000 then Some time else None.

Section Zone.
(** The local time zone adjustment of the host: [LocalTZA t true] for a
    UTC instant [t], [LocalTZA t false] for a local time [t]. *)
Variable LocalTZA : Z -> bool -> Z.

Definition LocalTime (t : Z) : Z := t + LocalTZA t true.
Definition UTC (t : Z) : Z := t - LocalTZA t false.

(** [new Date(year, month, date)]. *)
Definition create (year month date : option Z) : option Z :=
  match year, month, date with
  | Some y, Some m, Some dt =>
      let yr := if (0 <=? y) && (y <=? 99) then 1900 + y else y in
      TimeClip (UTC (MakeDate (MakeDay yr m dt) (MakeTime 0 0 0 0)))
  | _, _, _ => None
  end.

Definition getFullYear (tv : option Z) : option Z :=
  match tv with Some t => Some (YearFromTime (LocalTime t)) | None => None end.
Definition getMonth (tv : option Z) : option Z :=
  match tv with Some t => Some (MonthFromTime (LocalTime t)) | None => None end.
Definition getDate (tv : option Z) : option Z :=
  match tv with Some t => Some (DateFromTime (LocalTime t)) | None => None end.

(** [d.setDate(date)], returning the new time value of [d]. *)
Definition setDate (tv : option Z) (date : option Z) : option Z :=
  match tv, date with
  | Some t, Some dt =>
      let lt := LocalTime t in
      TimeClip (UTC (MakeDate (MakeDay (YearFromTime lt) (MonthFromTime lt) dt)
                       (TimeWithinDay lt)))
  | _, _ => None
  end.

(** [d.setHours(hour, min, sec, ms)], returning the new time value. *)
Definition setHours (tv : option Z) (hour min sec ms : option Z) : option Z :=
  match tv, hour, min, sec, ms with
  | Some t, Some h, Some m, Some s, Some milli =>
      TimeClip (UTC (MakeDate (Day (LocalTime t)) (MakeTime h m s milli)))
  | _, _, _, _, _ => None
  end.
End Zone.

End JsDate.

(** ** Scheduled departures *)

Record Departure := mkDeparture {
  d_time : Z;
  d_tripId : string
}.

Record DepartureTime := mkDepartureTime {
  dt_time : Z;
  dt_headsign : string;
  minutesUntilDeparture : Z;
  isScheduled : bool;
  dt_status : string
}.

Record BusDeparture := mkBusDeparture {
  bd_stopId : string;
  bd_routeId : string;
  bd_routeShortName : string;
  bd_routeLongName : string;
  bd_routeColor : string;
  bd_routeTextColor : string;
  bd_tripHeadsign : string;
  departureTimes : list DepartureTime
}.

Section Schedule.
Variable LocalTZA : Z -> bool -> Z.

(** [Number(s)] as the service observes it: the integer part of the number
    that the string denotes, [None] when the result is [NaN] or infinite.
    (The [Date] methods truncate their arguments, and comparing with 24 or
    subtracting 24 commutes with taking the integer part.) *)
Variable toNumber : string -> option Z.

(** [parseGtfsTime]: ["HH:MM:SS"] on the local calendar day of the clock
    reading [nowMs], in Unix seconds; [None] is [NaN]. *)
Definition parseGtfsTime (nowMs : Z) (timeStr : string) : option Z :=
  let parts := map toNumber (Js.split ":" timeStr) in
  let hours := nth 0 parts None in
  let minutes := nth 1 parts None in
  let seconds := nth 2 parts None in
  let now := Some nowMs in
  let today :=
    JsDate.create LocalTZA (JsDate.getFullYear LocalTZA now)
      (JsDate.getMonth LocalTZA now) (JsDate.getDate LocalTZA now) in
  let moved :=
    if Js.geNum hours 24 then
      let next :=
        JsDate.setDate LocalTZA today
          (option_map (fun d => d + 1) (JsDate.getDate LocalTZA today)) in
      JsDate.setHours LocalTZA next (option_map (fun h => h - 24) hours)
        minutes seconds (Some 0)
    else JsDate.setHours LocalTZA today hours minutes seconds (Some 0) in
  option_map (fun ms => ms / 1000) moved.

(** [routeFilter && trip.routeId !== routeFilter]. *)
Definition routeMismatch (routeFilter : option string) (route : string) : bool :=
  match Js.truthyStr routeFilter with
  | Some wanted => negb (bool_decide (route = wanted))
  | None => false
  end.

(** The body of the loop over [this.stopTimes]. *)
Definition scanTrip (svc : GTFSService) (nowMs : Z) (stop : string)
    (routeFilter : option string) (currentTime : Z)
    (departures : list (string * list Departure))
    (entry : string * list GTFSStopTime) : list (string * list Departure) :=
  let '(id, times) := entry in
  match trips svc !! id with
  | None => departures
  | Some trip =>
      if routeMismatch routeFilter (trip_routeId trip) then departures
      else
        match find (fun st => bool_decide (st_stopId st = stop)) times with
        | None => departures
        | Some stopTime =>
            match parseGtfsTime nowMs (departureTime stopTime) with
            | Some departure =>
                if (departure >? currentTime)
                   && (departure <? currentTime + 86400)
                then JsMap.push (trip_routeId trip)
                       {| d_time := departure; d_tripId := id |} departures
                else departures
            | None => departures
            end
        end
  end.

Definition collectDepartures (svc : GTFSService) (nowMs : Z) (stop : string)
    (routeFilter : option string) : list (string * list Departure) :=
  fold_left (scanTrip svc nowMs stop routeFilter (nowMs / 1000))
    (stopTimes svc) [].

(** The [uniqueDepartures] map: the first departure seen for a time. *)
Definition uniqueDepartures (departureData : list Departure)
    : list (Z * Departure) :=
  fold_left
    (fun unique departure =>
       if JsMap.has (d_time departure) unique then unique
       else JsMap.set (d_time departure) departure unique)
    departureData [].

Definition departureWithHeadsign (svc : GTFSService) (currentTime : Z)
    (departure : Departure) : DepartureTime :=
  let minutes := (d_time departure - currentTime) / 60 in
  {| dt_time := d_time departure;
     dt_headsign := headsignOf svc (d_tripId departure);
     minutesUntilDeparture := minutes;
     isScheduled := true;
     dt_status := getDepartureStatus minutes |}.

(** The body of the loop over the [departures] map that fills [results]. *)
Definition departuresOfRoute (svc : GTFSService) (stop : string)
    (maxDepartures : Z) (currentTime : Z)
    (results : list BusDeparture) (group : string * list Departure)
    : list BusDeparture :=
  let '(id, departureData) := group in
  match routes svc !! id with
  | Some route =>
      let sortedDepartures :=
        Js.slice0 maxDepartures
          (Js.sortBy d_time (JsMap.values (uniqueDepartures departureData))) in
      let departureTimesWithHeadsigns :=
        map (departureWithHeadsign svc currentTime) sortedDepartures in
      results ++
      [ {| bd_stopId := stop;
           bd_routeId := id;
           bd_routeShortName := shortName route;
           bd_routeLongName := longName route;
           bd_routeColor := routeColor route;
           bd_routeTextColor := routeTextColor route;
           bd_tripHeadsign :=
             match departureTimesWithHeadsigns with
             | first :: _ => dt_headsign first
             | [] => ""
             end;
           departureTimes := departureTimesWithHeadsigns |} ]
  | None => results
  end.

Definition getScheduledDepartures (svc : GTFSService) (nowMs : Z)
    (stop : string) (routeFilter : option string) (maxDepartures : option Z)
    : list BusDeparture :=
  fold_left
    (departuresOfRoute svc stop (orDefault maxDepartures 5) (nowMs / 1000))
    (collectDepartures svc nowMs stop routeFilter) [].
End Schedule.

(** ** Nearby stops, in exact arithmetic

    The search with the formula of [calculateDistance] evaluated over the
    reals: every operation is exact, [Math.atan2] is the mathematical
    function. *)

Record NearbyStop := mkNearbyStop {
  ns_stop : GTFSStop;
  distance : Z
}.

Section Geo.
Local Open Scope R_scope.

(** [Math.atan2(y, x)]: the angle of the point [(x, y)], in (-PI, PI]. *)
Definition atan2 (y x : R) : R :=
  if Rlt_dec 0 x then atan (y / x)
  else if Rlt_dec x 0 then
    if Rle_dec 0 y then atan (y / x) + PI else atan (y / x) - PI
  else if Rlt_dec 0 y then PI / 2
  else if Rlt_dec y 0 then - (PI / 2)
  else 0.

(** [Math.round(x)]: the nearest integer, halves upwards. *)
Definition round (x : R) : Z := Zfloor (x + / 2).

Definition toRadians (degrees : R) : R := degrees * (PI / 180).

Definition calculateDistance (lat1 lon1 lat2 lon2 : R) : R :=
  let R := 6371000 in
  let dLat := toRadians (lat2 - lat1) in
  let dLon := toRadians (lon2 - lon1) in
  let a :=
    sin (dLat / 2) * sin (dLat / 2) +
    cos (toRadians lat1) * cos (toRadians lat2) *
    sin (dLon / 2) * sin (dLon / 2) in
  let c := 2 * atan2 (sqrt a) (sqrt (1 - a)) in
  R * c.

(** The body of the loop over [this.stops]. *)
Definition scanStop (latitude longitude radiusMeters : R)
    (nearbyStops : list NearbyStop) (entry : string * GTFSStop)
    : list NearbyStop :=
  let stop := snd entry in
  let d := calculateDistance latitude longitude (stopLat stop) (stopLon stop) in
  if Rle_dec d radiusMeters
  then (nearbyStops ++ [ {| ns_stop := stop; distance := round d |} ])%list
  else nearbyStops.

(** [getNearbyStops]; an omitted radius is 500 metres. *)
Definition getNearbyStops (svc : GTFSService) (latitude longitude : R)
    (radius : option R) : list NearbyStop :=
  let radiusMeters := orDefault radius 500 in
  Js.sortBy distance
    (fold_left (scanStop latitude longitude radiusMeters) (stops svc) []).
End Geo.

(** ** Nearby stops, in double precision

    The search as the program computes it.  A coordinate is a binary64
    number ([float]); [+], [-], [*], [/], [Math.sqrt] and [<=] are the
    operations of IEEE 754, which round after every step and compare to
    false against [NaN].  [Math.sin], [Math.cos] and [Math.atan2] are
    approximations that the language leaves to the implementation: they
    are parameters.  The search reads the stop index only, which is its
    first argument. *)

Module Double.
Import PrimFloat.

Record GTFSStop := mkStop {
  stopId : string;
  stopName : string;
  stopDesc : option string;
  stopLat : float;
  stopLon : float;
  stopCode : option string
}.

(** The distance of an entry is the value of [Math.round], an integer. *)
Record NearbyStop := mkNearbyStop {
  ns_stop : GTFSStop;
  distance : Z
}.

(** [Math.round(x)] for a finite [x], which is [n * 2 ^ e] for integers
    [n] and [e]: the nearest integer, halves upwards.  ([Math.round] leaves
    [NaN] and the infinities as they are; the loop never rounds a [NaN],
    and a computed distance is infinite only when [Math.atan2] leaves its
    range from -PI to PI.  The model gives 0 there.) *)
Definition round (x : float) : Z :=
  match FloatOps.Prim2SF x with
  | SpecFloat.S754_finite s m e =>
      let n := if s then Z.neg m else Z.pos m in
      if 0 <=? e then n * 2 ^ e else (2 * n + 2 ^ (- e)) / 2 ^ (1 - e)
  | _ => 0
  end.

Section Runtime.
Local Open Scope float_scope.
Variables sin cos : float -> float.
Variable atan2 : float -> float -> float.

(** [Math.PI], the binary64 number nearest to the constant. *)
Definition PI : float := 0x1.921fb54442d18p+1.

Definition toRadians (degrees : float) : float := degrees * (PI / 180).

Definition calculateDistance (lat1 lon1 lat2 lon2 : float) : float :=
  let R := 6371000 in
  let dLat := toRadians (lat2 - lat1) in
  let dLon := toRadians (lon2 - lon1) in
  let a :=
    sin (dLat / 2) * sin (dLat / 2) +
    cos (toRadians lat1) * cos (toRadians lat2) *
    sin (dLon / 2) * sin (dLon / 2) in
  let c := 2 * atan2 (sqrt a) (sqrt (1 - a)) in
  R * c.

(** The body of the loop over [this.stops]. *)
Definition scanStop (latitude longitude radiusMeters : float)
    (nearbyStops : list NearbyStop) (entry : string * GTFSStop)
    : list NearbyStop :=
  let stop := snd entry in
  let d := calculateDistance latitude longitude (stopLat stop) (stopLon stop) in
  if d <=? radiusMeters
  then (nearbyStops ++ [ {| ns_stop := stop; distance := round d |} ])%list
  else nearbyStops.

(** [getNearbyStops] on the stop index [stops]; an omitted radius is 500
    metres. *)
Definition getNearbyStops (stops : list (string * GTFSStop))
    (latitude longitude : float) (radius : option float) : list NearbyStop :=
  let radiusMeters := orDefault radius 500 in
  Js.sortBy distance
    (fold_left (scanStop latitude longitude radiusMeters) stops []).
End Runtime.
End Double.

(** ** Trip browsing *)

Record TripDetails := mkTripDetails {
  details_trip : GTFSTrip;
  details_route : GTFSRoute;
  details_stopTimes : list GTFSStopTime
}.

Definition getTripDetails (svc : GTFSService) (id : string)
    : option TripDetails :=
  match trips svc !! id with
  | None => None
  | Some trip =>
      let route := routes svc !! trip_routeId trip in
      let times :=
        match JsMap.get id (stopTimes svc) with
        | Some l => l
        | None => []
        end in
      match route with
      | None => None
      | Some r =>
          Some {| details_trip := trip; details_route := r;
                  details_stopTimes := times |}
      end
  end.

(** ** Route browsing *)

Record RouteWithStops := mkRouteWithStops {
  rws_route : GTFSRoute;
  rws_stops : list GTFSStop
}.

(** [arr.includes(x)] on an array of strings. *)
Definition includes (x : string) (arr : list string) : bool :=
  existsb (fun y => bool_decide (y = x)) arr.

(** The body of the [forEach] over the stop times of a trip: a stop id that
    the array of the route does not hold yet goes last. *)
Definition addRouteStop (routeStopIds : list string) (stopTime : GTFSStopTime)
    : list string :=
  if includes (st_stopId stopTime) routeStopIds then routeStopIds
  else routeStopIds ++ [st_stopId stopTime].

(** The body of the loop over [this.trips].  The array of the route is the
    one that the mapping stores; the [forEach] extends it in place. *)
Definition mapTripStops (index : list (string * list GTFSStopTime))
    (mapping : list (string * list string)) (entry : string * GTFSTrip)
    : list (string * list string) :=
  let '(id, trip) := entry in
  match JsMap.get id index with
  | Some times =>
      let mapping1 :=
        if JsMap.has (trip_routeId trip) mapping then mapping
        else JsMap.set (trip_routeId trip) [] mapping in
      match JsMap.get (trip_routeId trip) mapping1 with
      | Some routeStopIds =>
          JsMap.set (trip_routeId trip)
            (fold_left addRouteStop times routeStopIds) mapping1
      | None => mapping1
      end
  | None => mapping
  end.

(** [buildRouteStopsMapping].  The loop runs over the entries of
    [this.trips] in insertion order and reads the key and the route id of
    each; the trip index of [GTFSService] is a finite map, which has no
    insertion order, so the entries are passed in the order of the loop. *)
Definition buildRouteStopsMapping (tripEntries : list (string * GTFSTrip))
    (svc : GTFSService) : GTFSService :=
  {| routes := routes svc; trips := trips svc; stops := stops svc;
     stopTimes := stopTimes svc;
     routeStops :=
       fold_left (mapTripStops (stopTimes svc)) tripEntries (routeStops svc) |}.

Definition getStop (svc : GTFSService) (id : string) : option GTFSStop :=
  JsMap.get id (stops svc).

Definition getRoute (svc : GTFSService) (id : string) : option GTFSRoute :=
  routes svc !! id.

(** [arr.filter(Boolean)] on an array of objects and [undefined]s. *)
Definition filterBoolean {A : Type} (arr : list (option A)) : list A :=
  flat_map (fun x => match x with Some v => [v] | None => [] end) arr.

Definition getRouteWithStops (svc : GTFSService) (id : string)
    : option RouteWithStops :=
  match routes svc !! id with
  | None => None
  | Some route =>
      let stopIds :=
        match JsMap.get id (routeStops svc) with
        | Some l => l
        | None => []
        end in
      Some {| rws_route := route;
              rws_stops :=
                filterBoolean
                  (map (fun stopId => JsMap.get stopId (stops svc)) stopIds) |}
  end.

(** ** Queries for one route *)

(** [arr.length > 0 ? arr[0] : null]. *)
Definition firstOrNull {A : Type} (arr : list A) : option A :=
  match arr with
  | first :: _ => Some first
  | [] => None
  end.

Definition getLiveArrivalsForRoute (svc : GTFSService) (response : FetchResult)
    (nowMs : Z) (stop route : string) : Outcome (list BusArrival) :=
  getNextArrivals svc response nowMs stop (Some route) (Some 10).

Definition getNextArrivalForRoute (svc : GTFSService) (response : FetchResult)
    (nowMs : Z) (stop route : string) : Outcome (option BusArrival) :=
  match getNextArrivals svc response nowMs stop (Some route) (Some 1) with
  | Returns arrivals => Returns (firstOrNull arrivals)
  | Throws message => Throws message
  end.

Section RouteSchedule.
Variable LocalTZA : Z -> bool -> Z.
Variable toNumber : string -> option Z.

Definition getScheduledDeparturesForRoute (svc : GTFSService) (nowMs : Z)
    (stop route : string) : list BusDeparture :=
  getScheduledDepartures LocalTZA toNumber svc nowMs stop (Some route) (Some 10).

Definition getNextScheduledDepartureForRoute (svc : GTFSService) (nowMs : Z)
    (stop route : string) : option BusDeparture :=
  firstOrNull
    (getScheduledDepartures LocalTZA toNumber svc nowMs stop (Some route) (Some 1)).
End RouteSchedule.

(** ** Service alerts and vehicle positions

    The two other real-time feeds.  A feed entity is read through the
    member that the query looks at ([alert] or [vehicle]); enumeration
    values are numbers, and their names are looked up in the tables of the
    protobuf bindings, which are parameters here. *)

(** What [fetch] and [FeedMessage.decode] hand to a query that reads the
    entities as [E]. *)
Inductive Fetched (E : Type) : Type :=
| FetchFailure (status : Z) (statusText : string)
| FetchMalformed (message : string)
| FetchFeed (entity : list E).
Arguments FetchFailure {E} status statusText.
Arguments FetchMalformed {E} message.
Arguments FetchFeed {E} entity.

Record Translation := mkTranslation {
  tr_text : option string
}.

Record TranslatedString := mkTranslatedString {
  translation : list Translation
}.

Record TimeRange := mkTimeRange {
  range_start : option Z;
  range_end : option Z
}.

Record EntitySelector := mkSelector {
  sel_agencyId : option string;
  sel_routeId : option string;
  sel_stopId : option string
}.

Record Alert := mkAlert {
  activePeriod : list TimeRange;
  informedEntity : list EntitySelector;
  severityLevel : option Z;
  effect : option Z;
  headerText : option TranslatedString;
  descriptionText : option TranslatedString
}.

Record AlertEntity := mkAlertEntity {
  ae_id : string;
  alert : option Alert
}.

Record ActivePeriod := mkActivePeriod {
  ap_start : option Z;
  ap_end : option Z
}.

Record InformedEntity := mkInformedEntity {
  ie_routeId : option string;
  ie_stopId : option string;
  ie_agencyId : option string
}.

Record ServiceAlert := mkServiceAlert {
  alertId : string;
  sa_headerText : string;
  sa_descriptionText : string;
  severity : option string;
  sa_effect : option string;
  activePeriods : list ActivePeriod;
  informedEntities : list InformedEntity
}.

(** [value ? Names[value] : undefined]: the value 0 is falsy, and a number
    outside the enumeration has no name. *)
Definition enumName (names : Z -> option string) (value : option Z)
    : option string :=
  match Js.truthyNum value with
  | Some v => names v
  | None => None
  end.

(** [text?.translation?.[0]?.text || ""]. *)
Definition firstTranslation (text : option TranslatedString) : string :=
  match text with
  | Some t =>
      match translation t with
      | first :: _ =>
          match Js.truthyStr (tr_text first) with
          | Some s => s
          | None => ""
          end
      | [] => ""
      end
  | None => ""
  end.

(** The callback of [informedEntity.some]:
    [(routeId && informed.routeId === routeId) ||
     (stopId && informed.stopId === stopId)]. *)
Definition informedMatches (routeId stopId : option string)
    (informed : EntitySelector) : bool :=
  match Js.truthyStr routeId with
  | Some wanted => Js.strictEq (sel_routeId informed) wanted
  | None => false
  end
  ||
  match Js.truthyStr stopId with
  | Some wanted => Js.strictEq (sel_stopId informed) wanted
  | None => false
  end.

(** [routeId || stopId]. *)
Definition filterGiven (routeId stopId : option string) : bool :=
  match Js.truthyStr routeId, Js.truthyStr stopId with
  | None, None => false
  | _, _ => true
  end.

(** [x ? Number(x) : undefined] on a 64-bit integer field of the feed.  The
    decoder hands such a field as a number, or as a [Long] object when the
    long package is installed ([longs]).  An object is truthy whatever its
    value, and an absent field reads as the default of its representation,
    which is the number 0 or the object for 0. *)
Definition number64 (longs : bool) (x : option Z) : option Z :=
  if longs then Some (orDefault x 0) else Js.truthyNum x.

Section Alerts.
Variable SeverityLevelName : Z -> option string.
Variable EffectName : Z -> option string.
Variable longs : bool.

(** The object that [getServiceAlerts] pushes for an alert. *)
Definition alertOf (id : string) (a : Alert) : ServiceAlert :=
  {| alertId := id;
     sa_headerText := firstTranslation (headerText a);
     sa_descriptionText := firstTranslation (descriptionText a);
     severity := enumName SeverityLevelName (severityLevel a);
     sa_effect := enumName EffectName (effect a);
     activePeriods :=
       map (fun period =>
              {| ap_start := number64 longs (range_start period);
                 ap_end := number64 longs (range_end period) |})
         (activePeriod a);
     informedEntities :=
       map (fun informed =>
              {| ie_routeId := Js.truthyStr (sel_routeId informed);
                 ie_stopId := Js.truthyStr (sel_stopId informed);
                 ie_agencyId := Js.truthyStr (sel_agencyId informed) |})
         (informedEntity a) |}.

(** The body of the [forEach] over [feed.entity]. *)
Definition scanAlert (routeId stopId : option string)
    (alerts : list ServiceAlert) (entity : AlertEntity) : list ServiceAlert :=
  match alert entity with
  | Some a =>
      if filterGiven routeId stopId
         && negb (existsb (informedMatches routeId stopId) (informedEntity a))
      then alerts
      else alerts ++ [alertOf (ae_id entity) a]
  | None => alerts
  end.

Definition getServiceAlerts (response : Fetched AlertEntity)
    (routeId stopId : option string) : Outcome (list ServiceAlert) :=
  match response with
  | FetchFailure status statusText =>
      Throws ("Failed to fetch service alerts: " ++ Js.toString status ++ " "
              ++ statusText)%string
  | FetchMalformed message => Throws message
  | FetchFeed entity =>
      Returns (fold_left (scanAlert routeId stopId) entity [])
  end.
End Alerts.

Record Position := mkPosition {
  pos_latitude : option R;
  pos_longitude : option R;
  pos_bearing : option R;
  pos_speed : option R
}.

Record VehicleDescriptor := mkVehicleDescriptor {
  vd_id : option string
}.

(** The [vehicle] member of a feed entity. *)
Record VehicleMessage := mkVehicleMessage {
  vm_trip : option TripDescriptor;
  vm_vehicle : option VehicleDescriptor;
  vm_position : option Position;
  vm_timestamp : option Z;
  vm_occupancyStatus : option Z;
  vm_congestionLevel : option Z
}.

Record VehicleEntity := mkVehicleEntity {
  ve_id : string;
  vehicle : option VehicleMessage
}.

Record VehiclePosition := mkVehiclePosition {
  vehicleId : string;
  vp_routeId : string;
  vp_tripId : option string;
  vp_latitude : R;
  vp_longitude : R;
  vp_bearing : option R;
  vp_speed : option R;
  vp_timestamp : R;
  occupancyStatus : option string;
  congestionLevel : option string
}.

(** [x || undefined] on an optional real number: 0 is falsy. *)
Definition truthyReal (x : option R) : option R :=
  match x with
  | Some v => if Req_EM_T v 0 then None else Some v
  | None => None
  end.

Section Vehicles.
Variable OccupancyStatusName : Z -> option string.
Variable CongestionLevelName : Z -> option string.
Variable longs : bool.

(** The object that [getVehiclePositions] pushes for a vehicle with a
    position that has both coordinates. *)
Definition vehicleOf (nowMs : Z) (id : string) (v : VehicleMessage)
    (position : Position) (lat lon : R) : VehiclePosition :=
  let trip := vm_trip v in
  {| vehicleId :=
       match Js.truthyStr
               (match vm_vehicle v with Some d => vd_id d | None => None end) with
       | Some own => own
       | None => id
       end;
     vp_routeId :=
       match Js.truthyStr
               (match trip with Some d => td_routeId d | None => None end) with
       | Some route => route
       | None => ""
       end;
     vp_tripId :=
       Js.truthyStr (match trip with Some d => td_tripId d | None => None end);
     vp_latitude := lat;
     vp_longitude := lon;
     vp_bearing := truthyReal (pos_bearing position);
     vp_speed := truthyReal (pos_speed position);
     vp_timestamp :=
       match number64 longs (vm_timestamp v) with
       | Some t => IZR t
       | None => (IZR nowMs / 1000)%R
       end;
     occupancyStatus := enumName OccupancyStatusName (vm_occupancyStatus v);
     congestionLevel := enumName CongestionLevelName (vm_congestionLevel v) |}.

(** The body of the [forEach] over [feed.entity]. *)
Definition scanVehicle (nowMs : Z) (routeId : option string)
    (vehicles : list VehiclePosition) (entity : VehicleEntity)
    : list VehiclePosition :=
  match vehicle entity with
  | Some v =>
      match vm_position v with
      | Some position =>
          let route :=
            match vm_trip v with Some d => td_routeId d | None => None end in
          if filteredOut routeId route then vehicles
          else
            match pos_latitude position, pos_longitude position with
            | Some lat, Some lon =>
                vehicles ++ [vehicleOf nowMs (ve_id entity) v position lat lon]
            | _, _ => vehicles
            end
      | None => vehicles
      end
  | None => vehicles
  end.

Definition getVehiclePositions (response : Fetched VehicleEntity) (nowMs : Z)
    (routeId : option string) : Outcome (list VehiclePosition) :=
  match response with
  | FetchFailure status statusText =>
      Throws ("Failed to fetch vehicle positions: " ++ Js.toString status ++ " "
              ++ statusText)%string
  | FetchMalformed message => Throws message
  | FetchFeed entity =>
      Returns (fold_left (scanVehicle nowMs routeId) entity [])
  end.
End Vehicles.

(** ** Request validation and pagination ([utils/api.ts], [index.ts])

    Page numbers, limits and counts are integers of type [Z]. *)

Record Pagination := mkPagination {
  pg_page : Z;
  pg_limit : Z;
  pg_total : Z;
  hasNext : bool;
  hasPrev : bool
}.

Record PaginatedResponse (A : Type) := mkPaginatedResponse {
  pr_success : bool;
  pr_timestamp : string;
  pr_data : list A;
  pagination : Pagination
}.
Arguments mkPaginatedResponse {A} pr_success pr_timestamp pr_data pagination.
Arguments pr_success {A} p.
Arguments pr_timestamp {A} p.
Arguments pr_data {A} p.
Arguments pagination {A} p.

(** [createPaginatedResponse]; [timestamp] is the rendering of the clock
    reading, [new Date().toISOString()]. *)
Definition createPaginatedResponse {A : Type} (timestamp : string)
    (data : list A) (page limit total : Z) : PaginatedResponse A :=
  let hasNext := page * limit <? total in
  let hasPrev := page >? 1 in
  {| pr_success := true;
     pr_timestamp := timestamp;
     pr_data := data;
     pagination :=
       {| pg_page := page; pg_limit := limit; pg_total := total;
          hasNext := hasNext; hasPrev := hasPrev |} |}.

(** The position that an integer argument of [slice] denotes in an array of
    length [len]: a negative argument counts from the end, and the result
    is clamped to the array. *)
Definition sliceIndex (i : Z) (len : nat) : nat :=
  if i <? 0 then Z.to_nat (Z.max (Z.of_nat len + i) 0)
  else Z.to_nat (Z.min i (Z.of_nat len)).

(** [arr.slice(start, end)] for integer arguments. *)
Definition slice {A : Type} (start finish : Z) (l : list A) : list A :=
  let k := sliceIndex start (length l) in
  let final := sliceIndex finish (length l) in
  firstn (final - k) (skipn k l).

Section Requests.
(** [parseInt(value, 10)]; [None] is [NaN]. *)
Variable parseInt : string -> option Z.

Definition validatePositiveInteger (value : option string) (defaultValue : Z)
    : Z :=
  match Js.truthyStr value with
  | None => defaultValue
  | Some v =>
      match parseInt v with
      | None => defaultValue
      | Some parsed => if parsed <=? 0 then defaultValue else parsed
      end
  end.

(** The handler of [GET /api/routes].  [allRoutes] is what [getAllRoutes]
    returns, the routes of the index in insertion order; [page] and [limit]
    are the query parameters, ["1"] and ["50"] when absent. *)
Definition routesPage (timestamp : string) (allRoutes : list GTFSRoute)
    (page limit : option string) : PaginatedResponse GTFSRoute :=
  let pageNum := validatePositiveInteger (Some (orDefault page "1")) 1 in
  let limitNum :=
    Z.min (validatePositiveInteger (Some (orDefault limit "50")) 50) 100 in
  let total := Z.of_nat (length allRoutes) in
  let startIndex := (pageNum - 1) * limitNum in
  let endIndex := startIndex + limitNum in
  let paginatedRoutes := slice startIndex endIndex allRoutes in
  createPaginatedResponse timestamp paginatedRoutes pageNum limitNum total.

(** The service call of the handler of [GET /api/arrivals/:stopId]:
    [maxArrivals] is the [max] query parameter, 5 by default, capped by the
    configured [maxArrivalsPerRoute]. *)
Definition arrivalsRequest (maxArrivalsPerRoute : Z) (svc : GTFSService)
    (response : FetchResult) (nowMs : Z) (stop : string)
    (routeId max : option string) : Outcome (list BusArrival) :=
  let maxArrivals :=
    Z.min (validatePositiveInteger max 5) maxArrivalsPerRoute in
  getNextArrivals svc response nowMs stop routeId (Some maxArrivals).

(** The service call of the handler of [GET /api/departures/:stopId]. *)
Definition departuresRequest (LocalTZA : Z -> bool -> Z)
    (toNumber : string -> option Z) (maxArrivalsPerRoute : Z)
    (svc : GTFSService) (nowMs : Z) (stop : string)
    (routeId max : option string) : list BusDeparture :=
  let maxDepartures :=
    Z.min (validatePositiveInteger max 5) maxArrivalsPerRoute in
  getScheduledDepartures LocalTZA toNumber svc nowMs stop routeId
    (Some maxDepartures).
End Requests.

(** ** Loading the static catalog

    The text files of the bundle are strings; a missing file is [None].  The
    characters that [trim] removes are those of the white space of the
    runtime, a parameter of the loaders, and so is [parseFloat]. *)

(** [value || fallback] on strings. *)
Definition orString (value fallback : string) : string :=
  if decide (value = "") then fallback else value.




Section Loaders.
Variable isWhiteSpace : ascii -> bool.
Variable parseFloat : string -> option R.

Fixpoint trimStart (s : string) : string :=
  match s with
  | EmptyString => EmptyString
  | String c rest => if isWhiteSpace c then trimStart rest else s
  end.

Fixpoint trimEnd (s : string) : string :=
  match s with
  | EmptyString => EmptyString
  | String c rest =>
      match trimEnd rest with
      | EmptyString => if isWhiteSpace c then EmptyString else String c EmptyString
      | kept => String c kept
      end
  end.

(** [s.trim()]. *)
Definition trim (s : string) : string := trimEnd (trimStart s).

(** The callback of the [forEach] of [loadRoutes] over the data lines. *)
Definition loadRouteLine (index : gmap string GTFSRoute) (line : string)
    : gmap string GTFSRoute :=
  if decide (trim line = "") then index
  else
    let fields := Js.split "," line in
    if (6 <=? length fields)%nat then
      let id := trim (nth 0 fields "") in
      let short := trim (nth 1 fields "") in
      let long := trim (nth 2 fields "") in
      let color := trim (nth 4 fields "") in
      let textColor := trim (nth 5 fields "") in
      <[id := {| routeId := id;
                 shortName := short;
                 longName := long;
                 routeColor := orString color "000000";
                 routeTextColor := orString textColor "FFFFFF" |}]> index
    else index.

(** [loadRoutes]: the first line is the header, every other line is
    data. *)
Definition loadRoutes (file : option string) (svc : GTFSService)
    : Outcome GTFSService :=
  match file with
  | None => Throws "routes.txt not found in GTFS zip"
  | Some routesData =>
      let lines := Js.split "010"%char routesData in
      Returns
        {| routes := fold_left loadRouteLine (tl lines) (routes svc);
           trips := trips svc; stops := stops svc;
           stopTimes := stopTimes svc; routeStops := routeStops svc |}
  end.

(** The callback of the [forEach] of [loadTrips]. *)
Definition loadTripLine (index : gmap string GTFSTrip) (line : string)
    : gmap string GTFSTrip :=
  if decide (trim line = "") then index
  else
    let fields := Js.split "," line in
    if (4 <=? length fields)%nat then
      let route := trim (nth 0 fields "") in
      let id := trim (nth 2 fields "") in
      let headsign := trim (nth 3 fields "") in
      <[id := {| tripId := id; trip_routeId := route;
                 tripHeadsign := headsign |}]> index
    else index.

Definition loadTrips (file : option string) (svc : GTFSService)
    : Outcome GTFSService :=
  match file with
  | None => Throws "trips.txt not found in GTFS zip"
  | Some tripsData =>
      let lines := Js.split "010"%char tripsData in
      Returns
        {| routes := routes svc;
           trips := fold_left loadTripLine (tl lines) (trips svc);
           stops := stops svc;
           stopTimes := stopTimes svc; routeStops := routeStops svc |}
  end.


End Loaders.

Section NearbyRequest.
(** [parseFloat(value)]; [None] is [NaN]. *)
Variable parseFloat : string -> option R.



End NearbyRequest.

(** * Vocabulary of the properties

    Notions that the statements below use: what a grouping map holds for a
    route, what a feed entity or a trip contributes to it, and the
    reference definitions that the code is compared with. *)

(** An array in non-decreasing order of a numeric key. *)
Definition sortedBy {A : Type} (key : A -> Z) (l : list A) : Prop :=
  Sorted (fun a b => key a <= key b) l.

(** The number of elements of [l] whose key is below the key of [x]. *)
Definition rank {A : Type} (key : A -> Z) (x : A) (l : list A) : nat :=
  length (List.filter (fun y => key y <? key x) l).

(** The array stored for a route in a grouping map (empty when the route has
    no group). *)
Definition group {X : Type} (id : string) (m : list (string * list X)) : list X :=
  orDefault (JsMap.get id m) [].

(** Whether a route id has an entry in the route index. *)
Definition knownRoute (svc : GTFSService) (id : string) : bool :=
  match routes svc !! id with Some _ => true | None => false end.

(** Whether the character [c] occurs in [s]. *)
Fixpoint occurs (c : ascii) (s : string) : bool :=
  match s with
  | EmptyString => false
  | String c' rest => Ascii.eqb c' c || occurs c rest
  end.

(** [first] is the part of [s] in front of the first separator (all of [s]
    when there is none). *)
Definition firstSegment (sep : ascii) (s first : string) : Prop :=
  occurs sep first = false /\
  (s = first \/ exists rest, s = (first ++ String sep rest)%string).

(** The element that [processUpdate] stores for an update. *)
Definition arrivalOf (trip : string) (time : Z) (event : StopTimeEvent)
    (update : StopTimeUpdate) : Arrival :=
  {| a_time := time;
     a_tripId := trip;
     a_delay := orZero (ev_delay event);
     a_uncertainty := Js.truthyNum (ev_uncertainty event);
     a_scheduleRelationship :=
       scheduleRelationshipName (stu_scheduleRelationship update) |}.

(** What one update adds to the group of route [id]. *)
Definition updateYield (stop : string) (currentTime : Z)
    (trip route : option string) (id : string) (update : StopTimeUpdate)
    : list Arrival :=
  match stu_stopId update, stu_arrival update,
        Js.truthyStr trip, Js.truthyStr route with
  | Some s, Some event, Some tripId, Some routeId =>
      match Js.truthyNum (ev_time event) with
      | Some time =>
          if bool_decide (s = stop) && bool_decide (routeId = id)
             && (currentTime <? time) && (time <? currentTime + 7200)
          then [arrivalOf tripId time event update]
          else []
      | None => []
      end
  | _, _, _, _ => []
  end.

(** What one feed entity adds to the group of route [id]. *)
Definition entityYield (stop : string) (routeFilter : option string)
    (currentTime : Z) (id : string) (entity : FeedEntity) : list Arrival :=
  match tripUpdate entity with
  | Some tu =>
      let trip := match tu_trip tu with Some d => td_tripId d | None => None end in
      let route := match tu_trip tu with Some d => td_routeId d | None => None end in
      if filteredOut routeFilter route then []
      else flat_map (updateYield stop currentTime trip route id) (stopTimeUpdate tu)
  | None => []
  end.

(** Local midnight of day number [day] is an instant of the time line whose
    local reading is midnight of that day (it always is in a zone with a
    fixed offset; a daylight-saving change at midnight can prevent it). *)
Definition midnightSettled (LocalTZA : Z -> bool -> Z) (day : Z) : Prop :=
  exists u,
    JsDate.TimeClip (JsDate.UTC LocalTZA (JsDate.MakeDate day 0)) = Some u /\
    JsDate.LocalTime LocalTZA u = day * JsDate.msPerDay.

(** The Unix time, in seconds, of the local wall-clock reading [h:m:s] on
    the local day number [day]. *)
Definition wallClock (LocalTZA : Z -> bool -> Z) (day h m s : Z) : option Z :=
  option_map (fun ms => ms / 1000)
    (JsDate.TimeClip
       (JsDate.UTC LocalTZA (JsDate.MakeDate day (JsDate.MakeTime h m s 0)))).

(** What one trip of the stop-time index adds to the group of route [id]. *)
Definition tripYield (LocalTZA : Z -> bool -> Z)
    (toNumber : string -> option Z) (svc : GTFSService)
    (nowMs : Z) (stop : string)
    (routeFilter : option string) (id : string)
    (entry : string * list GTFSStopTime) : list Departure :=
  match trips svc !! fst entry with
  | Some trip =>
      if routeMismatch routeFilter (trip_routeId trip) then []
      else
        match find (fun st => bool_decide (st_stopId st = stop)) (snd entry) with
        | Some stopTime =>
            match parseGtfsTime LocalTZA toNumber nowMs (departureTime stopTime) with
            | Some t =>
                if bool_decide (trip_routeId trip = id)
                   && (nowMs / 1000 <? t) && (t <? nowMs / 1000 + 86400)
                then [ {| d_time := t; d_tripId := fst entry |} ]
                else []
            | None => []
            end
        | None => []
        end
  | None => []
  end.

(** Every entry of a [uniqueDepartures] map sits under its own time. *)
Definition keyed (unique : list (Z * Departure)) : Prop :=
  Forall (fun entry => fst entry = d_time (snd entry)) unique.

(** The departure time [t] is the conversion of the first entry at [stop]
    of the stop times of trip [id]: the entry that [find] returns, in front
    of which no entry is at the stop and whose [stopSequence] is the least
    among the entries of the trip at the stop. *)
Definition firstVisit (LocalTZA : Z -> bool -> Z)
    (toNumber : string -> option Z) (svc : GTFSService)
    (nowMs : Z) (stop : string)
    (id : string) (t : Z) : Prop :=
  exists times st,
    JsMap.get id (stopTimes svc) = Some times /\
    find (fun st => bool_decide (st_stopId st = stop)) times = Some st /\
    (exists before after,
       times = before ++ st :: after /\
       forall st', In st' before -> st_stopId st' <> stop) /\
    (forall st', In st' times -> st_stopId st' = stop ->
                 stopSequence st <= stopSequence st') /\
    parseGtfsTime LocalTZA toNumber nowMs (departureTime st) = Some t.

Section GeoVocabulary.
Local Open Scope R_scope.

(** The haversine of the central angle between two points given in
    degrees. *)
Definition hav (lat1 lon1 lat2 lon2 : R) : R :=
  (sin (toRadians (lat2 - lat1) / 2))² +
  cos (toRadians lat1) * cos (toRadians lat2) *
  (sin (toRadians (lon2 - lon1) / 2))².

(** The great-circle distance by the haversine formula on a sphere of
    radius 6,371,000 metres: [2 r asin (sqrt hav)]. *)
Definition haversineDistance (lat1 lon1 lat2 lon2 : R) : R :=
  2 * 6371000 * asin (sqrt (hav lat1 lon1 lat2 lon2)).

(** Whether a stop lies within [radiusMeters] of the point. *)
Definition within (latitude longitude radiusMeters : R) (stop : GTFSStop) : bool :=
  if Rle_dec (calculateDistance latitude longitude (stopLat stop) (stopLon stop))
       radiusMeters
  then true else false.


End GeoVocabulary.

Section DoubleVocabulary.
Import PrimFloat.
Variables sin cos : float -> float.
Variable atan2 : float -> float -> float.





End DoubleVocabulary.

(** What one line of [stop_times.txt] adds to the array of trip [id]. *)
Definition rowYield (id : string) (row : StopTimeFields) : list GTFSStopTime :=
  match Js.truthyStr (f_tripId row), Js.truthyStr (f_stopId row),
        Js.truthyStr (f_arrivalTime row), Js.truthyStr (f_departureTime row),
        f_stopSequence row with
  | Some tripId, Some stopId, Some arrival, Some departure, Some sequence =>
      if bool_decide (tripId = id)
      then [ {| st_tripId := tripId; arrivalTime := arrival;
                departureTime := departure; st_stopId := stopId;
                stopSequence := sequence |} ]
      else []
  | _, _, _, _, _ => []
  end.

(** Every group of a grouping map holds at least one element. *)
Definition populated {X : Type} (m : list (string * list X)) : Prop :=
  Forall (fun entry => snd entry <> []) m.

(** The stop times of the trips of route [id], in the order of the trips
    and, within a trip, of the array of the trip in the stop-time index. *)
Definition timesOfRoute (index : list (string * list GTFSStopTime))
    (tripEntries : list (string * GTFSTrip)) (id : string) : list GTFSStopTime :=
  flat_map
    (fun entry =>
       if bool_decide (trip_routeId (snd entry) = id)
       then orDefault (JsMap.get (fst entry) index) []
       else [])
    tripEntries.

(** Stop [stop] is called at by a trip of route [id]. *)
Definition servedBy (index : list (string * list GTFSStopTime))
    (tripEntries : list (string * GTFSTrip)) (id stop : string) : Prop :=
  exists key trip times stopTime,
    In (key, trip) tripEntries /\ trip_routeId trip = id /\
    JsMap.get key index = Some times /\
    In stopTime times /\ st_stopId stopTime = stop.

(** An alert of the answer names the wanted route or the wanted stop in one
    of the informed entities that it shows. *)
Definition namesRouteOrStop (routeId stopId : option string) (a : ServiceAlert)
    : bool :=
  existsb
    (fun informed =>
       match Js.truthyStr routeId with
       | Some wanted => Js.strictEq (ie_routeId informed) wanted
       | None => false
       end
       ||
       match Js.truthyStr stopId with
       | Some wanted => Js.strictEq (ie_stopId informed) wanted
       | None => false
       end)
    (informedEntities a).


(** * Sample data

    A catalog with route "1" and five trips (trip "T9" is on route "99",
    which has no route entry), a feed with one stop-time update, a schedule
    in Pacific standard time (UTC-8, fixed) read at 2025-11-01 04:26:40
    local time, and a catalog with one stop. *)

Definition sampleRoute : GTFSRoute :=
  mkRoute "1" "1" "University/Downtown" "000000" "FFFFFF".

Definition sampleService : GTFSService :=
  {| routes := {[ "1" := sampleRoute ]};
     trips := {[ "T1" := mkTrip "T1" "1" "Downtown";
                 "T2" := mkTrip "T2" "1" "University";
                 "T3" := mkTrip "T3" "1" "Night owl";
                 "T4" := mkTrip "T4" "1" "Crosstown";
                 "T9" := mkTrip "T9" "99" "Depot" ]};
     stops := [];
     stopTimes := [];
     routeStops := [] |}.

Definition sampleEvent (time : Z) : StopTimeEvent :=
  mkEvent (Some time) (Some 0) None.

Definition sampleUpdate (time : Z) : StopTimeUpdate :=
  mkUpdate (Some "12345") (Some (sampleEvent time)) None.

Definition sampleEntity (route : string) (time : Z) : FeedEntity :=
  mkEntity "e1"
    (Some (mkTripUpdate (Some (mkDescriptor (Some "T1") (Some route)))
             [sampleUpdate time])).

(** Four trips of route "1" at stop "S100": "T1" calls there twice (23:00:00
    and 23:30:00), "T2" leaves at the same 23:00:00, "T3" at 25:10:00
    (01:10:00 of the next day) and "T4" at 22:30:00. *)
Definition samplePST : Z -> bool -> Z := fun _ _ => -28800000.

Definition sampleNowMs : Z := 1762000000000.

Definition sampleRow (trip stop time : string) (sequence : Z) : StopTimeFields :=
  mkFields (Some trip) (Some stop) (Some time) (Some time) (Some sequence).

Definition sampleRows : list StopTimeFields :=
  [ sampleRow "T1" "S100" "23:30:00" 3;
    sampleRow "T1" "S100" "23:00:00" 2;
    sampleRow "T1" "S1" "22:00:00" 1;
    sampleRow "T2" "S100" "23:00:00" 1;
    sampleRow "T3" "S100" "25:10:00" 7;
    sampleRow "T4" "S100" "22:30:00" 4 ].

Definition scheduleService : GTFSService :=
  loadStopTimes (Some sampleRows) sampleService.

(** A catalog with one stop, in downtown Victoria. *)
Definition sampleStop : GTFSStop :=
  mkStop "S100" "Douglas at Yates" None 48.4284%R (-123.3656)%R None.





(** A stop 2^-600 of a degree (about 2.4e-181 degrees) north of the query
    point (0, 0), and the three functions of the runtime at the arguments
    that the search for it reaches: for an argument below 2^-27 in
    magnitude [Math.sin] returns the argument and [Math.cos] returns 1
    (the small-argument case of fdlibm); [Math.atan2] of +0 and a positive
    number is +0 (fixed by the language).  Elsewhere the samples are
    [NaN]. *)
Section DoubleSamples.
Import PrimFloat.
Local Open Scope float_scope.

Definition smallSin (x : float) : float :=
  if abs x <? 0x1p-27 then x else nan.

Definition smallCos (x : float) : float :=
  if abs x <? 0x1p-27 then 1 else nan.

Definition zeroAtan2 (y x : float) : float :=
  if Leibniz.eqb y 0 && (0 <? x) then 0 else nan.



(** A stop at the query point (0, 0) itself. *)
Definition originStop : Double.GTFSStop :=
  Double.mkStop "O" "Null Island" None 0 0 None.
End DoubleSamples.

(** A feed with three trip updates at stop "12345": two on route "1", 300
    and 180 seconds ahead of a clock at 1000, and one on route "99". *)
Definition sampleFeed : list FeedEntity :=
  [ sampleEntity "1" 1300; sampleEntity "1" 1180; sampleEntity "99" 1100 ].

Definition sampleArrivalTime (time minutes : Z) (status : string) : ArrivalTime :=
  {| at_time := time; at_headsign := "Downtown";
     minutesUntilArrival := minutes; delaySeconds := 0;
     isRealTime := true; at_uncertainty := None; at_status := status |}.

Definition sampleBusArrival (times : list ArrivalTime) : BusArrival :=
  {| ba_stopId := "12345"; ba_routeId := "1";
     ba_routeShortName := "1"; ba_routeLongName := "University/Downtown";
     ba_routeColor := "000000"; ba_routeTextColor := "FFFFFF";
     ba_tripHeadsign := "Downtown";
     arrivalTimes := times |}.

(** The entry of route "1" at stop "S100" in the sample schedule. *)
Definition sampleDepartureTime (time : Z) (headsign : string) (minutes : Z)
    (status : string) : DepartureTime :=
  {| dt_time := time; dt_headsign := headsign;
     minutesUntilDeparture := minutes; isScheduled := true;
     dt_status := status |}.

Definition sampleBusDeparture (headsign : string) (times : list DepartureTime)
    : BusDeparture :=
  {| bd_stopId := "S100"; bd_routeId := "1";
     bd_routeShortName := "1"; bd_routeLongName := "University/Downtown";
     bd_routeColor := "000000"; bd_routeTextColor := "FFFFFF";
     bd_tripHeadsign := headsign;
     departureTimes := times |}.

Definition sampleDepartures : BusDeparture :=
  sampleBusDeparture "Crosstown"
    [ sampleDepartureTime 1762065000 "Crosstown" 1083 "1083 min";
      sampleDepartureTime 1762066800 "Downtown" 1113 "1113 min";
      sampleDepartureTime 1762074600 "Night owl" 1243 "1243 min" ].

Definition sampleNextDeparture : BusDeparture :=
  sampleBusDeparture "Crosstown"
    [ sampleDepartureTime 1762065000 "Crosstown" 1083 "1083 min" ].

(** The trips of the sample catalog in the order of [trips.txt], and the
    two stops of the sample schedule. *)
Definition sampleTripEntries : list (string * GTFSTrip) :=
  [ ("T1", mkTrip "T1" "1" "Downtown");
    ("T2", mkTrip "T2" "1" "University");
    ("T3", mkTrip "T3" "1" "Night owl");
    ("T4", mkTrip "T4" "1" "Crosstown");
    ("T9", mkTrip "T9" "99" "Depot") ].

Definition sampleStopS1 : GTFSStop :=
  mkStop "S1" "Douglas at Fort" None 48.4251%R (-123.3656)%R None.

Definition browsingService : GTFSService :=
  buildRouteStopsMapping sampleTripEntries
    {| routes := routes scheduleService; trips := trips scheduleService;
       stops := [("S100", sampleStop); ("S1", sampleStopS1)];
       stopTimes := stopTimes scheduleService; routeStops := [] |}.

(** An alerts feed: one alert for route "1", one for stop "S100", one for
    the whole agency "48"; and a vehicle feed with a bus on route "1", a bus
    on route "2" and a bus without a trip. *)
Definition sampleAlert (informed : list EntitySelector) : Alert :=
  mkAlert [] informed (Some 2) (Some 4)
    (Some (mkTranslatedString [mkTranslation (Some "Detour")])) None.

Definition sampleAlerts : list AlertEntity :=
  [ mkAlertEntity "a1" (Some (sampleAlert [mkSelector None (Some "1") None]));
    mkAlertEntity "a2" (Some (sampleAlert [mkSelector None None (Some "S100")]));
    mkAlertEntity "a3" (Some (sampleAlert [mkSelector (Some "48") None None])) ].

Definition sampleEnumName : Z -> option string := fun _ => None.

Definition sampleVehicle (id : string) (trip : option TripDescriptor)
    : VehicleEntity :=
  mkVehicleEntity id
    (Some (mkVehicleMessage trip None
             (Some (mkPosition (Some 0%R) (Some 0%R) None None))
             (Some 1000) None None)).

Definition sampleVehicles : list VehicleEntity :=
  [ sampleVehicle "v1" (Some (mkDescriptor (Some "T1") (Some "1")));
    sampleVehicle "v2" (Some (mkDescriptor (Some "T7") (Some "2")));
    sampleVehicle "v3" None ].

(** Three routes, and a [parseInt] that knows the decimal digit strings. *)
Definition sampleRoutes : list GTFSRoute :=
  [ sampleRoute;
    mkRoute "2" "2" "James Bay" "000000" "FFFFFF";
    mkRoute "3" "3" "Beacon Hill" "000000" "FFFFFF" ].

Definition sampleParseInt (s : string) : option Z :=
  if decide (s = "") then None else Js.Number s.

(** A service before loading, the white space of ASCII, and two files of a
    bundle; the second data line of the route file has no colours. *)
Definition emptyService : GTFSService :=
  {| routes := ∅; trips := ∅; stops := []; stopTimes := []; routeStops := [] |}.

Definition sampleWhiteSpace (c : ascii) : bool :=
  let n := nat_of_ascii c in
  ((9 <=? n) && (n <=? 13))%nat || (n =? 32)%nat.

Definition newline : string := String "010"%char EmptyString.

Definition sampleRoutesFile : string :=
  ("route_id,route_short_name,route_long_name,route_type,route_color,route_text_color"
   ++ newline ++ "2,2,James Bay,3,0000FF,FFFFFF"
   ++ newline ++ " 1 ,1,University/Downtown,3,,"
   ++ newline ++ "3,3,Beacon Hill")%string.

Definition sampleTripsFile : string :=
  ("route_id,service_id,trip_id,trip_headsign"
   ++ newline ++ "1,weekday,T1,Downtown"
   ++ newline)%string.

Definition loadedService : GTFSService :=
  {| routes :=
       fold_left (loadRouteLine sampleWhiteSpace)
         (tl (Js.split "010"%char sampleRoutesFile)) ∅;
     trips :=
       fold_left (loadTripLine sampleWhiteSpace)
         (tl (Js.split "010"%char sampleTripsFile)) ∅;
     stops := []; stopTimes := []; routeStops := [] |}.




(** * Properties *)

(** ** Arrays: sorting and slicing *)

Section SortFacts.
Context {A : Type} (key : A -> Z).

Lemma insert_perm (x : A) (l : list A) :
  Permutation (x :: l) (Js.insert key x l).
Proof.
  induction l as [| y l IH]; simpl.
  - apply Permutation_refl.
  - destruct (key x <=? key y).
    + apply Permutation_refl.
    + eapply perm_trans; [apply perm_swap |].
      apply perm_skip, IH.
Qed.

Lemma sortBy_perm (l : list A) : Permutation l (Js.sortBy key l).
Proof.
  induction l as [| x l IH]; simpl.
  - apply perm_nil.
  - eapply perm_trans; [apply perm_skip, IH | apply insert_perm].
Qed.

Lemma sortBy_In (l : list A) (x : A) : In x (Js.sortBy key l) <-> In x l.
Proof.
  split; apply Permutation_in;
    [apply Permutation_sym |]; apply sortBy_perm.
Qed.

Lemma insert_hd (x y : A) (l : list A) :
  key y <= key x ->
  HdRel (fun a b => key a <= key b) y l ->
  HdRel (fun a b => key a <= key b) y (Js.insert key x l).
Proof.
  intros Hyx Hhd. destruct l as [| z l]; simpl.
  - constructor. exact Hyx.
  - destruct (key x <=? key z); constructor.
    + exact Hyx.
    + inversion Hhd; subst. assumption.
Qed.

Lemma insert_sorted (x : A) (l : list A) :
  sortedBy key l -> sortedBy key (Js.insert key x l).
Proof.
  unfold sortedBy. induction 1 as [| y l Hs IH Hhd]; simpl.
  - repeat constructor.
  - destruct (key x <=? key y) eqn:E.
    + apply Z.leb_le in E. repeat constructor; assumption.
    + apply Z.leb_gt in E. constructor; [exact IH |].
      apply insert_hd; [lia | exact Hhd].
Qed.

Lemma sortBy_sorted (l : list A) : sortedBy key (Js.sortBy key l).
Proof.
  induction l as [| x l IH]; simpl.
  - constructor.
  - apply insert_sorted, IH.
Qed.

Lemma sortedBy_map (l : list A) : sortedBy key l <-> Sorted Z.le (map key l).
Proof.
  unfold sortedBy. induction l as [| x l IH]; simpl.
  - split; constructor.
  - split; intros H; inversion H as [| ? ? Hs Hhd]; subst;
      (constructor; [apply IH; exact Hs |]);
      destruct l; simpl in *; constructor; inversion Hhd; subst; assumption.
Qed.

End SortFacts.

Lemma firstn_incl {A : Type} (n : nat) (l : list A) (x : A) :
  In x (firstn n l) -> In x l.
Proof.
  revert l. induction n as [| n IH]; intros [| y l]; simpl; try tauto.
  intros [H | H]; [left; exact H | right; apply IH, H].
Qed.

Lemma slice0_incl {A : Type} (n : Z) (l : list A) (x : A) :
  In x (Js.slice0 n l) -> In x l.
Proof.
  unfold Js.slice0. apply firstn_incl.
Qed.

(** ** Insertion-ordered maps *)

Section JsMapFacts.
Context {K : Type} `{EqDecision K} {V : Type}.
Implicit Types (m : list (K * V)) (k : K) (v : V).

Lemma get_set m k k' v :
  JsMap.get k' (JsMap.set k v m) =
  if decide (k = k') then Some v else JsMap.get k' m.
Proof.
  induction m as [| [k0 v0] m IH]; simpl.
  - destruct (decide (k = k')); reflexivity.
  - destruct (decide (k0 = k)) as [-> | Hne]; simpl.
    + destruct (decide (k = k')); reflexivity.
    + destruct (decide (k0 = k')) as [-> | Hne'].
      * destruct (decide (k = k')); [congruence | reflexivity].
      * exact IH.
Qed.

Lemma get_None_keys m k : JsMap.get k m = None <-> ~ In k (JsMap.keys m).
Proof.
  induction m as [| [k0 v0] m IH]; simpl.
  - tauto.
  - destruct (decide (k0 = k)) as [-> | Hne].
    + split; [discriminate | tauto].
    + rewrite IH. tauto.
Qed.

Lemma get_In m k v : JsMap.get k m = Some v -> In (k, v) m.
Proof.
  induction m as [| [k0 v0] m IH]; simpl; [discriminate |].
  destruct (decide (k0 = k)) as [-> | Hne].
  - intros [= ->]. left. reflexivity.
  - intros H. right. apply IH, H.
Qed.

Lemma has_keys m k : JsMap.has k m = true <-> In k (JsMap.keys m).
Proof.
  unfold JsMap.has. destruct (JsMap.get k m) eqn:E.
  - split; [intros _ | reflexivity].
    apply get_In in E. change k with (fst (k, v)). apply in_map, E.
  - apply get_None_keys in E. split; [discriminate | tauto].
Qed.

Lemma keys_set m k v :
  JsMap.keys (JsMap.set k v m) =
  if JsMap.has k m then JsMap.keys m else JsMap.keys m ++ [k].
Proof.
  unfold JsMap.has. induction m as [| [k0 v0] m IH]; simpl.
  - reflexivity.
  - destruct (decide (k0 = k)) as [-> | Hne]; simpl.
    + reflexivity.
    + rewrite IH. destruct (JsMap.get k m); reflexivity.
Qed.

Lemma In_get m k v :
  List.NoDup (JsMap.keys m) -> In (k, v) m -> JsMap.get k m = Some v.
Proof.
  induction m as [| [k0 v0] m IH]; simpl; [tauto |].
  intros Hnd [Heq | Hin].
  - inversion Heq; subst. destruct (decide (k = k)); congruence.
  - inversion Hnd as [| ? ? Hnotin Hnd']; subst.
    destruct (decide (k0 = k)) as [-> | Hne].
    + exfalso. apply Hnotin. change k with (fst (k, v)).
      apply in_map, Hin.
    + apply IH; assumption.
Qed.

Lemma NoDup_keys_set m k v :
  List.NoDup (JsMap.keys m) -> List.NoDup (JsMap.keys (JsMap.set k v m)).
Proof.
  intros Hnd. rewrite keys_set. destruct (JsMap.has k m) eqn:E; [exact Hnd |].
  apply List.NoDup_app; [exact Hnd | |].
  - repeat constructor. simpl. tauto.
  - intros x Hx [<- | []]. apply has_keys in Hx. congruence.
Qed.
End JsMapFacts.

Section PushFacts.
Context {K : Type} `{EqDecision K} {X : Type}.
Implicit Types (m : list (K * list X)) (k : K) (x : X).

Lemma has_get m k :
  JsMap.has k m = match JsMap.get k m with Some _ => true | None => false end.
Proof. reflexivity. Qed.

Lemma get_push m k k' x :
  JsMap.get k' (JsMap.push k x m) =
  if decide (k = k') then Some (orDefault (JsMap.get k m) [] ++ [x])
  else JsMap.get k' m.
Proof.
  unfold JsMap.push. rewrite has_get.
  destruct (JsMap.get k m) as [arr |] eqn:E.
  - rewrite E, get_set. reflexivity.
  - rewrite get_set. destruct (decide (k = k)) as [_ | Hne]; [| congruence].
    rewrite !get_set. destruct (decide (k = k')); reflexivity.
Qed.

Lemma keys_push m k x :
  JsMap.keys (JsMap.push k x m) =
  if JsMap.has k m then JsMap.keys m else JsMap.keys m ++ [k].
Proof.
  unfold JsMap.push. destruct (JsMap.has k m) eqn:E.
  - pose proof E as E'. rewrite has_get in E'.
    destruct (JsMap.get k m); [| discriminate].
    rewrite keys_set, E. reflexivity.
  - rewrite get_set. destruct (decide (k = k)) as [_ | Hne]; [| congruence].
    rewrite keys_set. unfold JsMap.has at 1. rewrite get_set.
    destruct (decide (k = k)) as [_ | Hne]; [| congruence].
    rewrite keys_set, E. reflexivity.
Qed.

Lemma NoDup_keys_push m k x :
  List.NoDup (JsMap.keys m) -> List.NoDup (JsMap.keys (JsMap.push k x m)).
Proof.
  intros Hnd. rewrite keys_push. destruct (JsMap.has k m) eqn:E; [exact Hnd |].
  apply List.NoDup_app; [exact Hnd | |].
  - repeat constructor. simpl. tauto.
  - intros y Hy [<- | []]. apply has_keys in Hy. congruence.
Qed.
End PushFacts.

(** ** Status classification *)

(** C2.  The arrival status rules are tried in a fixed order:
    [minutesUntil <= 1] gives "Arriving"; otherwise [minutesUntil <= 2] gives
    "Due", whatever the delay; otherwise a delay above 300 seconds gives
    "Delayed"; otherwise a delay below -60 seconds gives "Early"; otherwise
    the status is the decimal rendering of [minutesUntil] followed by
    " min". *)
Theorem getArrivalStatus_rules (minutesUntil delaySeconds : Z) :
  (minutesUntil <= 1 ->
     getArrivalStatus minutesUntil delaySeconds = "Arriving") /\
  (1 < minutesUntil <= 2 ->
     getArrivalStatus minutesUntil delaySeconds = "Due") /\
  (2 < minutesUntil -> 300 < delaySeconds ->
     getArrivalStatus minutesUntil delaySeconds = "Delayed") /\
  (2 < minutesUntil -> delaySeconds < -60 ->
     getArrivalStatus minutesUntil delaySeconds = "Early") /\
  (2 < minutesUntil -> -60 <= delaySeconds <= 300 ->
     getArrivalStatus minutesUntil delaySeconds =
     (Js.toString minutesUntil ++ " min")%string).
Proof.
  unfold getArrivalStatus.
  repeat split; intros;
    repeat match goal with
    | |- context [?a <=? ?b] => destruct (Z.leb_spec a b); try lia
    | |- context [?a >? ?b] => rewrite (Z.gtb_ltb a b)
    | |- context [?a <? ?b] => destruct (Z.ltb_spec a b); try lia
    end; reflexivity.
Qed.

Lemma getArrivalStatus_rules_witness :
  getArrivalStatus 1 0 = "Arriving" /\
  getArrivalStatus 2 400 = "Due" /\
  getArrivalStatus 10 310 = "Delayed" /\
  getArrivalStatus 10 (-90) = "Early" /\
  getArrivalStatus 10 0 = "10 min".
Proof.
  split; [apply (getArrivalStatus_rules 1 0); lia |].
  split; [apply (getArrivalStatus_rules 2 400); lia |].
  split; [apply (getArrivalStatus_rules 10 310); lia |].
  split; [apply (getArrivalStatus_rules 10 (-90)); lia |].
  apply (getArrivalStatus_rules 10 0); lia.
Defined.

Example getArrivalStatus_due_boundary : getArrivalStatus 2 0 = "Due".
Proof. reflexivity. Qed.

(** ** Lazy route synthesis *)

Lemma split_nonempty (sep : ascii) (s : string) : Js.split sep s <> [].
Proof.
  destruct s as [| c rest]; simpl; [discriminate |].
  destruct (Ascii.eqb c sep); [discriminate |].
  destruct (Js.split sep rest); discriminate.
Qed.

Lemma split_first (sep : ascii) (s : string) :
  firstSegment sep s (hd "" (Js.split sep s)).
Proof.
  unfold firstSegment. induction s as [| c rest IH]; simpl.
  - split; [reflexivity | left; reflexivity].
  - destruct (Ascii.eqb c sep) eqn:E; simpl.
    + apply Ascii.eqb_eq in E. subst c.
      split; [reflexivity | right; exists rest; reflexivity].
    + pose proof (split_nonempty sep rest) as Hne.
      destruct (Js.split sep rest) as [| first tl]; [congruence |].
      simpl in *. destruct IH as [Hocc Hshape]. rewrite E, Hocc.
      split; [reflexivity |].
      destruct Hshape as [-> | [rest' ->]];
        [left; reflexivity | right; exists rest'; reflexivity].
Qed.

(** C8.  [getOrCreateRoute] is a total function of the route id and the
    indexes.  A route id that is in the route index yields the stored route
    and leaves the indexes as they are.  Otherwise the route returned has the
    part of the id in front of the first "-" as short name (the id itself
    when that part is empty), the id as long name and the colours "000000"
    and "FFFFFF"; it is stored under the id and nothing else changes.  In
    both cases a second call with the same id returns the same route and
    changes nothing. *)
Theorem getOrCreateRoute_spec (id : string) (svc : GTFSService) :
  let result := getOrCreateRoute id svc in
  (forall existing, routes svc !! id = Some existing ->
     result = (existing, svc)) /\
  (routes svc !! id = None ->
     exists first,
       firstSegment "-" id first /\
       fst result =
         {| routeId := id;
            shortName := if decide (first = "") then id else first;
            longName := id;
            routeColor := "000000";
            routeTextColor := "FFFFFF" |} /\
       routes (snd result) = <[id := fst result]> (routes svc) /\
       trips (snd result) = trips svc /\
       stops (snd result) = stops svc /\
       stopTimes (snd result) = stopTimes svc /\
       routeStops (snd result) = routeStops svc) /\
  getOrCreateRoute id (snd result) = (fst result, snd result).
Proof.
  unfold getOrCreateRoute.
  destruct (routes svc !! id) as [route |] eqn:E; simpl.
  - split; [intros existing [= <-]; reflexivity |].
    split; [discriminate |]. rewrite E. reflexivity.
  - split; [discriminate |].
    split.
    + intros _. exists (hd "" (Js.split "-" id)).
      split; [apply split_first |]. repeat split; reflexivity.
    + rewrite lookup_insert_eq. reflexivity.
Qed.

(** ** Trip browsing *)

(** C9.  A trip that is in the trip index but whose route id has no entry in
    the route index has no details: [getTripDetails] returns nothing for it,
    whatever stop times are loaded.  The result is absent exactly when the
    trip is unknown or its route is. *)
Theorem getTripDetails_dangling_route (svc : GTFSService) (id : string) :
  (forall trip,
     trips svc !! id = Some trip ->
     routes svc !! trip_routeId trip = None ->
     getTripDetails svc id = None) /\
  (getTripDetails svc id = None <->
     trips svc !! id = None \/
     exists trip, trips svc !! id = Some trip /\
                  routes svc !! trip_routeId trip = None).
Proof.
  unfold getTripDetails. split.
  - intros trip -> ->. reflexivity.
  - destruct (trips svc !! id) as [trip |] eqn:Et.
    + destruct (routes svc !! trip_routeId trip) as [route |] eqn:Er.
      * split; [discriminate |].
        intros [H | (trip' & [= <-] & H)]; congruence.
      * split; [| reflexivity]. intros _. right. exists trip. tauto.
    + split; [| reflexivity]. intros _. left. reflexivity.
Qed.

(** ** Live arrivals *)

Lemma group_push {X : Type} (m : list (string * list X)) (k id : string) (x : X) :
  group id (JsMap.push k x m) =
  if decide (k = id) then group id m ++ [x] else group id m.
Proof.
  unfold group. rewrite get_push.
  destruct (decide (k = id)) as [-> |]; reflexivity.
Qed.

Lemma processUpdate_group stop currentTime trip route arrivals update id :
  group id (processUpdate stop currentTime trip route arrivals update) =
  group id arrivals ++ updateYield stop currentTime trip route id update.
Proof.
  unfold processUpdate, updateYield, Js.strictEq.
  destruct (stu_stopId update) as [s |]; [| now rewrite app_nil_r].
  destruct (bool_decide (s = stop)); simpl;
    destruct (stu_arrival update) as [event |]; try now rewrite app_nil_r.
  - destruct (Js.truthyNum (ev_time event)) as [time |];
      destruct (Js.truthyStr trip) as [tripId |];
      destruct (Js.truthyStr route) as [routeId |];
      try now rewrite app_nil_r.
    rewrite Z.gtb_ltb.
    destruct ((currentTime <? time) && (time <? currentTime + 7200)) eqn:W.
    + rewrite group_push. rewrite <- andb_assoc, W.
      destruct (decide (routeId = id)) as [-> | Hne].
      * rewrite bool_decide_eq_true_2 by reflexivity. reflexivity.
      * rewrite bool_decide_eq_false_2 by exact Hne. now rewrite app_nil_r.
    + rewrite <- andb_assoc, W, andb_false_r. now rewrite app_nil_r.
  - destruct (Js.truthyStr trip); destruct (Js.truthyStr route);
      try now rewrite app_nil_r.
    destruct (Js.truthyNum (ev_time event)); now rewrite app_nil_r.
Qed.

Lemma processUpdates_group stop currentTime trip route updates arrivals id :
  group id (fold_left (processUpdate stop currentTime trip route) updates arrivals) =
  group id arrivals ++
  flat_map (updateYield stop currentTime trip route id) updates.
Proof.
  revert arrivals. induction updates as [| u updates IH]; intros arrivals; simpl.
  - now rewrite app_nil_r.
  - rewrite IH, processUpdate_group, app_assoc. reflexivity.
Qed.

Lemma processEntity_group stop routeFilter currentTime arrivals entity id :
  group id (processEntity stop routeFilter currentTime arrivals entity) =
  group id arrivals ++ entityYield stop routeFilter currentTime id entity.
Proof.
  unfold processEntity, entityYield.
  destruct (tripUpdate entity) as [tu |]; [| now rewrite app_nil_r].
  destruct (filteredOut routeFilter _); [now rewrite app_nil_r |].
  apply processUpdates_group.
Qed.

Lemma collectArrivals_group stop routeFilter currentTime entities id :
  group id (collectArrivals stop routeFilter currentTime entities) =
  flat_map (entityYield stop routeFilter currentTime id) entities.
Proof.
  unfold collectArrivals.
  change (flat_map (entityYield stop routeFilter currentTime id) entities)
    with (group id (@nil (string * list Arrival)) ++
          flat_map (entityYield stop routeFilter currentTime id) entities).
  generalize (@nil (string * list Arrival)) as arrivals.
  induction entities as [| e entities IH]; intros arrivals; simpl.
  - now rewrite app_nil_r.
  - rewrite IH, processEntity_group, app_assoc. reflexivity.
Qed.

Lemma truthyStr_Some (s : option string) (v : string) :
  Js.truthyStr s = Some v <-> s = Some v /\ v <> "".
Proof.
  unfold Js.truthyStr. destruct s as [w |].
  - destruct (decide (w = "")) as [-> | Hne].
    + split; [discriminate | intros [[= <-] H]; congruence].
    + split; [intros [= <-]; tauto | intros [[= <-] _]; reflexivity].
  - split; [discriminate | intros [H _]; discriminate].
Qed.

Lemma truthyNum_Some (n : option Z) (v : Z) :
  Js.truthyNum n = Some v <-> n = Some v /\ v <> 0.
Proof.
  unfold Js.truthyNum. destruct n as [w |].
  - destruct (decide (w = 0)) as [-> | Hne].
    + split; [discriminate | intros [[= <-] H]; congruence].
    + split; [intros [= <-]; tauto | intros [[= <-] _]; reflexivity].
  - split; [discriminate | intros [H _]; discriminate].
Qed.

(** The route filter lets a route through when no filter is given (absent or
    empty) or when the filter is the route. *)
Lemma filteredOut_false (routeFilter : option string) (route : string) :
  filteredOut routeFilter (Some route) = false <->
  Js.truthyStr routeFilter = None \/ routeFilter = Some route.
Proof.
  unfold filteredOut, Js.strictEq.
  destruct (Js.truthyStr routeFilter) as [wanted |] eqn:E.
  - apply truthyStr_Some in E as [-> Hne].
    rewrite negb_false_iff, bool_decide_eq_true.
    split; [intros ->; right; reflexivity | intros [H | [= ->]]; congruence].
  - split; [left; reflexivity | reflexivity].
Qed.

Lemma updateYield_In stop currentTime trip route id update x :
  In x (updateYield stop currentTime trip route id update) ->
  Js.truthyStr route = Some id /\ currentTime < a_time x < currentTime + 7200.
Proof.
  unfold updateYield.
  destruct (stu_stopId update) as [s |]; [| intros []].
  destruct (stu_arrival update) as [event |]; [| intros []].
  destruct (Js.truthyStr trip) as [tripId |]; [| intros []].
  destruct (Js.truthyStr route) as [routeId |]; [| intros []].
  destruct (Js.truthyNum (ev_time event)) as [time |]; [| intros []].
  destruct (bool_decide (s = stop) && bool_decide (routeId = id)
            && (currentTime <? time) && (time <? currentTime + 7200)) eqn:C;
    [| intros []].
  intros [<- | []]. simpl.
  apply andb_prop in C as [C W2]. apply andb_prop in C as [C W1].
  apply andb_prop in C as [_ C]. apply bool_decide_eq_true in C.
  apply Z.ltb_lt in W1, W2. subst. split; [reflexivity | lia].
Qed.

Lemma entityYield_In stop routeFilter currentTime id entity x :
  In x (entityYield stop routeFilter currentTime id entity) ->
  filteredOut routeFilter (Some id) = false /\
  currentTime < a_time x < currentTime + 7200.
Proof.
  unfold entityYield.
  destruct (tripUpdate entity) as [tu |]; [| intros []].
  destruct (filteredOut routeFilter _) eqn:F; [intros [] |].
  intros Hin. apply in_flat_map in Hin as (u & _ & Hin).
  apply updateYield_In in Hin as [Hr W].
  apply truthyStr_Some in Hr as [Hr _]. rewrite Hr in F. tauto.
Qed.

Lemma processUpdate_NoDup stop currentTime trip route arrivals update :
  List.NoDup (JsMap.keys arrivals) ->
  List.NoDup
    (JsMap.keys (processUpdate stop currentTime trip route arrivals update)).
Proof.
  intros Hnd. unfold processUpdate.
  destruct (Js.strictEq (stu_stopId update) stop); [| exact Hnd].
  destruct (stu_arrival update) as [event |]; [| exact Hnd].
  destruct (Js.truthyNum (ev_time event)); [| exact Hnd].
  destruct (Js.truthyStr trip); [| exact Hnd].
  destruct (Js.truthyStr route); [| exact Hnd].
  destruct ((_ >? currentTime) && _); [apply NoDup_keys_push |]; exact Hnd.
Qed.

Lemma collectArrivals_NoDup stop routeFilter currentTime entities :
  List.NoDup (JsMap.keys (collectArrivals stop routeFilter currentTime entities)).
Proof.
  unfold collectArrivals.
  assert (H : List.NoDup (JsMap.keys (@nil (string * list Arrival))))
    by constructor.
  revert H. generalize (@nil (string * list Arrival)) as arrivals.
  induction entities as [| e entities IH]; intros arrivals Hnd; simpl;
    [exact Hnd |].
  apply IH. unfold processEntity.
  destruct (tripUpdate e) as [tu |]; [| exact Hnd].
  destruct (filteredOut routeFilter _); [exact Hnd |].
  revert arrivals Hnd.
  induction (stopTimeUpdate tu) as [| u updates IHu]; intros arrivals Hnd;
    simpl; [exact Hnd |].
  apply IHu, processUpdate_NoDup, Hnd.
Qed.

Lemma arrivalsOfRoute_In svc stop maxArrivals currentTime groups results b :
  In b (fold_left (arrivalsOfRoute svc stop maxArrivals currentTime)
          groups results) ->
  In b results \/
  exists data,
    In (ba_routeId b, data) groups /\
    arrivalTimes b =
      map (arrivalWithHeadsign svc currentTime)
        (Js.slice0 maxArrivals (Js.sortBy a_time data)).
Proof.
  revert results.
  induction groups as [| [id data] groups IH]; intros results; simpl.
  - tauto.
  - intros Hb. apply IH in Hb as [Hb | (data' & Hin & Heq)].
    + destruct (routes svc !! id) as [route |]; [| tauto].
      apply in_app_or in Hb as [Hb | [<- | []]]; [tauto |].
      right. exists data. simpl. tauto.
    + right. exists data'. tauto.
Qed.

(** C1 (as amended).  Take a stop-time update of a trip update in the feed
    that matches the requested stop and has a set arrival time, trip id and
    route id.  [getNextArrivals] keeps it, that is, stores its arrival in the
    array of its route, if and only if the trip update passes the route
    filter (no filter is given, or the filter is the route of the trip
    update) and the arrival time [t] satisfies [now < t < now + 7200].
    Accordingly every arrival time that [getNextArrivals] returns lies in
    that window and belongs to a route that passes the filter. *)
Theorem arrival_window (stop : string) (routeFilter : option string)
    (currentTime : Z) (entities : list FeedEntity) :
  (forall (entity : FeedEntity) (tu : TripUpdate) (descriptor : TripDescriptor)
          (trip route : string) (update : StopTimeUpdate)
          (event : StopTimeEvent) (time : Z),
     In entity entities ->
     tripUpdate entity = Some tu ->
     tu_trip tu = Some descriptor ->
     td_tripId descriptor = Some trip -> trip <> "" ->
     td_routeId descriptor = Some route -> route <> "" ->
     In update (stopTimeUpdate tu) ->
     stu_stopId update = Some stop ->
     stu_arrival update = Some event ->
     ev_time event = Some time -> time <> 0 ->
     (In (arrivalOf trip time event update)
         (group route (collectArrivals stop routeFilter currentTime entities))
      <->
      (Js.truthyStr routeFilter = None \/ routeFilter = Some route) /\
      currentTime < time < currentTime + 7200)) /\
  (forall (svc : GTFSService) (nowMs : Z) (maxArrivals : option Z)
          (results : list BusArrival) (b : BusArrival) (e : ArrivalTime),
     nowMs / 1000 = currentTime ->
     getNextArrivals svc (Feed entities) nowMs stop routeFilter maxArrivals
       = Returns results ->
     In b results -> In e (arrivalTimes b) ->
     (Js.truthyStr routeFilter = None \/ routeFilter = Some (ba_routeId b)) /\
     currentTime < at_time e < currentTime + 7200).
Proof.
  split.
  - intros entity tu descriptor trip route update event time
      Hent Htu Hd Htrip Htrip0 Hroute Hroute0 Hupd Hstop Harr Htime Htime0.
    rewrite collectArrivals_group, <- filteredOut_false. split.
    + intros Hin. apply in_flat_map in Hin as (e' & _ & Hin).
      apply entityYield_In in Hin. exact Hin.
    + intros [F [W1 W2]]. apply in_flat_map. exists entity.
      split; [exact Hent |].
      unfold entityYield. rewrite Htu, Hd, Hroute, F.
      apply in_flat_map. exists update. split; [exact Hupd |].
      unfold updateYield. rewrite Hstop, Harr, Htrip, Htime. simpl.
      destruct (decide (trip = "")) as [| _]; [congruence |].
      destruct (decide (route = "")) as [| _]; [congruence |].
      destruct (decide (time = 0)) as [| _]; [congruence |].
      rewrite !bool_decide_eq_true_2 by reflexivity.
      apply Z.ltb_lt in W1, W2. rewrite W1, W2. simpl. left. reflexivity.
  - intros svc nowMs maxArrivals results b e Hnow Hret Hb He.
    simpl in Hret. injection Hret as <-. rewrite Hnow in Hb.
    apply arrivalsOfRoute_In in Hb as [[] | (data & Hin & Htimes)].
    rewrite Htimes in He. apply in_map_iff in He as (x & <- & Hx). simpl.
    apply slice0_incl in Hx. rewrite (sortBy_In a_time) in Hx.
    apply (In_get _ _ _ (collectArrivals_NoDup stop routeFilter currentTime entities))
      in Hin.
    assert (Hgroup : In x (group (ba_routeId b)
                             (collectArrivals stop routeFilter currentTime entities))).
    { unfold group. rewrite Hin. exact Hx. }
    rewrite collectArrivals_group in Hgroup.
    apply in_flat_map in Hgroup as (entity & _ & Hgroup).
    apply entityYield_In in Hgroup as [F W].
    apply filteredOut_false in F. tauto.
Qed.

(** With the clock at 1000 and no route filter, the arrival time 8199
    ([now + 7199]) is kept and the arrival time 8201 is not. *)
Lemma arrival_window_witness :
  In (arrivalOf "T1" 8199 (sampleEvent 8199) (sampleUpdate 8199))
     (group "1" (collectArrivals "12345" None 1000 [sampleEntity "1" 8199])) /\
  ~ In (arrivalOf "T1" 8201 (sampleEvent 8201) (sampleUpdate 8201))
       (group "1" (collectArrivals "12345" None 1000 [sampleEntity "1" 8201])).
Proof.
  split.
  - apply (proj1 (arrival_window "12345" None 1000 [sampleEntity "1" 8199])
             (sampleEntity "1" 8199)
             (mkTripUpdate (Some (mkDescriptor (Some "T1") (Some "1")))
                [sampleUpdate 8199])
             (mkDescriptor (Some "T1") (Some "1")) "T1" "1"
             (sampleUpdate 8199) (sampleEvent 8199) 8199);
      first [ reflexivity | discriminate | left; reflexivity
            | split; [left; reflexivity | lia] ].
  - intros H.
    apply (proj1 (arrival_window "12345" None 1000 [sampleEntity "1" 8201])
             (sampleEntity "1" 8201)
             (mkTripUpdate (Some (mkDescriptor (Some "T1") (Some "1")))
                [sampleUpdate 8201])
             (mkDescriptor (Some "T1") (Some "1")) "T1" "1"
             (sampleUpdate 8201) (sampleEvent 8201) 8201) in H;
      first [ lia | reflexivity | discriminate | left; reflexivity ].
Defined.

(** The other boundary instants: [now + 7200], [now] and [now - 1] are not
    kept. *)
Example arrival_window_boundaries :
  collectArrivals "12345" None 1000 [sampleEntity "1" 8200] = [] /\
  collectArrivals "12345" None 1000 [sampleEntity "1" 1000] = [] /\
  collectArrivals "12345" None 1000 [sampleEntity "1" 999] = [] /\
  collectArrivals "12345" None 1000 [sampleEntity "1" 1001] =
    [ ("1", [arrivalOf "T1" 1001 (sampleEvent 1001) (sampleUpdate 1001)]) ].
Proof. repeat split. Qed.

(** C1 as stated fails when a route filter is given: an update of route "1"
    at the requested stop, with trip id and route id, whose arrival time is
    100 seconds ahead of the clock, is not kept when the filter is "2". *)
Lemma arrival_window_filter_counterexample :
  let update := sampleUpdate 1100 in
  let entity := sampleEntity "1" 1100 in
  In entity [entity] /\
  tripUpdate entity =
    Some (mkTripUpdate (Some (mkDescriptor (Some "T1") (Some "1"))) [update]) /\
  stu_stopId update = Some "12345" /\
  stu_arrival update = Some (sampleEvent 1100) /\
  ev_time (sampleEvent 1100) = Some 1100 /\
  1000 < 1100 < 1000 + 7200 /\
  ~ In (arrivalOf "T1" 1100 (sampleEvent 1100) update)
       (group "1" (collectArrivals "12345" (Some "2") 1000 [entity])) /\
  getNextArrivals sampleService (Feed [entity]) 1000000 "12345" (Some "2") None
    = Returns [].
Proof.
  cbv zeta.
  split; [left; reflexivity |].
  do 4 (split; [reflexivity |]).
  split; [lia |].
  split; [intros H; vm_compute in H; exact H | reflexivity].
Qed.

Lemma arrivalsOfRoute_ids svc stop maxArrivals currentTime groups results :
  map ba_routeId
    (fold_left (arrivalsOfRoute svc stop maxArrivals currentTime) groups results) =
  map ba_routeId results ++ List.filter (knownRoute svc) (JsMap.keys groups).
Proof.
  revert results.
  induction groups as [| [id arrivalData] groups IH]; intros results; simpl.
  - now rewrite app_nil_r.
  - rewrite IH. unfold knownRoute at 2.
    destruct (routes svc !! id) as [route |]; simpl; [| reflexivity].
    rewrite map_app, <- app_assoc. reflexivity.
Qed.

(** C7.  On a decoded feed [getNextArrivals] returns; it does not throw.
    The route ids of the entries it returns are, in order, the route ids of
    the groups of kept arrivals that have an entry in the route index: a
    group whose route id is not in the index yields no entry, and every
    entry returned carries a route id of the index. *)
Theorem getNextArrivals_unknown_route (svc : GTFSService)
    (entity : list FeedEntity) (nowMs : Z) (stop : string)
    (routeFilter : option string) (maxArrivals : option Z) :
  exists results,
    getNextArrivals svc (Feed entity) nowMs stop routeFilter maxArrivals
      = Returns results /\
    map ba_routeId results =
      List.filter (knownRoute svc)
        (JsMap.keys (collectArrivals stop routeFilter (nowMs / 1000) entity)) /\
    (forall b, In b results ->
               exists route, routes svc !! ba_routeId b = Some route) /\
    (forall id, routes svc !! id = None ->
                forall b, In b results -> ba_routeId b <> id).
Proof.
  eexists. split; [reflexivity |].
  assert (Hids := arrivalsOfRoute_ids svc stop (orDefault maxArrivals 5)
                    (nowMs / 1000)
                    (collectArrivals stop routeFilter (nowMs / 1000) entity) []).
  simpl in Hids. split; [exact Hids |].
  assert (Hknown : forall b,
            In b (fold_left
                    (arrivalsOfRoute svc stop (orDefault maxArrivals 5) (nowMs / 1000))
                    (collectArrivals stop routeFilter (nowMs / 1000) entity) []) ->
            knownRoute svc (ba_routeId b) = true).
  { intros b Hb. apply (in_map ba_routeId) in Hb. rewrite Hids in Hb.
    apply filter_In in Hb. tauto. }
  split.
  - intros b Hb. apply Hknown in Hb. unfold knownRoute in Hb.
    destruct (routes svc !! ba_routeId b) as [route |]; [eauto | discriminate].
  - intros id Hid b Hb Heq. apply Hknown in Hb. unfold knownRoute in Hb.
    rewrite Heq, Hid in Hb. discriminate.
Qed.

(** The end-to-end example of the specification: one update for stop "12345",
    trip "T1", route "1", three minutes ahead of the clock, no delay. *)
Example getNextArrivals_three_minutes :
  getNextArrivals sampleService (Feed [sampleEntity "1" 1180]) 1000000
    "12345" None None =
  Returns
    [ {| ba_stopId := "12345"; ba_routeId := "1";
         ba_routeShortName := "1"; ba_routeLongName := "University/Downtown";
         ba_routeColor := "000000"; ba_routeTextColor := "FFFFFF";
         ba_tripHeadsign := "Downtown";
         arrivalTimes :=
           [ {| at_time := 1180; at_headsign := "Downtown";
                minutesUntilArrival := 3; delaySeconds := 0;
                isRealTime := true; at_uncertainty := None;
                at_status := "3 min" |} ] |} ].
Proof. vm_compute. reflexivity. Qed.

(** A feed whose only trip update is on route "99", which the sample catalog
    does not have: the arrival is kept in a group, nothing is returned. *)
Lemma getNextArrivals_unknown_route_witness :
  JsMap.keys (collectArrivals "12345" None 1000 [sampleEntity "99" 1100]) = ["99"] /\
  routes sampleService !! "99" = None /\
  getNextArrivals sampleService (Feed [sampleEntity "99" 1100]) 1000000
    "12345" None None = Returns [].
Proof.
  split; [reflexivity |]. split; [reflexivity |].
  destruct (getNextArrivals_unknown_route sampleService
              [sampleEntity "99" 1100] 1000000 "12345" None None)
    as (results & Hret & Hids & _).
  vm_compute in Hids. apply map_eq_nil in Hids. subst results. exact Hret.
Defined.

Lemma getOrCreateRoute_spec_witness :
  routes sampleService !! "5-VIC" = None /\
  getOrCreateRoute "5-VIC" (snd (getOrCreateRoute "5-VIC" sampleService)) =
  getOrCreateRoute "5-VIC" sampleService /\
  routes sampleService !! "1" = Some sampleRoute /\
  getOrCreateRoute "1" sampleService = (sampleRoute, sampleService).
Proof.
  split; [reflexivity |].
  split.
  - rewrite (proj2 (proj2 (getOrCreateRoute_spec "5-VIC" sampleService))).
    destruct (getOrCreateRoute "5-VIC" sampleService); reflexivity.
  - split; [reflexivity |].
    exact (proj1 (getOrCreateRoute_spec "1" sampleService) sampleRoute eq_refl).
Defined.

Example getOrCreateRoute_synthesized :
  fst (getOrCreateRoute "5-VIC" sampleService) =
  mkRoute "5-VIC" "5" "5-VIC" "000000" "FFFFFF".
Proof. reflexivity. Qed.

Example getOrCreateRoute_empty_first_segment :
  fst (getOrCreateRoute "-VIC" sampleService) =
  mkRoute "-VIC" "-VIC" "-VIC" "000000" "FFFFFF".
Proof. reflexivity. Qed.

(** Trip "T9" of the sample catalog is on route "99", which is not in the
    route index. *)
Lemma getTripDetails_dangling_route_witness :
  trips sampleService !! "T9" = Some (mkTrip "T9" "99" "Depot") /\
  routes sampleService !! "99" = None /\
  getTripDetails sampleService "T9" = None.
Proof.
  split; [reflexivity |]. split; [reflexivity |].
  exact (proj1 (getTripDetails_dangling_route sampleService "T9")
           (mkTrip "T9" "99" "Depot") eq_refl eq_refl).
Defined.

(** ** Calendar arithmetic *)

Lemma YearFromTime_spec (t : Z) :
  JsDate.DayFromYear (JsDate.YearFromTime t) <= JsDate.Day t
  < JsDate.DayFromYear (JsDate.YearFromTime t + 1).
Proof.
  unfold JsDate.YearFromTime.
  set (d := JsDate.Day t). set (y := 1970 + d * 400 / 146097).
  assert (Hy : 146097 * (y - 1970) <= d * 400 < 146097 * (y - 1970) + 146097).
  { unfold y. pose proof (Z.div_mod (d * 400) 146097 ltac:(lia)).
    pose proof (Z.mod_pos_bound (d * 400) 146097 ltac:(lia)). lia. }
  clearbody y. clearbody d.
  assert (Hlo : JsDate.DayFromYear (y - 1) <= d).
  { unfold JsDate.DayFromYear. Z.to_euclidean_division_equations. lia. }
  assert (Hhi : d < JsDate.DayFromYear (y + 2)).
  { unfold JsDate.DayFromYear. Z.to_euclidean_division_equations. lia. }
  destruct (Z.leb_spec (JsDate.DayFromYear (y + 1)) d) as [H1 | H1].
  - replace (y + 1 + 1) with (y + 2) by lia. lia.
  - destruct (Z.leb_spec (JsDate.DayFromYear y) d) as [H0 | H0].
    + lia.
    + replace (y - 1 + 1) with y by lia. lia.
Qed.

Lemma MonthFromTime_range (t : Z) : 0 <= JsDate.MonthFromTime t <= 11.
Proof.
  unfold JsDate.MonthFromTime.
  repeat match goal with
         | |- context [if ?c then _ else _] => destruct c
         end; lia.
Qed.

Lemma monthStart_MonthFromTime (t : Z) :
  JsDate.MakeDay (JsDate.YearFromTime t) (JsDate.MonthFromTime t) 1 =
  JsDate.Day t - JsDate.DateFromTime t + 1.
Proof.
  pose proof (MonthFromTime_range t) as Hm.
  unfold JsDate.MakeDay, JsDate.DateFromTime, JsDate.DayWithinYear, JsDate.InLeapYear.
  rewrite (Z.div_small (JsDate.MonthFromTime t) 12) by lia.
  rewrite (Z.mod_small (JsDate.MonthFromTime t) 12) by lia.
  rewrite Z.add_0_r. lia.
Qed.

(** Recomposing the calendar fields of a time gives back its day number;
    a day-of-month beyond the month's end carries over. *)
Lemma MakeDay_fields (t k : Z) :
  JsDate.MakeDay (JsDate.YearFromTime t) (JsDate.MonthFromTime t)
    (JsDate.DateFromTime t + k) = JsDate.Day t + k.
Proof.
  pose proof (monthStart_MonthFromTime t) as H.
  unfold JsDate.MakeDay in *. lia.
Qed.

Lemma DayFromYear_next (y : Z) :
  JsDate.DayFromYear (y + 1) = JsDate.DayFromYear y + 365 + JsDate.leapDays y.
Proof.
  unfold JsDate.DayFromYear, JsDate.leapDays.
  destruct (Z.eqb_spec (y mod 4) 0); destruct (Z.eqb_spec (y mod 100) 0);
    destruct (Z.eqb_spec (y mod 400) 0); simpl;
    Z.to_euclidean_division_equations; lia.
Qed.

Lemma Day_midnight (d : Z) : JsDate.Day (d * JsDate.msPerDay) = d.
Proof. unfold JsDate.Day. apply Z.div_mul. discriminate. Qed.

Lemma TimeWithinDay_midnight (d : Z) :
  JsDate.TimeWithinDay (d * JsDate.msPerDay) = 0.
Proof. unfold JsDate.TimeWithinDay. apply Z.mod_mul. discriminate. Qed.

(** ** Scheduled departures *)

Section ScheduleFacts.
Variable LocalTZA : Z -> bool -> Z.
Variable toNumber : string -> option Z.

(** Rolling to the next day with the hour reduced by 24 denotes the same
    local time as the unreduced hour on the day itself. *)
Lemma wallClock_next_day (day h m s : Z) :
  wallClock LocalTZA (day + 1) (h - 24) m s = wallClock LocalTZA day h m s.
Proof.
  unfold wallClock. do 3 f_equal.
  unfold JsDate.MakeDate, JsDate.MakeTime, JsDate.msPerDay, JsDate.msPerHour.
  lia.
Qed.

Lemma MakeTime_midnight : JsDate.MakeTime 0 0 0 0 = 0.
Proof. reflexivity. Qed.

Lemma create_today (nowMs : Z) :
  let lt := JsDate.LocalTime LocalTZA nowMs in
  ~ (0 <= JsDate.YearFromTime lt <= 99) ->
  JsDate.create LocalTZA
    (JsDate.getFullYear LocalTZA (Some nowMs))
    (JsDate.getMonth LocalTZA (Some nowMs))
    (JsDate.getDate LocalTZA (Some nowMs)) =
  JsDate.TimeClip (JsDate.UTC LocalTZA (JsDate.MakeDate (JsDate.Day lt) 0)).
Proof.
  intros lt Hyear.
  unfold JsDate.create, JsDate.getFullYear, JsDate.getMonth, JsDate.getDate.
  fold lt. rewrite MakeTime_midnight.
  replace ((0 <=? JsDate.YearFromTime lt) && (JsDate.YearFromTime lt <=? 99))
    with false.
  - rewrite <- (Z.add_0_r (JsDate.DateFromTime lt)), MakeDay_fields, Z.add_0_r.
    reflexivity.
  - symmetry. apply andb_false_iff.
    destruct (Z.leb_spec 0 (JsDate.YearFromTime lt));
      destruct (Z.leb_spec (JsDate.YearFromTime lt) 99); auto; lia.
Qed.

Lemma nth_fields (h m s : option Z) :
  nth 0 [h; m; s] None = h /\ nth 1 [h; m; s] None = m /\ nth 2 [h; m; s] None = s.
Proof. repeat split. Qed.

Lemma parseGtfsTime_wallClock (nowMs : Z) (timeStr : string) (h m s : Z) :
  let day := JsDate.Day (JsDate.LocalTime LocalTZA nowMs) in
  map toNumber (Js.split ":" timeStr) = [Some h; Some m; Some s] ->
  ~ (0 <= JsDate.YearFromTime (JsDate.LocalTime LocalTZA nowMs) <= 99) ->
  midnightSettled LocalTZA day ->
  (24 <= h -> midnightSettled LocalTZA (day + 1)) ->
  parseGtfsTime LocalTZA toNumber nowMs timeStr =
  if 24 <=? h then wallClock LocalTZA (day + 1) (h - 24) m s
  else wallClock LocalTZA day h m s.
Proof.
  intros day Hfields Hyear (u & Hu & Hlocal) Hnext.
  unfold parseGtfsTime. rewrite Hfields, (create_today nowMs Hyear). fold day.
  rewrite Hu. destruct (nth_fields (Some h) (Some m) (Some s)) as (-> & -> & ->).
  unfold Js.geNum.
  destruct (Z.leb_spec 24 h) as [Hh | Hh].
  - destruct (Hnext Hh) as (u' & Hu' & Hlocal').
    unfold JsDate.getDate, JsDate.setDate, option_map.
    rewrite Hlocal, MakeDay_fields, TimeWithinDay_midnight, Day_midnight, Hu'.
    unfold JsDate.setHours.
    rewrite Hlocal', Day_midnight. reflexivity.
  - unfold JsDate.setHours. rewrite Hlocal, Day_midnight. reflexivity.
Qed.

Lemma scanTrip_group svc nowMs stop routeFilter departures entry id :
  group id (scanTrip LocalTZA toNumber svc nowMs stop routeFilter (nowMs / 1000)
              departures entry) =
  group id departures ++ tripYield LocalTZA toNumber svc nowMs stop routeFilter id entry.
Proof.
  unfold scanTrip, tripYield. destruct entry as [trip times]. simpl.
  destruct (trips svc !! trip) as [t |]; [| now rewrite app_nil_r].
  destruct (routeMismatch routeFilter (trip_routeId t)); [now rewrite app_nil_r |].
  destruct (find _ times) as [stopTime |]; [| now rewrite app_nil_r].
  destruct (parseGtfsTime LocalTZA toNumber nowMs (departureTime stopTime)) as [dep |];
    [| now rewrite app_nil_r].
  rewrite Z.gtb_ltb.
  destruct ((nowMs / 1000 <? dep) && (dep <? nowMs / 1000 + 86400)) eqn:W.
  - rewrite group_push, <- andb_assoc, W.
    destruct (decide (trip_routeId t = id)) as [-> | Hne].
    + rewrite bool_decide_eq_true_2 by reflexivity. reflexivity.
    + rewrite bool_decide_eq_false_2 by exact Hne. now rewrite app_nil_r.
  - rewrite <- andb_assoc, W, andb_false_r. now rewrite app_nil_r.
Qed.

Lemma scanTrips_group svc nowMs stop routeFilter entries departures id :
  group id (fold_left (scanTrip LocalTZA toNumber svc nowMs stop routeFilter (nowMs / 1000))
              entries departures) =
  group id departures ++
  flat_map (tripYield LocalTZA toNumber svc nowMs stop routeFilter id) entries.
Proof.
  revert departures.
  induction entries as [| e entries IH]; intros departures; simpl.
  - now rewrite app_nil_r.
  - rewrite IH, scanTrip_group, app_assoc. reflexivity.
Qed.

Lemma collectDepartures_group svc nowMs stop routeFilter id :
  group id (collectDepartures LocalTZA toNumber svc nowMs stop routeFilter) =
  flat_map (tripYield LocalTZA toNumber svc nowMs stop routeFilter id) (stopTimes svc).
Proof. unfold collectDepartures. now rewrite scanTrips_group. Qed.

Lemma collectDepartures_NoDup svc nowMs stop routeFilter :
  List.NoDup (JsMap.keys (collectDepartures LocalTZA toNumber svc nowMs stop routeFilter)).
Proof.
  unfold collectDepartures.
  assert (H : List.NoDup (JsMap.keys (@nil (string * list Departure))))
    by constructor.
  revert H. generalize (@nil (string * list Departure)) as departures.
  induction (stopTimes svc) as [| [trip times] entries IH];
    intros departures Hnd; simpl; [exact Hnd |].
  apply IH.
  destruct (trips svc !! trip) as [t |]; [| exact Hnd].
  destruct (routeMismatch routeFilter (trip_routeId t)); [exact Hnd |].
  destruct (find _ times) as [stopTime |]; [| exact Hnd].
  destruct (parseGtfsTime LocalTZA toNumber nowMs (departureTime stopTime)) as [dep |];
    [| exact Hnd].
  destruct ((dep >? nowMs / 1000) && (dep <? nowMs / 1000 + 86400));
    [apply NoDup_keys_push |]; exact Hnd.
Qed.

Lemma routeMismatch_false (routeFilter : option string) (route : string) :
  routeMismatch routeFilter route = false <->
  Js.truthyStr routeFilter = None \/ routeFilter = Some route.
Proof.
  unfold routeMismatch.
  destruct (Js.truthyStr routeFilter) as [wanted |] eqn:E.
  - apply truthyStr_Some in E as [-> Hne].
    rewrite negb_false_iff, bool_decide_eq_true.
    split; [intros ->; right; reflexivity | intros [H | [= ->]]; congruence].
  - split; [left; reflexivity | reflexivity].
Qed.

Lemma tripYield_In svc nowMs stop routeFilter id entry x :
  In x (tripYield LocalTZA toNumber svc nowMs stop routeFilter id entry) ->
  d_tripId x = fst entry /\
  nowMs / 1000 < d_time x < nowMs / 1000 + 86400 /\
  exists trip stopTime,
    trips svc !! fst entry = Some trip /\
    trip_routeId trip = id /\
    routeMismatch routeFilter id = false /\
    find (fun st => bool_decide (st_stopId st = stop)) (snd entry) = Some stopTime /\
    parseGtfsTime LocalTZA toNumber nowMs (departureTime stopTime) = Some (d_time x).
Proof.
  unfold tripYield.
  destruct (trips svc !! fst entry) as [trip |] eqn:Et; [| intros []].
  destruct (routeMismatch routeFilter (trip_routeId trip)) eqn:F; [intros [] |].
  destruct (find _ (snd entry)) as [stopTime |] eqn:Ef; [| intros []].
  destruct (parseGtfsTime LocalTZA toNumber nowMs (departureTime stopTime)) as [t |] eqn:Ep;
    [| intros []].
  destruct (bool_decide (trip_routeId trip = id)
            && (nowMs / 1000 <? t) && (t <? nowMs / 1000 + 86400)) eqn:C;
    [| intros []].
  intros [<- | []]. simpl.
  apply andb_prop in C as [C W2]. apply andb_prop in C as [C W1].
  apply bool_decide_eq_true in C. apply Z.ltb_lt in W1, W2. subst id.
  split; [reflexivity |]. split; [lia |].
  exists trip, stopTime. repeat split; assumption || reflexivity.
Qed.
End ScheduleFacts.

(** ** Deduplication by departure time *)

Section RankFacts.
Context {A : Type} (key : A -> Z).

Lemma rank_perm (x : A) (l l' : list A) :
  Permutation l l' -> rank key x l = rank key x l'.
Proof.
  unfold rank. induction 1 as [| y l l' _ IH | y z l | l l' l'' _ IH1 _ IH2];
    simpl.
  - reflexivity.
  - destruct (key y <? key x); simpl; congruence.
  - destruct (key y <? key x); destruct (key z <? key x); reflexivity.
  - congruence.
Qed.

Lemma firstn_strict_In (s : list A) (n : nat) (x : A) :
  StronglySorted (fun a b => key a < key b) s ->
  In x (firstn n s) <-> In x s /\ (rank key x s < n)%nat.
Proof.
  intros Hs. revert n. induction Hs as [| y s Hs IH Hall]; intros n.
  - rewrite firstn_nil. simpl. tauto.
  - assert (Hzero : rank key y s = 0%nat).
    { unfold rank. rewrite List.Forall_forall in Hall.
      clear IH Hs. induction s as [| z s IHs]; [reflexivity |]. simpl.
      destruct (Z.ltb_spec (key z) (key y)) as [Hlt | _].
      - specialize (Hall z (or_introl eq_refl)). lia.
      - apply IHs. intros w Hw. apply Hall. right. exact Hw. }
    destruct n as [| n]; simpl.
    + split; [tauto | intros [_ H]; lia].
    + rewrite IH. unfold rank in *. simpl. split.
      * intros [<- | [Hin Hr]].
        -- rewrite Z.ltb_irrefl. split; [left; reflexivity | lia].
        -- split; [right; exact Hin |].
           destruct (key y <? key x); simpl; lia.
      * intros [[<- | Hin] Hr]; [left; reflexivity |].
        right. split; [exact Hin |].
        rewrite List.Forall_forall in Hall. specialize (Hall x Hin).
        apply Z.ltb_lt in Hall. rewrite Hall in Hr. simpl in Hr. lia.
Qed.

Lemma sorted_NoDup_strict (s : list A) :
  sortedBy key s -> List.NoDup (map key s) ->
  StronglySorted (fun a b => key a < key b) s.
Proof.
  intros Hs Hnd. apply Sorted_StronglySorted in Hs;
    [| intros a b c Hab Hbc; lia].
  induction Hs as [| y s Hs IH Hall]; constructor.
  - apply IH. inversion Hnd; assumption.
  - inversion Hnd as [| ? ? Hnotin _]; subst.
    rewrite List.Forall_forall in *. intros z Hz. specialize (Hall z Hz).
    assert (key y <> key z); [| lia].
    intros Heq. apply Hnotin. rewrite Heq. apply in_map, Hz.
Qed.

(** Which elements survive sorting by distinct keys and slicing. *)
Lemma slice0_sortBy_In (n : Z) (l : list A) (x : A) :
  List.NoDup (map key l) ->
  In x (Js.slice0 n (Js.sortBy key l)) <->
  In x l /\ (rank key x l < Js.sliceEnd n (length l))%nat.
Proof.
  intros Hnd. unfold Js.slice0.
  pose proof (sortBy_perm key l) as Hperm.
  rewrite firstn_strict_In.
  - rewrite (sortBy_In key l x), <- (rank_perm x l _ Hperm),
      <- (Permutation_length Hperm). reflexivity.
  - apply sorted_NoDup_strict; [apply sortBy_sorted |].
    eapply Permutation_NoDup; [apply Permutation_map, Hperm | exact Hnd].
Qed.
End RankFacts.

Lemma keyed_set (unique : list (Z * Departure)) (departure : Departure) :
  keyed unique -> keyed (JsMap.set (d_time departure) departure unique).
Proof.
  unfold keyed. induction 1 as [| [k d] unique Hk Hrest IH]; simpl.
  - repeat constructor.
  - destruct (decide (k = d_time departure)); constructor;
      solve [reflexivity | assumption].
Qed.

Lemma keyed_keys (unique : list (Z * Departure)) :
  keyed unique -> map d_time (JsMap.values unique) = JsMap.keys unique.
Proof.
  unfold keyed, JsMap.values, JsMap.keys.
  induction 1 as [| [k d] unique Hk _ IH]; simpl; [reflexivity |].
  simpl in Hk. congruence.
Qed.

Lemma keyed_values_get (unique : list (Z * Departure)) (d : Departure) :
  keyed unique -> List.NoDup (JsMap.keys unique) ->
  In d (JsMap.values unique) <-> JsMap.get (d_time d) unique = Some d.
Proof.
  intros Hk Hnd. split.
  - intros Hin. apply in_map_iff in Hin as ([k d'] & Heq & Hin).
    simpl in Heq. subst d'. apply In_get; [exact Hnd |].
    unfold keyed in Hk. rewrite List.Forall_forall in Hk.
    specialize (Hk _ Hin). simpl in Hk. subst k. exact Hin.
  - intros Hget. apply get_In in Hget.
    change d with (snd (d_time d, d)). apply in_map, Hget.
Qed.

Lemma unique_fold (data : list Departure) (unique : list (Z * Departure)) :
  let result :=
    fold_left
      (fun unique departure =>
         if JsMap.has (d_time departure) unique then unique
         else JsMap.set (d_time departure) departure unique)
      data unique in
  (keyed unique -> keyed result) /\
  (List.NoDup (JsMap.keys unique) -> List.NoDup (JsMap.keys result)) /\
  forall t,
    JsMap.get t result =
    match JsMap.get t unique with
    | Some d => Some d
    | None => find (fun d => d_time d =? t) data
    end.
Proof.
  revert unique. induction data as [| d data IH]; intros unique; simpl.
  - repeat split; try tauto. intros t. destruct (JsMap.get t unique); reflexivity.
  - destruct (IH (if JsMap.has (d_time d) unique then unique
                  else JsMap.set (d_time d) d unique)) as (IHk & IHn & IHg).
    split; [| split].
    + intros Hk. apply IHk. destruct (JsMap.has (d_time d) unique);
        [exact Hk | apply keyed_set, Hk].
    + intros Hn. apply IHn. destruct (JsMap.has (d_time d) unique);
        [exact Hn | apply NoDup_keys_set, Hn].
    + intros t. rewrite IHg. unfold JsMap.has.
      destruct (JsMap.get (d_time d) unique) as [d0 |] eqn:E.
      * destruct (JsMap.get t unique) as [d1 |] eqn:Et; [reflexivity |].
        destruct (Z.eqb_spec (d_time d) t) as [Heq | _]; [| reflexivity].
        congruence.
      * rewrite get_set.
        destruct (decide (d_time d = t)) as [Heq | Hne].
        -- subst t. rewrite E, Z.eqb_refl. reflexivity.
        -- destruct (JsMap.get t unique); [reflexivity |].
           destruct (Z.eqb_spec (d_time d) t); [contradiction | reflexivity].
Qed.

(** The departures that survive deduplication are the first ones seen for
    their time. *)
Lemma uniqueDepartures_In (data : list Departure) (d : Departure) :
  In d (JsMap.values (uniqueDepartures data)) <->
  find (fun d' => d_time d' =? d_time d) data = Some d.
Proof.
  unfold uniqueDepartures.
  destruct (unique_fold data []) as (Hk & Hn & Hg).
  rewrite keyed_values_get; [| apply Hk; constructor | apply Hn; constructor].
  rewrite Hg. reflexivity.
Qed.

Lemma uniqueDepartures_NoDup (data : list Departure) :
  List.NoDup (map d_time (JsMap.values (uniqueDepartures data))).
Proof.
  unfold uniqueDepartures.
  destruct (unique_fold data []) as (Hk & Hn & _).
  rewrite keyed_keys; [apply Hn | apply Hk]; constructor.
Qed.

Lemma find_first {X : Type} (p : X -> bool) (l : list X) (x : X) :
  find p l = Some x <->
  exists before after,
    l = before ++ x :: after /\ p x = true /\
    forall y, In y before -> p y = false.
Proof.
  induction l as [| z l IH]; simpl.
  - split; [discriminate |].
    intros (before & after & H & _). destruct before; discriminate.
  - destruct (p z) eqn:E.
    + split.
      * intros [= <-]. exists [], l. simpl. tauto.
      * intros ([| b before] & after & Hl & Hp & Hb); simpl in Hl.
        -- congruence.
        -- inversion Hl; subst. rewrite (Hb b (or_introl eq_refl)) in E.
           discriminate.
    + rewrite IH. split.
      * intros (before & after & -> & Hp & Hb).
        exists (z :: before), after. simpl. split; [reflexivity |].
        split; [exact Hp |]. intros y [<- | Hy]; auto.
      * intros ([| b before] & after & Hl & Hp & Hb); simpl in Hl.
        -- inversion Hl; subst. congruence.
        -- inversion Hl; subst. exists before, after.
           split; [reflexivity |]. split; [exact Hp |].
           intros y Hy. apply Hb. right. exact Hy.
Qed.

Lemma find_exists {X : Type} (p : X -> bool) (l : list X) (x : X) :
  In x l -> p x = true -> exists y, find p l = Some y.
Proof.
  intros Hin Hp. destruct (find p l) as [y |] eqn:E; [eauto |].
  rewrite (find_none p l E x Hin) in Hp. discriminate.
Qed.

Lemma departuresOfRoute_ids svc stop maxDepartures currentTime groups results :
  map bd_routeId
    (fold_left (departuresOfRoute svc stop maxDepartures currentTime)
       groups results) =
  map bd_routeId results ++ List.filter (knownRoute svc) (JsMap.keys groups).
Proof.
  revert results.
  induction groups as [| [id data] groups IH]; intros results; simpl.
  - now rewrite app_nil_r.
  - rewrite IH. unfold knownRoute at 2.
    destruct (routes svc !! id) as [route |]; simpl; [| reflexivity].
    rewrite map_app, <- app_assoc. reflexivity.
Qed.

Lemma departuresOfRoute_In svc stop maxDepartures currentTime groups results b :
  In b (fold_left (departuresOfRoute svc stop maxDepartures currentTime)
          groups results) ->
  In b results \/
  exists data,
    In (bd_routeId b, data) groups /\
    departureTimes b =
      map (departureWithHeadsign svc currentTime)
        (Js.slice0 maxDepartures
           (Js.sortBy d_time (JsMap.values (uniqueDepartures data)))).
Proof.
  revert results.
  induction groups as [| [id data] groups IH]; intros results; simpl.
  - tauto.
  - intros Hb. apply IH in Hb as [Hb | (data' & Hin & Heq)].
    + destruct (routes svc !! id) as [route |]; [| tauto].
      apply in_app_or in Hb as [Hb | [<- | []]]; [tauto |].
      right. exists data. simpl. tauto.
    + right. exists data'. tauto.
Qed.

Lemma NoDup_firstn {X : Type} (n : nat) (l : list X) :
  List.NoDup l -> List.NoDup (firstn n l).
Proof.
  intros H. rewrite <- (firstn_skipn n l) in H.
  apply NoDup_app_remove_r in H. exact H.
Qed.

Lemma sliced_times_NoDup (n : Z) (data : list Departure) :
  List.NoDup
    (map d_time
       (Js.slice0 n (Js.sortBy d_time (JsMap.values (uniqueDepartures data))))).
Proof.
  unfold Js.slice0. rewrite <- firstn_map. apply NoDup_firstn.
  eapply Permutation_NoDup;
    [apply Permutation_map, sortBy_perm | apply uniqueDepartures_NoDup].
Qed.

Lemma NoDup_map_inj {X Y : Type} (f : X -> Y) (l : list X) (x y : X) :
  List.NoDup (map f l) -> In x l -> In y l -> f x = f y -> x = y.
Proof.
  induction l as [| z l IH]; simpl; [tauto |].
  intros Hnd Hx Hy Heq. inversion Hnd as [| ? ? Hnotin Hnd']; subst.
  destruct Hx as [<- | Hx]; destruct Hy as [<- | Hy]; auto.
  - exfalso. apply Hnotin. rewrite Heq. apply in_map, Hy.
  - exfalso. apply Hnotin. rewrite <- Heq. apply in_map, Hx.
Qed.

Section DedupFacts.
Variable LocalTZA : Z -> bool -> Z.
Variable toNumber : string -> option Z.

(** C4.  For a candidate stop time (the first entry at the requested stop of
    a known trip that passes the route filter):
    - when its [departureTime] has the three numeric fields [h:m:s], the
      converted time is the Unix time of the local wall-clock reading
      [h:m:s] on the local calendar day of the clock reading, and for
      [h >= 24] of the reading [(h - 24):m:s] on the day after (given a
      clock past the year 99 and local midnights that exist);
    - the departure is kept, that is, stored in the array of the route of
      its trip, if and only if the converted time [t] satisfies
      [now < t < now + 86400].
    Accordingly every departure time that [getScheduledDepartures] returns
    lies in that window. *)
Theorem departure_window (svc : GTFSService) (nowMs : Z) (stop : string)
    (routeFilter : option string) :
  let day := JsDate.Day (JsDate.LocalTime LocalTZA nowMs) in
  let currentTime := nowMs / 1000 in
  (forall (id : string) (times : list GTFSStopTime) (trip : GTFSTrip)
          (stopTime : GTFSStopTime),
     In (id, times) (stopTimes svc) ->
     trips svc !! id = Some trip ->
     (Js.truthyStr routeFilter = None \/
      routeFilter = Some (trip_routeId trip)) ->
     find (fun st => bool_decide (st_stopId st = stop)) times = Some stopTime ->
     (forall h m s,
        map toNumber (Js.split ":" (departureTime stopTime))
          = [Some h; Some m; Some s] ->
        ~ (0 <= JsDate.YearFromTime (JsDate.LocalTime LocalTZA nowMs) <= 99) ->
        midnightSettled LocalTZA day ->
        (24 <= h -> midnightSettled LocalTZA (day + 1)) ->
        parseGtfsTime LocalTZA toNumber nowMs (departureTime stopTime) =
        if 24 <=? h then wallClock LocalTZA (day + 1) (h - 24) m s
        else wallClock LocalTZA day h m s) /\
     (forall t,
        parseGtfsTime LocalTZA toNumber nowMs (departureTime stopTime) = Some t ->
        (In {| d_time := t; d_tripId := id |}
            (group (trip_routeId trip)
               (collectDepartures LocalTZA toNumber svc nowMs stop routeFilter))
         <-> currentTime < t < currentTime + 86400))) /\
  (forall (maxDepartures : option Z) (b : BusDeparture) (e : DepartureTime),
     In b (getScheduledDepartures LocalTZA toNumber svc nowMs stop routeFilter
             maxDepartures) ->
     In e (departureTimes b) ->
     currentTime < dt_time e < currentTime + 86400).
Proof.
  intros day currentTime. split.
  - intros id times trip stopTime Hin Htrip Hfilter Hfind. split.
    + intros h m s Hfields Hyear Hday Hnext.
      apply parseGtfsTime_wallClock; assumption.
    + intros t Hparse. rewrite collectDepartures_group. split.
      * intros Hx. apply in_flat_map in Hx as (entry & _ & Hx).
        apply tripYield_In in Hx as (_ & W & _). exact W.
      * intros [W1 W2]. apply in_flat_map. exists (id, times).
        split; [exact Hin |].
        unfold tripYield. simpl fst. simpl snd. rewrite Htrip.
        apply routeMismatch_false in Hfilter. rewrite Hfilter, Hfind, Hparse.
        rewrite bool_decide_eq_true_2 by reflexivity.
        apply Z.ltb_lt in W1, W2. fold currentTime. rewrite W1, W2.
        left. reflexivity.
  - intros maxDepartures b e Hb He. unfold getScheduledDepartures in Hb.
    apply departuresOfRoute_In in Hb as [[] | (data & Hin & Htimes)].
    rewrite Htimes in He. apply in_map_iff in He as (x & <- & Hx). simpl.
    apply slice0_incl in Hx. rewrite (sortBy_In d_time) in Hx.
    apply uniqueDepartures_In, find_some in Hx as [Hx _].
    apply (In_get _ _ _
             (collectDepartures_NoDup LocalTZA toNumber svc nowMs stop routeFilter))
      in Hin.
    assert (Hgroup : In x (group (bd_routeId b)
                             (collectDepartures LocalTZA toNumber svc nowMs
                                stop routeFilter))).
    { unfold group. rewrite Hin. exact Hx. }
    rewrite collectDepartures_group in Hgroup.
    apply in_flat_map in Hgroup as (entry & _ & Hgroup).
    apply tripYield_In in Hgroup as (_ & W & _). exact W.
Qed.

(** C3 (as amended).  Let route [id] be in the route index and let at least
    one kept departure of that route (so also two or more) have the
    converted time [t].  Then the result has exactly one entry [b] for the
    route, and in it:
    - no two departure entries carry the same time;
    - an entry with time [t] is the one built from the first kept departure
      with that time, in the order in which the trips are scanned;
    - an entry with time [t] is present exactly when fewer than the slice
      length ([maxDepartures], 5 by default) of the distinct kept times of
      the route are earlier than [t]. *)
Theorem departures_deduplicated (svc : GTFSService) (nowMs : Z)
    (stop : string) (routeFilter : option string) (maxDepartures : option Z)
    (id : string) (route : GTFSRoute) (t : Z) :
  let currentTime := nowMs / 1000 in
  let data :=
    group id (collectDepartures LocalTZA toNumber svc nowMs stop routeFilter) in
  let results :=
    getScheduledDepartures LocalTZA toNumber svc nowMs stop routeFilter
      maxDepartures in
  let unique := JsMap.values (uniqueDepartures data) in
  routes svc !! id = Some route ->
  (exists d, In d data /\ d_time d = t) ->
  exists first b,
    find (fun d => d_time d =? t) data = Some first /\
    In b results /\ bd_routeId b = id /\
    (forall b', In b' results -> bd_routeId b' = id -> b' = b) /\
    List.NoDup (map dt_time (departureTimes b)) /\
    (forall e, In e (departureTimes b) -> dt_time e = t ->
               e = departureWithHeadsign svc currentTime first) /\
    ((exists e, In e (departureTimes b) /\ dt_time e = t) <->
     (rank d_time first unique
      < Js.sliceEnd (orDefault maxDepartures 5%Z) (length unique))%nat).
Proof.
  intros currentTime data results unique Hroute (d0 & Hd0 & Ht0).
  (* the first kept departure at time [t] *)
  destruct (find_exists (fun d => d_time d =? t) data d0 Hd0) as [first Hfirst];
    [apply Z.eqb_eq, Ht0 |].
  assert (Hft : d_time first = t).
  { apply find_some in Hfirst as [_ H]. apply Z.eqb_eq, H. }
  (* the group of the route and its entry in the result *)
  pose proof (collectDepartures_NoDup LocalTZA toNumber svc nowMs stop routeFilter) as Hnd.
  assert (Hget : JsMap.get id (collectDepartures LocalTZA toNumber svc nowMs stop routeFilter)
                 = Some data).
  { unfold data, group in *.
    destruct (JsMap.get id
                (collectDepartures LocalTZA toNumber svc nowMs stop routeFilter));
      [reflexivity | destruct Hd0]. }
  assert (Hids : map bd_routeId results =
                 List.filter (knownRoute svc)
                   (JsMap.keys
                      (collectDepartures LocalTZA toNumber svc nowMs stop routeFilter))).
  { apply (departuresOfRoute_ids svc stop (orDefault maxDepartures 5)
             currentTime
             (collectDepartures LocalTZA toNumber svc nowMs stop routeFilter) []). }
  assert (Hkey : In id (map bd_routeId results)).
  { rewrite Hids. apply filter_In. split.
    - apply get_In in Hget. change id with (fst (id, data)). apply in_map, Hget.
    - unfold knownRoute. rewrite Hroute. reflexivity. }
  apply in_map_iff in Hkey as (b & Hbid & Hb).
  assert (Hdup : List.NoDup (map bd_routeId results)).
  { rewrite Hids. apply List.NoDup_filter, Hnd. }
  assert (Htimes : departureTimes b =
            map (departureWithHeadsign svc currentTime)
              (Js.slice0 (orDefault maxDepartures 5) (Js.sortBy d_time unique))).
  { pose proof Hb as Hb'. unfold results, getScheduledDepartures in Hb'.
    apply departuresOfRoute_In in Hb' as [[] | (data' & Hin & Heq)].
    rewrite Hbid in Hin. apply (In_get _ _ _ Hnd) in Hin.
    rewrite Hget in Hin. inversion Hin; subst data'. exact Heq. }
  exists first, b. split; [exact Hfirst |]. split; [exact Hb |].
  split; [exact Hbid |]. split.
  { intros b' Hb' Hid'.
    apply (NoDup_map_inj bd_routeId results b' b Hdup Hb' Hb). congruence. }
  assert (Hsurvivor : forall x,
            In x (Js.slice0 (orDefault maxDepartures 5) (Js.sortBy d_time unique)) ->
            d_time x = t -> x = first).
  { intros x Hx Hxt. apply slice0_incl in Hx. rewrite (sortBy_In d_time) in Hx.
    unfold unique in Hx. apply uniqueDepartures_In in Hx.
    rewrite Hxt in Hx. congruence. }
  split; [| split].
  - rewrite Htimes, map_map. simpl. apply sliced_times_NoDup.
  - intros e He Het. rewrite Htimes in He.
    apply in_map_iff in He as (x & <- & Hx). simpl in Het.
    rewrite (Hsurvivor x Hx Het). reflexivity.
  - rewrite Htimes. split.
    + intros (e & He & Het). apply in_map_iff in He as (x & <- & Hx).
      simpl in Het. pose proof (Hsurvivor x Hx Het) as ->.
      apply slice0_sortBy_In in Hx; [tauto | apply uniqueDepartures_NoDup].
    + intros Hrank. exists (departureWithHeadsign svc currentTime first).
      split; [| exact Hft]. apply in_map.
      apply slice0_sortBy_In; [apply uniqueDepartures_NoDup |].
      split; [| exact Hrank]. apply uniqueDepartures_In.
      rewrite Hft. exact Hfirst.
Qed.

End DedupFacts.

(** ** Stop times of a trip: load order and first visit *)

Lemma sortStopTimes_keys (index : list (string * list GTFSStopTime)) :
  JsMap.keys (sortStopTimes index) = JsMap.keys index.
Proof.
  unfold sortStopTimes, JsMap.keys. rewrite map_map. reflexivity.
Qed.

Lemma sortStopTimes_sorted (index : list (string * list GTFSStopTime))
    (id : string) (times : list GTFSStopTime) :
  In (id, times) (sortStopTimes index) -> sortedBy stopSequence times.
Proof.
  unfold sortStopTimes. intros H. apply in_map_iff in H as (entry & Heq & _).
  inversion Heq; subst. apply sortBy_sorted.
Qed.

Lemma addStopTime_NoDup (index : list (string * list GTFSStopTime))
    (row : StopTimeFields) :
  List.NoDup (JsMap.keys index) -> List.NoDup (JsMap.keys (addStopTime index row)).
Proof.
  intros Hnd. unfold addStopTime.
  destruct (Js.truthyStr (f_tripId row)); [| exact Hnd].
  destruct (Js.truthyStr (f_stopId row)); [| exact Hnd].
  destruct (Js.truthyStr (f_arrivalTime row)); [| exact Hnd].
  destruct (Js.truthyStr (f_departureTime row)); [| exact Hnd].
  destruct (f_stopSequence row); [| exact Hnd].
  apply NoDup_keys_push, Hnd.
Qed.

(** After [loadStopTimes] the stop-time index has one array per trip and
    every array is in ascending [stopSequence] order. *)
Lemma loadStopTimes_index (rows : list StopTimeFields) (svc : GTFSService) :
  List.NoDup (JsMap.keys (stopTimes svc)) ->
  List.NoDup (JsMap.keys (stopTimes (loadStopTimes (Some rows) svc))) /\
  forall id times,
    In (id, times) (stopTimes (loadStopTimes (Some rows) svc)) ->
    sortedBy stopSequence times.
Proof.
  intros Hnd. simpl. split.
  - rewrite sortStopTimes_keys. revert Hnd.
    generalize (stopTimes svc) as index.
    induction rows as [| row rows IH]; intros index Hnd; simpl; [exact Hnd |].
    apply IH, addStopTime_NoDup, Hnd.
  - intros id times. apply sortStopTimes_sorted.
Qed.

Lemma sorted_after {X : Type} (key : X -> Z) (before after : list X) (x : X) :
  sortedBy key (before ++ x :: after) ->
  forall y, In y after -> key x <= key y.
Proof.
  intros Hs. apply Sorted_StronglySorted in Hs;
    [| intros a b c Hab Hbc; lia].
  induction before as [| z before IH]; simpl in Hs.
  - inversion Hs as [| ? ? _ Hall]; subst.
    rewrite List.Forall_forall in Hall. exact Hall.
  - inversion Hs; subst. apply IH. assumption.
Qed.

(** In an array sorted by key, [find] returns a match of least key. *)
Lemma find_sorted_least {X : Type} (key : X -> Z) (p : X -> bool)
    (l : list X) (x : X) :
  sortedBy key l -> find p l = Some x ->
  forall y, In y l -> p y = true -> key x <= key y.
Proof.
  intros Hs Hfind y Hy Hp.
  apply find_first in Hfind as (before & after & -> & _ & Hbefore).
  apply in_app_or in Hy as [Hy | [<- | Hy]].
  - rewrite (Hbefore y Hy) in Hp. discriminate.
  - lia.
  - apply (sorted_after key before after x Hs y Hy).
Qed.

Section FirstVisitFacts.
Variable LocalTZA : Z -> bool -> Z.
Variable toNumber : string -> option Z.

Lemma tripYield_length svc nowMs stop routeFilter id entry :
  (length (tripYield LocalTZA toNumber svc nowMs stop routeFilter id entry) <= 1)%nat.
Proof.
  unfold tripYield.
  repeat match goal with
         | |- context [match ?c with _ => _ end] => destruct c
         end; simpl; lia.
Qed.

Lemma tripYields_of_trip svc nowMs stop routeFilter id entries trip :
  List.NoDup (JsMap.keys entries) ->
  (length
     (List.filter (fun x => bool_decide (d_tripId x = trip))
        (flat_map (tripYield LocalTZA toNumber svc nowMs stop routeFilter id) entries))
   <= 1)%nat.
Proof.
  induction entries as [| entry entries IH]; intros Hnd; simpl; [lia |].
  inversion Hnd as [| ? ? Hnotin Hnd']; subst.
  rewrite List.filter_app, length_app.
  destruct (decide (fst entry = trip)) as [Heq | Hne].
  - assert (Hrest : List.filter (fun x => bool_decide (d_tripId x = trip))
                      (flat_map (tripYield LocalTZA toNumber svc nowMs stop routeFilter id)
                         entries) = []).
    { destruct (List.filter _ (flat_map _ entries)) as [| x rest] eqn:E;
        [reflexivity |].
      assert (Hx : In x (x :: rest)) by (left; reflexivity).
      rewrite <- E in Hx. apply filter_In in Hx as [Hx Hid].
      apply bool_decide_eq_true in Hid.
      apply in_flat_map in Hx as (entry' & Hin' & Hx).
      apply tripYield_In in Hx as (Hfst & _).
      exfalso. apply Hnotin. rewrite Heq, <- Hid, Hfst. apply in_map, Hin'. }
    rewrite Hrest. simpl.
    pose proof (List.filter_length_le
                  (fun x => bool_decide (d_tripId x = trip))
                  (tripYield LocalTZA toNumber svc nowMs stop routeFilter id entry)).
    pose proof (tripYield_length svc nowMs stop routeFilter id entry). lia.
  - assert (Hhere : List.filter (fun x => bool_decide (d_tripId x = trip))
                      (tripYield LocalTZA toNumber svc nowMs stop routeFilter id entry) = []).
    { destruct (List.filter _ (tripYield _ _ _ _ _ _ _ entry)) as [| x rest] eqn:E;
        [reflexivity |].
      assert (Hx : In x (x :: rest)) by (left; reflexivity).
      rewrite <- E in Hx. apply filter_In in Hx as [Hx Hid].
      apply bool_decide_eq_true in Hid.
      apply tripYield_In in Hx as (Hfst & _). congruence. }
    rewrite Hhere. simpl. apply IH, Hnd'.
Qed.

Lemma collected_firstVisit (svc : GTFSService) (nowMs : Z) (stop : string)
    (routeFilter : option string) (id : string) (x : Departure) :
  List.NoDup (JsMap.keys (stopTimes svc)) ->
  (forall trip times, In (trip, times) (stopTimes svc) ->
                      sortedBy stopSequence times) ->
  In x (group id (collectDepartures LocalTZA toNumber svc nowMs stop routeFilter)) ->
  firstVisit LocalTZA toNumber svc nowMs stop (d_tripId x) (d_time x) /\
  exists trip, trips svc !! d_tripId x = Some trip /\ trip_routeId trip = id.
Proof.
  intros Hnd Hsorted Hx. rewrite collectDepartures_group in Hx.
  apply in_flat_map in Hx as ([trip times] & Hentry & Hx).
  apply tripYield_In in Hx
    as (Hid & _ & t & st & Htrip & Hroute & _ & Hfind & Hparse).
  simpl in *. rewrite Hid. split; [| eauto].
  exists times, st. split; [apply In_get; assumption |].
  split; [exact Hfind |]. split; [| split; [| exact Hparse]].
  - pose proof Hfind as Hf.
    apply find_first in Hf as (before & after & -> & _ & Hbefore).
    exists before, after. split; [reflexivity |].
    intros st' Hst' Heq. specialize (Hbefore st' Hst').
    apply bool_decide_eq_false in Hbefore. contradiction.
  - intros st' Hst' Heq.
    apply (find_sorted_least stopSequence _ times st
             (Hsorted trip times Hentry) Hfind st' Hst').
    apply bool_decide_eq_true. exact Heq.
Qed.

(** C10.  With the stop-time index as [loadStopTimes] leaves it (one array
    per trip, in ascending [stopSequence] order), for every stop, clock
    reading and filter:
    - every departure that [getScheduledDepartures] collects for a trip is
      the conversion of the first entry of that trip at the stop, which has
      the least [stopSequence] among the trip's entries at the stop, and it
      is collected in the group of the trip's route;
    - in every group at most one collected departure belongs to a given
      trip;
    - every departure time in the result is the conversion of the first
      entry at the stop of some trip, so a later visit of the stop by a
      trip is never the source of a returned time. *)
Theorem first_visit_only (rows : list StopTimeFields) (svc0 : GTFSService)
    (nowMs : Z) (stop : string) (routeFilter : option string)
    (maxDepartures : option Z) :
  List.NoDup (JsMap.keys (stopTimes svc0)) ->
  let svc := loadStopTimes (Some rows) svc0 in
  let departures :=
    collectDepartures LocalTZA toNumber svc nowMs stop routeFilter in
  (forall id x,
     In x (group id departures) ->
     firstVisit LocalTZA toNumber svc nowMs stop (d_tripId x) (d_time x) /\
     exists trip, trips svc !! d_tripId x = Some trip /\ trip_routeId trip = id) /\
  (forall id trip,
     (length (List.filter (fun x => bool_decide (d_tripId x = trip))
                (group id departures)) <= 1)%nat) /\
  (forall b e,
     In b (getScheduledDepartures LocalTZA toNumber svc nowMs stop routeFilter
             maxDepartures) ->
     In e (departureTimes b) ->
     exists trip, firstVisit LocalTZA toNumber svc nowMs stop trip (dt_time e)).
Proof.
  intros Hnd0 svc departures.
  destruct (loadStopTimes_index rows svc0 Hnd0) as [Hnd Hsorted].
  fold svc in Hnd, Hsorted.
  split; [| split].
  - intros id x Hx. apply (collected_firstVisit svc nowMs stop routeFilter id x);
      assumption.
  - intros id trip. unfold departures. rewrite collectDepartures_group.
    apply tripYields_of_trip, Hnd.
  - intros b e Hb He. unfold getScheduledDepartures in Hb.
    apply departuresOfRoute_In in Hb as [[] | (data & Hin & Htimes)].
    rewrite Htimes in He. apply in_map_iff in He as (x & <- & Hx). simpl.
    apply slice0_incl in Hx. rewrite (sortBy_In d_time) in Hx.
    apply uniqueDepartures_In, find_some in Hx as [Hx _].
    apply (In_get _ _ _ (collectDepartures_NoDup LocalTZA toNumber svc nowMs stop routeFilter))
      in Hin.
    exists (d_tripId x).
    apply (collected_firstVisit svc nowMs stop routeFilter (bd_routeId b) x Hnd Hsorted).
    unfold group. rewrite Hin. exact Hx.
Qed.
End FirstVisitFacts.

(** ** The sample schedule *)

Example sample_stopTimes_T1 :
  JsMap.get "T1" (stopTimes scheduleService) =
  Some [ mkStopTime "T1" "22:00:00" "22:00:00" "S1" 1;
         mkStopTime "T1" "23:00:00" "23:00:00" "S100" 2;
         mkStopTime "T1" "23:30:00" "23:30:00" "S100" 3 ].
Proof. reflexivity. Qed.

Example sample_departures :
  map (fun b => (bd_routeId b, map dt_time (departureTimes b)))
    (getScheduledDepartures samplePST Js.Number scheduleService sampleNowMs "S100"
       None None) =
  [ ("1", [1762065000; 1762066800; 1762074600]) ].
Proof. vm_compute. reflexivity. Qed.

(** C3 as stated fails under truncation: "T1" and "T2" share the converted
    departure time 1762066800 on route "1" at stop "S100" and both are kept,
    yet with [maxDepartures = 1] the result, which holds the earlier
    departure of "T4" only, has no entry with that time. *)
Lemma departures_truncated_counterexample :
  group "1"
    (collectDepartures samplePST Js.Number scheduleService sampleNowMs
       "S100" None) =
    [ mkDeparture 1762066800 "T1"; mkDeparture 1762066800 "T2";
      mkDeparture 1762074600 "T3"; mkDeparture 1762065000 "T4" ] /\
  map (fun b => (bd_routeId b, map dt_time (departureTimes b)))
    (getScheduledDepartures samplePST Js.Number scheduleService sampleNowMs
       "S100" None (Some 1)) =
    [ ("1", [1762065000]) ] /\
  List.filter (fun e => dt_time e =? 1762066800)
    (flat_map departureTimes
       (getScheduledDepartures samplePST Js.Number scheduleService sampleNowMs
          "S100" None (Some 1))) = [].
Proof. vm_compute. repeat split. Qed.

Lemma departures_deduplicated_witness :
  routes scheduleService !! "1" = Some sampleRoute /\
  In (mkDeparture 1762066800 "T2")
     (group "1"
        (collectDepartures samplePST Js.Number scheduleService sampleNowMs
           "S100" None)) /\
  exists first b,
    d_tripId first = "T1" /\
    In b (getScheduledDepartures samplePST Js.Number scheduleService sampleNowMs "S100"
            None None) /\
    bd_routeId b = "1" /\
    (exists e, In e (departureTimes b) /\ dt_time e = 1762066800) /\
    forall e, In e (departureTimes b) -> dt_time e = 1762066800 ->
              dt_headsign e = "Downtown".
Proof.
  assert (Hroute : routes scheduleService !! "1" = Some sampleRoute)
    by reflexivity.
  assert (Hkept : In (mkDeparture 1762066800 "T2")
                    (group "1" (collectDepartures samplePST Js.Number scheduleService
                                  sampleNowMs "S100" None)))
    by (vm_compute; right; left; reflexivity).
  split; [exact Hroute |]. split; [exact Hkept |].
  destruct (departures_deduplicated samplePST Js.Number scheduleService sampleNowMs
              "S100" None None "1" sampleRoute 1762066800 Hroute
              (ex_intro _ _ (conj Hkept eq_refl)))
    as (first & b & Hfirst & Hb & Hid & _ & _ & Hsame & Hpresent).
  assert (Hf : first = mkDeparture 1762066800 "T1")
    by (vm_compute in Hfirst; congruence).
  exists first, b. subst first.
  split; [reflexivity |]. split; [exact Hb |]. split; [exact Hid |]. split.
  - apply Hpresent. vm_compute. lia.
  - intros e He Ht. rewrite (Hsame e He Ht). reflexivity.
Defined.

Lemma samplePST_midnight (day : Z) :
  Z.abs (day * JsDate.msPerDay + 28800000) <= 8640000000000000 ->
  midnightSettled samplePST day.
Proof.
  intros Hrange. unfold midnightSettled, JsDate.TimeClip, JsDate.UTC,
    JsDate.LocalTime, JsDate.MakeDate, samplePST.
  exists (day * JsDate.msPerDay + 28800000).
  replace (day * JsDate.msPerDay + 0 - -28800000)
    with (day * JsDate.msPerDay + 28800000) by lia.
  apply Z.leb_le in Hrange. rewrite Hrange. split; [reflexivity | lia].
Qed.

(** Trip "T3" leaves "S100" at 25:10:00: the converted time is 01:10:00 of
    2025-11-02, local time, and the departure is kept. *)
Lemma departure_window_witness :
  parseGtfsTime samplePST Js.Number sampleNowMs "25:10:00" = Some 1762074600 /\
  sampleNowMs / 1000 < 1762074600 < sampleNowMs / 1000 + 86400 /\
  In (mkDeparture 1762074600 "T3")
     (group "1"
        (collectDepartures samplePST Js.Number scheduleService sampleNowMs
           "S100" None)).
Proof.
  destruct (proj1 (departure_window samplePST Js.Number scheduleService
                     sampleNowMs "S100" None)
              "T3" [mkStopTime "T3" "25:10:00" "25:10:00" "S100" 7]
              (mkTrip "T3" "1" "Night owl")
              (mkStopTime "T3" "25:10:00" "25:10:00" "S100" 7))
    as [Hconv Hkeep].
  - vm_compute. right. right. left. reflexivity.
  - reflexivity.
  - left. reflexivity.
  - reflexivity.
  - cbn [departureTime trip_routeId] in Hconv, Hkeep.
    assert (Hparse : parseGtfsTime samplePST Js.Number sampleNowMs "25:10:00"
                     = Some 1762074600).
    { rewrite (Hconv 25 10 0).
      + reflexivity.
      + reflexivity.
      + vm_compute. intros [_ H]. apply H. reflexivity.
      + apply samplePST_midnight. vm_compute. discriminate.
      + intros _. apply samplePST_midnight. vm_compute. discriminate. }
    split; [exact Hparse |].
    assert (Hwindow : sampleNowMs / 1000 < 1762074600
                      < sampleNowMs / 1000 + 86400)
      by (vm_compute; split; reflexivity).
    split; [exact Hwindow |].
    apply (Hkeep 1762074600 Hparse). exact Hwindow.
Defined.

(** In the sample schedule trip "T1" calls at "S100" twice; its collected
    departure is the conversion of its first call (23:00:00), and it is the
    only one collected for the trip. *)
Lemma first_visit_only_witness :
  List.NoDup (JsMap.keys (stopTimes sampleService)) /\
  firstVisit samplePST Js.Number scheduleService sampleNowMs "S100"
    "T1" 1762066800 /\
  (length (List.filter (fun x => bool_decide (d_tripId x = "T1"))
             (group "1" (collectDepartures samplePST Js.Number scheduleService
                           sampleNowMs "S100" None))) <= 1)%nat.
Proof.
  assert (Hnd : List.NoDup (JsMap.keys (stopTimes sampleService)))
    by constructor.
  destruct (first_visit_only samplePST Js.Number sampleRows sampleService
              sampleNowMs "S100" None None Hnd) as (Hfirst & Hone & _).
  split; [exact Hnd |]. split.
  - apply (Hfirst "1" (mkDeparture 1762066800 "T1")).
    vm_compute. left. reflexivity.
  - apply (Hone "1" "T1").
Defined.

Example sample_later_visit_not_returned :
  parseGtfsTime samplePST Js.Number sampleNowMs "23:30:00" = Some 1762068600 /\
  ~ In 1762068600
      (flat_map (fun b => map dt_time (departureTimes b))
         (getScheduledDepartures samplePST Js.Number scheduleService sampleNowMs "S100"
            None None)).
Proof.
  split; [vm_compute; reflexivity |].
  vm_compute. intros [H | [H | [H | []]]]; discriminate.
Qed.

(** ** Nearby stops *)

Section GeoFacts.
Local Open Scope R_scope.

Lemma hav_range (lat1 lon1 lat2 lon2 : R) :
  0 <= hav lat1 lon1 lat2 lon2 <= 1.
Proof.
  unfold hav.
  set (u := toRadians (lat2 - lat1) / 2).
  set (v := toRadians (lon2 - lon1) / 2).
  set (p := toRadians lat1). set (q := toRadians lat2).
  assert (Hq : q - p = 2 * u) by (unfold q, p, u, toRadians; field).
  assert (Hprod : cos p * cos q = (cos (2 * u) + cos (q + p)) / 2).
  { rewrite <- Hq, cos_plus, cos_minus. lra. }
  rewrite cos_2a_sin in Hprod.
  pose proof (COS_bound (q + p)) as Hk.
  pose proof (SIN_bound u) as Hs. pose proof (SIN_bound v) as Hw.
  unfold Rsqr.
  generalize dependent (cos (q + p)). generalize dependent (cos p * cos q).
  generalize dependent (sin u). generalize dependent (sin v).
  intros w Hw s Hs C k HC Hk. subst C.
  assert (0 <= w * w <= 1) by nra. assert (0 <= s * s <= 1) by nra.
  split; nra.
Qed.


Lemma atan2_sqrt (a : R) :
  0 <= a <= 1 -> atan2 (sqrt a) (sqrt (1 - a)) = asin (sqrt a).
Proof.
  intros [H0 H1]. unfold atan2. destruct (Req_dec a 1) as [-> | Hne].
  - replace (1 - 1) with 0 by lra. rewrite sqrt_0, sqrt_1, asin_1.
    destruct (Rlt_dec 0 0); [lra |]. destruct (Rlt_dec 0 0); [lra |].
    destruct (Rlt_dec 0 1); [reflexivity | lra].
  - assert (Hpos : 0 < sqrt (1 - a)) by (apply sqrt_lt_R0; lra).
    destruct (Rlt_dec 0 (sqrt (1 - a))); [| lra].
    rewrite asin_atan.
    + rewrite Rsqr_sqrt by exact H0. reflexivity.
    + pose proof (sqrt_pos a). split; [lra |].
      rewrite <- sqrt_1. apply sqrt_lt_1_alt. lra.
Qed.

Lemma calculateDistance_hav (lat1 lon1 lat2 lon2 : R) :
  calculateDistance lat1 lon1 lat2 lon2 =
  6371000 *
  (2 * atan2 (sqrt (hav lat1 lon1 lat2 lon2))
         (sqrt (1 - hav lat1 lon1 lat2 lon2))).
Proof.
  unfold calculateDistance, hav, Rsqr.
  replace (sin (toRadians (lat2 - lat1) / 2) * sin (toRadians (lat2 - lat1) / 2) +
           cos (toRadians lat1) * cos (toRadians lat2) *
           sin (toRadians (lon2 - lon1) / 2) * sin (toRadians (lon2 - lon1) / 2))
    with (sin (toRadians (lat2 - lat1) / 2) * sin (toRadians (lat2 - lat1) / 2) +
          cos (toRadians lat1) * cos (toRadians lat2) *
          (sin (toRadians (lon2 - lon1) / 2) * sin (toRadians (lon2 - lon1) / 2)))
    by ring.
  reflexivity.
Qed.

(** The distance that the code computes with [atan2] is the haversine
    great-circle distance. *)
Lemma calculateDistance_haversine (lat1 lon1 lat2 lon2 : R) :
  calculateDistance lat1 lon1 lat2 lon2 = haversineDistance lat1 lon1 lat2 lon2.
Proof.
  rewrite calculateDistance_hav, atan2_sqrt by apply hav_range.
  unfold haversineDistance. ring.
Qed.




End GeoFacts.

Section MeridianFacts.
Local Open Scope R_scope.


End MeridianFacts.

Section NearbyFacts.
Local Open Scope R_scope.

Lemma within_spec (latitude longitude radiusMeters : R) (stop : GTFSStop) :
  within latitude longitude radiusMeters stop = true <->
  haversineDistance latitude longitude (stopLat stop) (stopLon stop)
  <= radiusMeters.
Proof.
  unfold within. rewrite <- calculateDistance_haversine.
  destruct (Rle_dec _ radiusMeters); split; auto; discriminate.
Qed.



End NearbyFacts.

Section TieFacts.
Local Open Scope R_scope.

End TieFacts.



(** ** Nearby stops in double precision *)

Section DoubleFacts.
Import PrimFloat.
Variables sin cos : float -> float.
Variable atan2 : float -> float -> float.




End DoubleFacts.

Section TinyStopFacts.
Import PrimFloat.
Local Open Scope R_scope.




(** [Double.round] on halves, on the number below one half and on an
    integer above 2^52. *)
Example round_halves_upwards :
  Double.round 2.5%float = 3%Z /\ Double.round (-2.5)%float = (-2)%Z /\
  Double.round 0.5%float = 1%Z /\ Double.round (-0.5)%float = 0%Z /\
  Double.round 0x1.fffffffffffffp-2%float = 0%Z /\
  Double.round 4999.5%float = 5000%Z /\
  Double.round 0x1p+60%float = (2 ^ 60)%Z.
Proof. vm_compute. repeat split. Qed.

(** In double precision too the stop at the query point is returned for a
    radius of zero, with all intermediate values exact zeros, and nothing
    is returned for a negative radius. *)
Example zero_radius_in_double_precision :
  Double.getNearbyStops smallSin smallCos zeroAtan2 [("O", originStop)]
    0%float 0%float (Some 0%float)
  = [ {| Double.ns_stop := originStop; Double.distance := 0 |} ] /\
  Double.getNearbyStops smallSin smallCos zeroAtan2 [("O", originStop)]
    0%float 0%float (Some (-1)%float)
  = [].
Proof. vm_compute. split; reflexivity. Qed.



End TinyStopFacts.

(** * Further properties of the service *)

(** ** Arrays and grouping maps *)

Lemma Sorted_firstn {X : Type} (R : X -> X -> Prop) (n : nat) (l : list X) :
  Sorted R l -> Sorted R (firstn n l).
Proof.
  revert n. induction l as [| x l IH]; intros n Hs.
  - rewrite firstn_nil. constructor.
  - destruct n as [| n]; simpl; [constructor |].
    inversion Hs as [| ? ? Hs' Hhd]; subst. constructor; [apply IH, Hs' |].
    destruct l as [| y l]; [rewrite firstn_nil; constructor |].
    destruct n; simpl; constructor. inversion Hhd; assumption.
Qed.

Lemma slice0_length {X : Type} (n : Z) (l : list X) :
  0 <= n -> Z.of_nat (length (Js.slice0 n l)) <= n.
Proof.
  intros Hn. unfold Js.slice0, Js.sliceEnd.
  destruct (0 <=? n) eqn:E; [| lia].
  rewrite length_firstn. lia.
Qed.

Lemma sorted_app_le {X : Type} (key : X -> Z) (a b : list X) (x y : X) :
  sortedBy key (a ++ b) -> In y a -> In x b -> key y <= key x.
Proof.
  intros Hs Hy Hx. apply in_split in Hy as (a1 & a2 & ->).
  rewrite <- app_assoc in Hs. simpl in Hs.
  apply (sorted_after key a1 (a2 ++ b) y Hs). apply in_or_app. tauto.
Qed.

(** A prefix of a sorted array holds every element that is strictly below
    one of its own. *)
Lemma firstn_earliest {X : Type} (key : X -> Z) (n : nat) (l : list X) (x y : X) :
  sortedBy key l -> In y (firstn n l) -> In x l -> key x < key y ->
  In x (firstn n l).
Proof.
  intros Hs Hy Hx Hlt.
  rewrite <- (firstn_skipn n l) in Hx, Hs.
  apply in_app_or in Hx as [Hx | Hx]; [exact Hx | exfalso].
  pose proof (sorted_app_le key _ _ x y Hs Hy Hx). lia.
Qed.

Lemma set_set {K : Type} `{EqDecision K} {V : Type}
    (m : list (K * V)) (k : K) (v v' : V) :
  JsMap.set k v (JsMap.set k v' m) = JsMap.set k v m.
Proof.
  induction m as [| [k0 v0] m IH]; simpl.
  - destruct (decide (k = k)); [reflexivity | congruence].
  - destruct (decide (k0 = k)) as [-> | Hne]; simpl.
    + destruct (decide (k = k)); [reflexivity | congruence].
    + destruct (decide (k0 = k)); [congruence |]. now rewrite IH.
Qed.

(** The grouping idiom in one step: the array of the key, extended. *)
Lemma push_set {X : Type} (m : list (string * list X)) (k : string) (x : X) :
  JsMap.push k x m = JsMap.set k (orDefault (JsMap.get k m) [] ++ [x]) m.
Proof.
  unfold JsMap.push. rewrite has_get.
  destruct (JsMap.get k m) as [arr |] eqn:E.
  - rewrite E. reflexivity.
  - rewrite get_set. destruct (decide (k = k)); [| congruence].
    simpl. apply set_set.
Qed.

Lemma populated_set {X : Type} (m : list (string * list X)) (k : string)
    (v : list X) :
  v <> [] -> populated m -> populated (JsMap.set k v m).
Proof.
  intros Hv Hm. induction Hm as [| [k0 v0] m H0 Hm IH]; simpl.
  - constructor; [exact Hv | constructor].
  - destruct (decide (k0 = k)); constructor; auto.
Qed.

Lemma populated_push {X : Type} (m : list (string * list X)) (k : string) (x : X) :
  populated m -> populated (JsMap.push k x m).
Proof.
  intros Hm. rewrite push_set. apply populated_set; [| exact Hm].
  destruct (orDefault (JsMap.get k m) []); discriminate.
Qed.

Lemma populated_fold {X Y : Type} (f : list (string * list X) -> Y -> list (string * list X))
    (l : list Y) (m : list (string * list X)) :
  (forall m y, populated m -> populated (f m y)) ->
  populated m -> populated (fold_left f l m).
Proof.
  intros Hf. revert m. induction l as [| y l IH]; intros m Hm; simpl; auto.
Qed.

(** ** Live arrivals: the shape of the answer *)

Lemma processUpdate_populated stop currentTime trip route arrivals update :
  populated arrivals ->
  populated (processUpdate stop currentTime trip route arrivals update).
Proof.
  intros Hm. unfold processUpdate.
  destruct (Js.strictEq _ _); [| exact Hm].
  destruct (stu_arrival update) as [arrival |]; [| exact Hm].
  destruct (Js.truthyNum _); [| exact Hm].
  destruct (Js.truthyStr trip); [| exact Hm].
  destruct (Js.truthyStr route); [| exact Hm].
  destruct (_ && _); [| exact Hm].
  apply populated_push, Hm.
Qed.

Lemma collectArrivals_populated stop routeFilter currentTime entities :
  populated (collectArrivals stop routeFilter currentTime entities).
Proof.
  unfold collectArrivals. apply populated_fold; [| constructor].
  intros m e Hm. unfold processEntity.
  destruct (tripUpdate e) as [tu |]; [| exact Hm].
  destruct (filteredOut _ _); [exact Hm |].
  apply populated_fold; [| exact Hm].
  intros m' u. apply processUpdate_populated.
Qed.

(** The entry of a route in the answer, from the group of the route. *)
Lemma getNextArrivals_entry svc entity nowMs stop routeFilter maxArrivals
    results b :
  getNextArrivals svc (Feed entity) nowMs stop routeFilter maxArrivals
    = Returns results ->
  In b results ->
  let kept :=
    group (ba_routeId b)
      (collectArrivals stop routeFilter (nowMs / 1000) entity) in
  kept <> [] /\
  arrivalTimes b =
    map (arrivalWithHeadsign svc (nowMs / 1000))
      (Js.slice0 (orDefault maxArrivals 5) (Js.sortBy a_time kept)).
Proof.
  intros Hret Hb. simpl in Hret. injection Hret as <-.
  apply arrivalsOfRoute_In in Hb as [[] | (data & Hin & Htimes)].
  pose proof (collectArrivals_populated stop routeFilter (nowMs / 1000) entity)
    as Hpop.
  unfold populated in Hpop. rewrite List.Forall_forall in Hpop.
  pose proof (Hpop _ Hin) as Hne. simpl in Hne.
  apply (In_get _ _ _ (collectArrivals_NoDup stop routeFilter (nowMs / 1000) entity))
    in Hin.
  cbv zeta. unfold group. rewrite Hin. simpl. tauto.
Qed.

(** X1.  With a non-negative [maxArrivals] (5 when omitted), every route
    entry that [getNextArrivals] returns lists at most [maxArrivals] arrival
    times, in non-decreasing order of time; each is built from a kept
    arrival of the route, and a kept arrival of the route that is strictly
    earlier than a listed one is listed too: the entry holds the earliest
    kept arrivals of the route. *)
Theorem getNextArrivals_earliest_first (svc : GTFSService)
    (entity : list FeedEntity) (nowMs : Z) (stop : string)
    (routeFilter : option string) (maxArrivals : option Z)
    (results : list BusArrival) (b : BusArrival) :
  0 <= orDefault maxArrivals 5 ->
  getNextArrivals svc (Feed entity) nowMs stop routeFilter maxArrivals
    = Returns results ->
  In b results ->
  let kept :=
    group (ba_routeId b)
      (collectArrivals stop routeFilter (nowMs / 1000) entity) in
  Z.of_nat (length (arrivalTimes b)) <= orDefault maxArrivals 5 /\
  Sorted Z.le (map at_time (arrivalTimes b)) /\
  (forall e, In e (arrivalTimes b) ->
     exists x, In x kept /\ e = arrivalWithHeadsign svc (nowMs / 1000) x) /\
  (forall x e, In x kept -> In e (arrivalTimes b) -> a_time x < at_time e ->
     In (arrivalWithHeadsign svc (nowMs / 1000) x) (arrivalTimes b)).
Proof.
  intros Hmax Hret Hb kept.
  destruct (getNextArrivals_entry _ _ _ _ _ _ _ _ Hret Hb) as [_ Htimes].
  fold kept in Htimes. rewrite Htimes. split; [| split; [| split]].
  - rewrite length_map. apply slice0_length, Hmax.
  - rewrite map_map. simpl. apply (proj1 (sortedBy_map a_time _)).
    apply Sorted_firstn, sortBy_sorted.
  - intros e He. apply in_map_iff in He as (x & <- & Hx).
    exists x. split; [| reflexivity].
    apply slice0_incl in Hx. now rewrite (sortBy_In a_time) in Hx.
  - intros x e Hx He Hlt. apply in_map_iff in He as (y & <- & Hy).
    apply in_map. simpl in Hlt.
    apply (firstn_earliest a_time _ _ x y); auto using sortBy_sorted.
    now rewrite (sortBy_In a_time).
Qed.

(** With room for one arrival, the entry of route "1" for the sample feed
    holds the arrival at 1180 and not the later one at 1300. *)
Lemma getNextArrivals_earliest_first_witness :
  getNextArrivals sampleService (Feed sampleFeed) 1000000 "12345" None (Some 1)
    = Returns [sampleBusArrival [sampleArrivalTime 1180 3 "3 min"]] /\
  Z.of_nat (length [sampleArrivalTime 1180 3 "3 min"]) <= 1 /\
  Sorted Z.le (map at_time [sampleArrivalTime 1180 3 "3 min"]).
Proof.
  split; [reflexivity |].
  pose proof (getNextArrivals_earliest_first sampleService sampleFeed 1000000
                "12345" None (Some 1)
                [sampleBusArrival [sampleArrivalTime 1180 3 "3 min"]]
                (sampleBusArrival [sampleArrivalTime 1180 3 "3 min"])) as H.
  simpl orDefault in H.
  destruct H as (Hlen & Hsorted & _);
    [lia | reflexivity | left; reflexivity |].
  split; [exact Hlen | exact Hsorted].
Defined.

Lemma arrivalWithHeadsign_minutes svc currentTime x :
  currentTime < a_time x < currentTime + 7200 ->
  let e := arrivalWithHeadsign svc currentTime x in
  0 <= minutesUntilArrival e <= 119 /\
  60 * minutesUntilArrival e <= at_time e - currentTime
    < 60 * minutesUntilArrival e + 60.
Proof.
  intros Hw. simpl.
  pose proof (Z.div_mod (a_time x - currentTime) 60 ltac:(lia)) as Hdm.
  pose proof (Z.mod_pos_bound (a_time x - currentTime) 60 ltac:(lia)) as Hmod.
  split; [split |]; lia.
Qed.

Lemma kept_arrival_window stop routeFilter currentTime entities id x :
  In x (group id (collectArrivals stop routeFilter currentTime entities)) ->
  currentTime < a_time x < currentTime + 7200.
Proof.
  rewrite collectArrivals_group. intros Hx.
  apply in_flat_map in Hx as (entity & _ & Hx).
  apply entityYield_In in Hx. tauto.
Qed.

(** X2.  For every arrival time that [getNextArrivals] returns, the minutes
    until arrival are the whole minutes between the clock and the arrival,
    between 0 and 119, and the status is the classification of these
    minutes and of the delay shown; an arrival less than 120 seconds ahead
    is "Arriving" and one from 120 to 179 seconds ahead is "Due", whatever
    its delay. *)
Theorem getNextArrivals_minutes_status (svc : GTFSService)
    (entity : list FeedEntity) (nowMs : Z) (stop : string)
    (routeFilter : option string) (maxArrivals : option Z)
    (results : list BusArrival) (b : BusArrival) (e : ArrivalTime) :
  getNextArrivals svc (Feed entity) nowMs stop routeFilter maxArrivals
    = Returns results ->
  In b results -> In e (arrivalTimes b) ->
  let ahead := at_time e - nowMs / 1000 in
  0 <= minutesUntilArrival e <= 119 /\
  60 * minutesUntilArrival e <= ahead < 60 * minutesUntilArrival e + 60 /\
  at_status e = getArrivalStatus (minutesUntilArrival e) (delaySeconds e) /\
  (ahead < 120 -> at_status e = "Arriving") /\
  (120 <= ahead < 180 -> at_status e = "Due").
Proof.
  intros Hret Hb He ahead.
  destruct (getNextArrivals_entry _ _ _ _ _ _ _ _ Hret Hb) as [_ Htimes].
  rewrite Htimes in He. apply in_map_iff in He as (x & <- & Hx).
  apply slice0_incl in Hx. rewrite (sortBy_In a_time) in Hx.
  apply kept_arrival_window in Hx.
  destruct (arrivalWithHeadsign_minutes svc (nowMs / 1000) x Hx) as [Hrange Hdiv].
  split; [exact Hrange |]. split; [exact Hdiv |].
  split; [reflexivity |].
  subst ahead. revert Hrange Hdiv. simpl.
  generalize ((a_time x - nowMs / 1000) / 60) as minutes.
  intros minutes Hrange Hdiv. unfold getArrivalStatus. split; intros Hahead.
  - destruct (minutes <=? 1) eqn:E; [reflexivity | lia].
  - destruct (minutes <=? 1) eqn:E1; [lia |].
    destruct (minutes <=? 2) eqn:E2; [reflexivity | lia].
Qed.

(** The sample arrival 180 seconds ahead shows 3 minutes. *)
Lemma getNextArrivals_minutes_status_witness :
  getNextArrivals sampleService (Feed sampleFeed) 1000000 "12345" None (Some 1)
    = Returns [sampleBusArrival [sampleArrivalTime 1180 3 "3 min"]] /\
  0 <= 3 <= 119 /\ 60 * 3 <= 1180 - 1000 < 60 * 3 + 60 /\
  "3 min" = getArrivalStatus 3 0.
Proof.
  split; [reflexivity |].
  pose proof (getNextArrivals_minutes_status sampleService sampleFeed 1000000
                "12345" None (Some 1)
                [sampleBusArrival [sampleArrivalTime 1180 3 "3 min"]]
                (sampleBusArrival [sampleArrivalTime 1180 3 "3 min"])
                (sampleArrivalTime 1180 3 "3 min")) as H.
  destruct H as (Hrange & Hdiv & Hstatus & _);
    [reflexivity | left; reflexivity | left; reflexivity |].
  split; [exact Hrange |]. split; [exact Hdiv | exact Hstatus].
Defined.

Lemma scheduleRelationshipName_not_scheduled (rel : option ScheduleRelationship) :
  Js.strictEq (scheduleRelationshipName rel) "SCHEDULED" = false.
Proof. destruct rel as [[] |]; reflexivity. Qed.

Lemma kept_arrival_relationship stop routeFilter currentTime entities id x :
  In x (group id (collectArrivals stop routeFilter currentTime entities)) ->
  exists rel, a_scheduleRelationship x = scheduleRelationshipName rel.
Proof.
  rewrite collectArrivals_group. intros Hx.
  apply in_flat_map in Hx as (entity & _ & Hx).
  unfold entityYield in Hx.
  destruct (tripUpdate entity) as [tu |]; [| destruct Hx].
  destruct (filteredOut _ _); [destruct Hx |].
  apply in_flat_map in Hx as (update & _ & Hx).
  unfold updateYield in Hx.
  destruct (stu_stopId update); [| destruct Hx].
  destruct (stu_arrival update) as [event |]; [| destruct Hx].
  destruct (Js.truthyStr _); [| destruct Hx].
  destruct (Js.truthyStr _); [| destruct Hx].
  destruct (Js.truthyNum _); [| destruct Hx].
  destruct (_ && _); [| destruct Hx].
  destruct Hx as [<- | []]. simpl. eauto.
Qed.

(** X3.  Every arrival time that [getNextArrivals] returns is flagged as
    real-time, also when its stop-time update carries the schedule
    relationship SCHEDULED or none: the stored relationship name is never
    "SCHEDULED". *)
Theorem getNextArrivals_always_real_time (svc : GTFSService)
    (entity : list FeedEntity) (nowMs : Z) (stop : string)
    (routeFilter : option string) (maxArrivals : option Z)
    (results : list BusArrival) (b : BusArrival) (e : ArrivalTime) :
  getNextArrivals svc (Feed entity) nowMs stop routeFilter maxArrivals
    = Returns results ->
  In b results -> In e (arrivalTimes b) ->
  isRealTime e = true.
Proof.
  intros Hret Hb He.
  destruct (getNextArrivals_entry _ _ _ _ _ _ _ _ Hret Hb) as [_ Htimes].
  rewrite Htimes in He. apply in_map_iff in He as (x & <- & Hx).
  apply slice0_incl in Hx. rewrite (sortBy_In a_time) in Hx.
  apply kept_arrival_relationship in Hx as [rel Hrel]. simpl.
  now rewrite Hrel, scheduleRelationshipName_not_scheduled.
Qed.

(** The update of the sample entity is explicitly SCHEDULED here. *)
Lemma getNextArrivals_always_real_time_witness :
  let entity :=
    mkEntity "e1"
      (Some (mkTripUpdate (Some (mkDescriptor (Some "T1") (Some "1")))
               [mkUpdate (Some "12345") (Some (sampleEvent 1180))
                  (Some SCHEDULED)])) in
  getNextArrivals sampleService (Feed [entity]) 1000000 "12345" None None
    = Returns [sampleBusArrival [sampleArrivalTime 1180 3 "3 min"]] /\
  isRealTime (sampleArrivalTime 1180 3 "3 min") = true.
Proof.
  cbv zeta. split; [reflexivity |].
  apply (getNextArrivals_always_real_time sampleService
           [mkEntity "e1"
              (Some (mkTripUpdate (Some (mkDescriptor (Some "T1") (Some "1")))
                       [mkUpdate (Some "12345") (Some (sampleEvent 1180))
                          (Some SCHEDULED)]))]
           1000000 "12345" None None
           [sampleBusArrival [sampleArrivalTime 1180 3 "3 min"]]
           (sampleBusArrival [sampleArrivalTime 1180 3 "3 min"])
           (sampleArrivalTime 1180 3 "3 min"));
    [reflexivity | left; reflexivity | left; reflexivity].
Defined.

Lemma arrivalsOfRoute_fields svc stop maxArrivals currentTime groups results b :
  In b (fold_left (arrivalsOfRoute svc stop maxArrivals currentTime)
          groups results) ->
  In b results \/
  (ba_stopId b = stop /\
   ba_tripHeadsign b =
     match arrivalTimes b with
     | first :: _ => at_headsign first
     | [] => ""
     end /\
   exists route,
     routes svc !! ba_routeId b = Some route /\
     ba_routeShortName b = shortName route /\
     ba_routeLongName b = longName route /\
     ba_routeColor b = routeColor route /\
     ba_routeTextColor b = routeTextColor route).
Proof.
  revert results.
  induction groups as [| [id data] groups IH]; intros results; simpl.
  - tauto.
  - intros Hb. apply IH in Hb as [Hb | Hb]; [| tauto].
    destruct (routes svc !! id) as [route |] eqn:Hroute; [| tauto].
    apply in_app_or in Hb as [Hb | [<- | []]]; [tauto |].
    right. simpl. split; [reflexivity |]. split; [reflexivity |].
    exists route. tauto.
Qed.

(** X4.  The answer of [getNextArrivals] has one entry per route: no two
    entries carry the same route id.  Every entry repeats the requested
    stop id and shows the names and colours that the route index holds for
    its route id. *)
Theorem getNextArrivals_one_entry_per_route (svc : GTFSService)
    (entity : list FeedEntity) (nowMs : Z) (stop : string)
    (routeFilter : option string) (maxArrivals : option Z)
    (results : list BusArrival) :
  getNextArrivals svc (Feed entity) nowMs stop routeFilter maxArrivals
    = Returns results ->
  List.NoDup (map ba_routeId results) /\
  forall b, In b results ->
    ba_stopId b = stop /\
    exists route,
      routes svc !! ba_routeId b = Some route /\
      ba_routeShortName b = shortName route /\
      ba_routeLongName b = longName route /\
      ba_routeColor b = routeColor route /\
      ba_routeTextColor b = routeTextColor route.
Proof.
  intros Hret. simpl in Hret. injection Hret as <-. split.
  - rewrite arrivalsOfRoute_ids. simpl.
    apply List.NoDup_filter, collectArrivals_NoDup.
  - intros b Hb. apply arrivalsOfRoute_fields in Hb as [[] | Hb]. tauto.
Qed.

Lemma getNextArrivals_one_entry_per_route_witness :
  getNextArrivals sampleService (Feed sampleFeed) 1000000 "12345" None (Some 1)
    = Returns [sampleBusArrival [sampleArrivalTime 1180 3 "3 min"]] /\
  List.NoDup (map ba_routeId [sampleBusArrival [sampleArrivalTime 1180 3 "3 min"]]).
Proof.
  split; [reflexivity |].
  apply (getNextArrivals_one_entry_per_route sampleService sampleFeed 1000000
           "12345" None (Some 1)
           [sampleBusArrival [sampleArrivalTime 1180 3 "3 min"]]).
  reflexivity.
Defined.

Lemma sortBy_nonempty {X : Type} (key : X -> Z) (l : list X) :
  l <> [] -> Js.sortBy key l <> [].
Proof.
  intros Hl Hs. apply Hl. apply Permutation_nil.
  rewrite <- Hs. apply Permutation_sym, sortBy_perm.
Qed.

(** With room for at least one element, the slice of a sorted non-empty
    array starts with an element of least key. *)
Lemma slice0_sortBy_head {X : Type} (key : X -> Z) (n : Z) (l : list X) :
  1 <= n -> l <> [] ->
  exists first rest,
    Js.slice0 n (Js.sortBy key l) = first :: rest /\
    In first l /\ forall y, In y l -> key first <= key y.
Proof.
  intros Hn Hl.
  pose proof (sortBy_nonempty key l Hl) as Hne.
  pose proof (sortBy_sorted key l) as Hs.
  pose proof (sortBy_In key l) as Hin.
  destruct (Js.sortBy key l) as [| first s]; [congruence |].
  unfold Js.slice0, Js.sliceEnd.
  destruct (0 <=? n) eqn:E; [| lia].
  destruct (Z.to_nat n) as [| k] eqn:Ek; [lia |].
  exists first, (firstn k s). split; [reflexivity |]. split.
  - apply Hin. left. reflexivity.
  - intros y Hy. apply Hin in Hy as [<- | Hy]; [lia |].
    apply (sorted_after key [] s first Hs y Hy).
Qed.

(** X5.  With room for at least one arrival ([maxArrivals >= 1], as by
    default), no entry of the answer of [getNextArrivals] is without arrival
    times; the first time listed is the earliest kept arrival of the route,
    and the headsign of the entry is the headsign of that arrival. *)
Theorem getNextArrivals_headsign_of_earliest (svc : GTFSService)
    (entity : list FeedEntity) (nowMs : Z) (stop : string)
    (routeFilter : option string) (maxArrivals : option Z)
    (results : list BusArrival) (b : BusArrival) :
  1 <= orDefault maxArrivals 5 ->
  getNextArrivals svc (Feed entity) nowMs stop routeFilter maxArrivals
    = Returns results ->
  In b results ->
  let kept :=
    group (ba_routeId b)
      (collectArrivals stop routeFilter (nowMs / 1000) entity) in
  exists x rest,
    In x kept /\
    (forall y, In y kept -> a_time x <= a_time y) /\
    arrivalTimes b = arrivalWithHeadsign svc (nowMs / 1000) x :: rest /\
    ba_tripHeadsign b = headsignOf svc (a_tripId x).
Proof.
  intros Hmax Hret Hb kept.
  destruct (getNextArrivals_entry _ _ _ _ _ _ _ _ Hret Hb) as [Hne Htimes].
  fold kept in Hne, Htimes.
  destruct (slice0_sortBy_head a_time _ kept Hmax Hne)
    as (x & rest & Hslice & Hx & Hmin).
  rewrite Hslice in Htimes. simpl in Htimes.
  exists x, (map (arrivalWithHeadsign svc (nowMs / 1000)) rest).
  split; [exact Hx |]. split; [exact Hmin |]. split; [exact Htimes |].
  simpl in Hret. injection Hret as <-.
  apply arrivalsOfRoute_fields in Hb as [[] | (_ & Hhead & _)].
  rewrite Hhead, Htimes. reflexivity.
Qed.

Lemma getNextArrivals_headsign_of_earliest_witness :
  getNextArrivals sampleService (Feed sampleFeed) 1000000 "12345" None None
    = Returns [sampleBusArrival [sampleArrivalTime 1180 3 "3 min";
                                 sampleArrivalTime 1300 5 "5 min"]] /\
  exists x rest,
    a_time x = 1180 /\
    [sampleArrivalTime 1180 3 "3 min"; sampleArrivalTime 1300 5 "5 min"] =
      arrivalWithHeadsign sampleService 1000 x :: rest /\
    "Downtown" = headsignOf sampleService (a_tripId x).
Proof.
  split; [reflexivity |].
  destruct (getNextArrivals_headsign_of_earliest sampleService sampleFeed
              1000000 "12345" None None
              [sampleBusArrival [sampleArrivalTime 1180 3 "3 min";
                                 sampleArrivalTime 1300 5 "5 min"]]
              (sampleBusArrival [sampleArrivalTime 1180 3 "3 min";
                                 sampleArrivalTime 1300 5 "5 min"]))
    as (x & rest & _ & _ & Htimes & Hhead);
    [simpl; lia | reflexivity | left; reflexivity |].
  exists x, rest. split; [| split; [exact Htimes | exact Hhead]].
  simpl in Htimes. injection Htimes as Htime _. 
  unfold arrivalWithHeadsign in Htime. simpl in Htime. congruence.
Defined.

(** ** The route filter *)

Section KeyFilterFacts.
Context {V : Type} (r : string).

Lemma filter_set_other (m : list (string * V)) (k : string) (v : V) :
  k <> r ->
  List.filter (fun entry => bool_decide (fst entry = r)) (JsMap.set k v m) =
  List.filter (fun entry => bool_decide (fst entry = r)) m.
Proof.
  intros Hk. induction m as [| [k0 v0] m IH]; simpl.
  - rewrite bool_decide_eq_false_2 by exact Hk. reflexivity.
  - destruct (decide (k0 = k)) as [-> | Hne]; simpl.
    + rewrite bool_decide_eq_false_2 by exact Hk. reflexivity.
    + rewrite IH. reflexivity.
Qed.

Lemma filter_set_same (m : list (string * V)) (v : V) :
  List.filter (fun entry => bool_decide (fst entry = r)) (JsMap.set r v m) =
  JsMap.set r v (List.filter (fun entry => bool_decide (fst entry = r)) m).
Proof.
  induction m as [| [k0 v0] m IH]; simpl.
  - rewrite bool_decide_eq_true_2 by reflexivity. reflexivity.
  - destruct (decide (k0 = r)) as [-> | Hne]; simpl.
    + rewrite bool_decide_eq_true_2 by reflexivity. simpl.
      destruct (decide (r = r)); [reflexivity | congruence].
    + rewrite bool_decide_eq_false_2 by exact Hne. exact IH.
Qed.

Lemma get_filter_key (m : list (string * V)) :
  JsMap.get r (List.filter (fun entry => bool_decide (fst entry = r)) m) =
  JsMap.get r m.
Proof.
  induction m as [| [k0 v0] m IH]; simpl; [reflexivity |].
  destruct (decide (k0 = r)) as [-> | Hne].
  - rewrite bool_decide_eq_true_2 by reflexivity. simpl.
    destruct (decide (r = r)); [reflexivity | congruence].
  - rewrite bool_decide_eq_false_2 by exact Hne. exact IH.
Qed.

End KeyFilterFacts.

Lemma filter_push_other {X : Type} (r : string) (m : list (string * list X))
    (k : string) (x : X) :
  k <> r ->
  List.filter (fun entry => bool_decide (fst entry = r)) (JsMap.push k x m) =
  List.filter (fun entry => bool_decide (fst entry = r)) m.
Proof. intros Hk. rewrite push_set. apply filter_set_other, Hk. Qed.

Lemma filter_push_same {X : Type} (r : string) (m : list (string * list X))
    (x : X) :
  List.filter (fun entry => bool_decide (fst entry = r)) (JsMap.push r x m) =
  JsMap.push r x (List.filter (fun entry => bool_decide (fst entry = r)) m).
Proof. rewrite !push_set, filter_set_same, get_filter_key. reflexivity. Qed.

(** A grouping map whose keys are all [r] has at most the group of [r]. *)
Lemma single_group {X : Type} (r : string) (m : list (string * list X)) :
  List.NoDup (JsMap.keys m) -> populated m ->
  (forall k, In k (JsMap.keys m) -> k = r) ->
  m = match group r m with [] => [] | data => [(r, data)] end.
Proof.
  intros Hnd Hpop Hkeys. destruct m as [| [k v] m]; [reflexivity |].
  assert (k = r) as -> by (apply Hkeys; left; reflexivity).
  destruct m as [| [k' v'] m].
  - unfold group. simpl. destruct (decide (r = r)); [| congruence]. simpl.
    inversion Hpop as [| ? ? Hv _]; subst. simpl in Hv.
    destruct v; [congruence | reflexivity].
  - exfalso. assert (k' = r) as -> by (apply Hkeys; right; left; reflexivity).
    inversion Hnd as [| ? ? Hnotin _]; subst. apply Hnotin. left. reflexivity.
Qed.

Lemma processUpdate_filter r stop currentTime trip route arrivals update :
  r <> "" ->
  List.filter (fun entry => bool_decide (fst entry = r))
    (processUpdate stop currentTime trip route arrivals update) =
  if Js.strictEq route r
  then processUpdate stop currentTime trip route
         (List.filter (fun entry => bool_decide (fst entry = r)) arrivals) update
  else List.filter (fun entry => bool_decide (fst entry = r)) arrivals.
Proof.
  intros Hr. unfold processUpdate.
  destruct (Js.strictEq (stu_stopId update) stop);
    [| destruct (Js.strictEq route r); reflexivity].
  destruct (stu_arrival update) as [arrival |];
    [| destruct (Js.strictEq route r); reflexivity].
  destruct (Js.truthyNum _);
    [| destruct (Js.strictEq route r); reflexivity].
  destruct (Js.truthyStr trip);
    [| destruct (Js.strictEq route r); reflexivity].
  destruct (Js.truthyStr route) as [routeId |] eqn:Hroute;
    [| destruct (Js.strictEq route r); reflexivity].
  destruct (_ && _); [| destruct (Js.strictEq route r); reflexivity].
  apply truthyStr_Some in Hroute as [-> _]. simpl.
  destruct (bool_decide (routeId = r)) eqn:E.
  - apply bool_decide_eq_true_1 in E as ->. apply filter_push_same.
  - apply bool_decide_eq_false_1 in E. apply filter_push_other, E.
Qed.

Lemma processUpdates_filter r stop currentTime trip route updates arrivals :
  r <> "" ->
  List.filter (fun entry => bool_decide (fst entry = r))
    (fold_left (processUpdate stop currentTime trip route) updates arrivals) =
  if Js.strictEq route r
  then fold_left (processUpdate stop currentTime trip route) updates
         (List.filter (fun entry => bool_decide (fst entry = r)) arrivals)
  else List.filter (fun entry => bool_decide (fst entry = r)) arrivals.
Proof.
  intros Hr. revert arrivals.
  induction updates as [| u updates IH]; intros arrivals; simpl.
  - destruct (Js.strictEq route r); reflexivity.
  - rewrite IH, processUpdate_filter by exact Hr.
    destruct (Js.strictEq route r); reflexivity.
Qed.

Lemma filteredOut_Some r route :
  r <> "" -> filteredOut (Some r) route = negb (Js.strictEq route r).
Proof.
  intros Hr. unfold filteredOut. simpl.
  destruct (decide (r = "")); [congruence | reflexivity].
Qed.

Lemma processEntity_filter r stop currentTime arrivals entity :
  r <> "" ->
  List.filter (fun entry => bool_decide (fst entry = r))
    (processEntity stop None currentTime arrivals entity) =
  processEntity stop (Some r) currentTime
    (List.filter (fun entry => bool_decide (fst entry = r)) arrivals) entity.
Proof.
  intros Hr. unfold processEntity.
  destruct (tripUpdate entity) as [tu |]; [| reflexivity].
  rewrite filteredOut_Some by exact Hr.
  change (filteredOut None ?route) with false. cbv iota.
  rewrite processUpdates_filter by exact Hr.
  destruct (Js.strictEq _ r); reflexivity.
Qed.

(** Collecting under a route filter is collecting without one and keeping
    the group of the route. *)
Lemma collectArrivals_filter r stop currentTime entities :
  r <> "" ->
  collectArrivals stop (Some r) currentTime entities =
  List.filter (fun entry => bool_decide (fst entry = r))
    (collectArrivals stop None currentTime entities).
Proof.
  intros Hr. unfold collectArrivals.
  change (@nil (string * list Arrival)) with
    (List.filter (fun entry : string * list Arrival => bool_decide (fst entry = r)) [])
    at 1.
  generalize (@nil (string * list Arrival)) as arrivals.
  induction entities as [| e entities IH]; intros arrivals; simpl;
    [reflexivity |].
  rewrite <- IH, processEntity_filter by exact Hr. reflexivity.
Qed.

Lemma arrivalsOfRoute_filter r svc stop maxArrivals currentTime groups results :
  List.filter (fun b => bool_decide (ba_routeId b = r))
    (fold_left (arrivalsOfRoute svc stop maxArrivals currentTime) groups results) =
  fold_left (arrivalsOfRoute svc stop maxArrivals currentTime)
    (List.filter (fun entry => bool_decide (fst entry = r)) groups)
    (List.filter (fun b => bool_decide (ba_routeId b = r)) results).
Proof.
  revert results.
  induction groups as [| [id data] groups IH]; intros results; simpl;
    [reflexivity |].
  rewrite IH. destruct (bool_decide (id = r)) eqn:E; simpl.
  - destruct (routes svc !! id); [| reflexivity].
    rewrite List.filter_app. simpl. rewrite E. reflexivity.
  - destruct (routes svc !! id); [| reflexivity].
    rewrite List.filter_app. simpl. rewrite E, app_nil_r. reflexivity.
Qed.

(** X6.  Asking [getNextArrivals] for one route gives what is left of the
    answer for all routes when the entries of other routes are removed: the
    route filter changes neither the entry of the route nor the failure
    reported. *)
Theorem getNextArrivals_filter_selects (svc : GTFSService)
    (response : FetchResult) (nowMs : Z) (stop route : string)
    (maxArrivals : option Z) :
  route <> "" ->
  getNextArrivals svc response nowMs stop (Some route) maxArrivals =
  match getNextArrivals svc response nowMs stop None maxArrivals with
  | Returns results =>
      Returns (List.filter (fun b => bool_decide (ba_routeId b = route)) results)
  | Throws message => Throws message
  end.
Proof.
  intros Hr. destruct response as [status text | message | entity]; simpl;
    [reflexivity | reflexivity |].
  rewrite arrivalsOfRoute_filter, <- collectArrivals_filter by exact Hr.
  reflexivity.
Qed.

(** Of the sample feed, whose trip updates are on routes "1" and "99", the
    filter "1" keeps the entry of route "1". *)
Lemma getNextArrivals_filter_selects_witness :
  "1" <> "" /\
  getNextArrivals sampleService (Feed sampleFeed) 1000000 "12345" (Some "1")
    (Some 1) =
  Returns [sampleBusArrival [sampleArrivalTime 1180 3 "3 min"]].
Proof.
  split; [discriminate |].
  rewrite (getNextArrivals_filter_selects sampleService (Feed sampleFeed)
             1000000 "12345" "1" (Some 1)); [reflexivity | discriminate].
Defined.

(** ** Live arrivals of one route *)

(** Under a route filter the grouping map holds the group of the route and
    nothing else. *)
Lemma collectArrivals_single r stop currentTime entities :
  r <> "" ->
  collectArrivals stop (Some r) currentTime entities =
  match group r (collectArrivals stop (Some r) currentTime entities) with
  | [] => []
  | data => [(r, data)]
  end.
Proof.
  intros Hr. apply single_group.
  - apply collectArrivals_NoDup.
  - apply collectArrivals_populated.
  - intros k Hk. rewrite collectArrivals_filter in Hk by exact Hr.
    apply in_map_iff in Hk as (entry & <- & Hentry).
    apply filter_In in Hentry as [_ Hentry].
    now apply bool_decide_eq_true_1 in Hentry.
Qed.

(** X7.  [getNextArrivalForRoute] on a decoded feed, for a non-empty route
    id: the answer is [null] exactly when the route is not in the route
    index or no arrival of the route at the stop is kept; otherwise it is
    the entry of the route with a single arrival time, that of an earliest
    kept arrival of the route, whose headsign is the headsign of the
    entry. *)
Theorem getNextArrivalForRoute_earliest (svc : GTFSService)
    (entity : list FeedEntity) (nowMs : Z) (stop route : string) :
  route <> "" ->
  let kept :=
    group route (collectArrivals stop (Some route) (nowMs / 1000) entity) in
  let answer := getNextArrivalForRoute svc (Feed entity) nowMs stop route in
  (answer = Returns None <-> routes svc !! route = None \/ kept = []) /\
  (forall b, answer = Returns (Some b) ->
     ba_routeId b = route /\ ba_stopId b = stop /\
     exists x,
       In x kept /\
       (forall y, In y kept -> a_time x <= a_time y) /\
       arrivalTimes b = [arrivalWithHeadsign svc (nowMs / 1000) x] /\
       ba_tripHeadsign b = headsignOf svc (a_tripId x)) /\
  (exists o, answer = Returns o).
Proof.
  intros Hr kept answer.
  assert (Hanswer :
    answer =
    Returns
      (match kept with
       | [] => None
       | _ =>
           match routes svc !! route with
           | Some _ =>
               firstOrNull
                 (arrivalsOfRoute svc stop 1 (nowMs / 1000) [] (route, kept))
           | None => None
           end
       end)).
  { subst answer. unfold getNextArrivalForRoute. simpl.
    rewrite (collectArrivals_single route stop (nowMs / 1000) entity Hr).
    fold kept. destruct kept as [| x data]; [reflexivity |].
    unfold fold_left, arrivalsOfRoute.
    destruct (routes svc !! route); reflexivity. }
  rewrite Hanswer. clear Hanswer answer.
  split; [| split].
  - destruct kept as [| x data]; [tauto |].
    unfold arrivalsOfRoute.
    destruct (routes svc !! route) as [r |]; simpl; [| tauto].
    split; [discriminate |]. intros [H | H]; discriminate.
  - intros b Hb. destruct kept as [| x0 data] eqn:Hkept; [discriminate |].
    unfold arrivalsOfRoute in Hb.
    destruct (routes svc !! route) as [r |]; [| discriminate].
    cbn [app firstOrNull] in Hb. injection Hb as <-.
    cbn [ba_routeId ba_stopId arrivalTimes ba_tripHeadsign].
    split; [reflexivity |]. split; [reflexivity |].
    destruct (slice0_sortBy_head a_time 1 (x0 :: data) ltac:(lia) ltac:(discriminate))
      as (x & rest & Hslice & Hx & Hmin).
    assert (Hrest : rest = []).
    { pose proof (slice0_length 1 (Js.sortBy a_time (x0 :: data)) ltac:(lia)) as Hlen.
      rewrite Hslice in Hlen. simpl in Hlen.
      destruct rest; [reflexivity | simpl in Hlen; lia]. }
    subst rest. exists x.
    change (Js.insert a_time x0 (Js.sortBy a_time data))
      with (Js.sortBy a_time (x0 :: data)).
    rewrite Hslice. simpl. tauto.
  - eauto.
Qed.

(** For route "1" of the sample feed the next arrival is the one at 1180;
    for route "99", which the catalog does not have, there is none. *)
Lemma getNextArrivalForRoute_earliest_witness :
  "1" <> "" /\
  getNextArrivalForRoute sampleService (Feed sampleFeed) 1000000 "12345" "1" =
    Returns (Some (sampleBusArrival [sampleArrivalTime 1180 3 "3 min"])) /\
  ba_routeId (sampleBusArrival [sampleArrivalTime 1180 3 "3 min"]) = "1" /\
  routes sampleService !! "99" = None /\
  getNextArrivalForRoute sampleService (Feed sampleFeed) 1000000 "12345" "99" =
    Returns None.
Proof.
  split; [discriminate |]. split; [reflexivity |]. split.
  - apply (proj1 (proj2 (getNextArrivalForRoute_earliest sampleService sampleFeed
                           1000000 "12345" "1" ltac:(discriminate)))
             (sampleBusArrival [sampleArrivalTime 1180 3 "3 min"])).
    reflexivity.
  - split; [reflexivity |].
    apply (proj1 (getNextArrivalForRoute_earliest sampleService sampleFeed
                    1000000 "12345" "99" ltac:(discriminate))).
    left. reflexivity.
Defined.

(** X8.  [getLiveArrivalsForRoute] on a decoded feed, for a non-empty route
    id, returns at most one entry; the entry is for that route and lists
    between one and ten arrival times. *)
Theorem getLiveArrivalsForRoute_single_entry (svc : GTFSService)
    (entity : list FeedEntity) (nowMs : Z) (stop route : string)
    (results : list BusArrival) :
  route <> "" ->
  getLiveArrivalsForRoute svc (Feed entity) nowMs stop route = Returns results ->
  (length results <= 1)%nat /\
  forall b, In b results ->
    ba_routeId b = route /\ (1 <= length (arrivalTimes b) <= 10)%nat.
Proof.
  intros Hr Hret. unfold getLiveArrivalsForRoute in Hret.
  assert (Hroute : forall b, In b results -> ba_routeId b = route).
  { intros b Hb. pose proof Hret as Hret'. simpl in Hret'.
    injection Hret' as <-.
    apply arrivalsOfRoute_In in Hb as [[] | (data & Hin & _)].
    rewrite collectArrivals_filter in Hin by exact Hr.
    apply filter_In in Hin as [_ Hin]. now apply bool_decide_eq_true_1 in Hin. }
  split.
  - pose proof Hret as Hnd. simpl in Hnd. injection Hnd as Hnd.
    assert (Hids : List.NoDup (map ba_routeId results)).
    { rewrite <- Hnd, arrivalsOfRoute_ids. simpl.
      apply List.NoDup_filter, collectArrivals_NoDup. }
    destruct results as [| b1 [| b2 results']]; simpl; [lia | lia |].
    exfalso. inversion Hids as [| ? ? Hnotin _]; subst. apply Hnotin.
    rewrite (Hroute b1), <- (Hroute b2) by (simpl; tauto).
    left. reflexivity.
  - intros b Hb. split; [apply Hroute, Hb |].
    destruct (getNextArrivals_entry _ _ _ _ _ _ _ _ Hret Hb) as [Hne Htimes].
    rewrite Htimes, length_map. simpl orDefault.
    pose proof (slice0_length 10 (Js.sortBy a_time
                  (group (ba_routeId b)
                     (collectArrivals stop (Some route) (nowMs / 1000) entity)))
                  ltac:(lia)) as Hlen.
    destruct (slice0_sortBy_head a_time 10 _ ltac:(lia) Hne)
      as (x & rest & Hslice & _).
    rewrite Hslice in *. simpl in *. lia.
Qed.

(** Route "1" has an entry with one arrival for the sample feed; a route id
    that no trip update carries has none. *)
Lemma getLiveArrivalsForRoute_single_entry_witness :
  "1" <> "" /\
  getLiveArrivalsForRoute sampleService (Feed sampleFeed) 1000000 "12345" "1" =
    Returns [sampleBusArrival [sampleArrivalTime 1180 3 "3 min";
                               sampleArrivalTime 1300 5 "5 min"]] /\
  (length [sampleBusArrival [sampleArrivalTime 1180 3 "3 min";
                             sampleArrivalTime 1300 5 "5 min"]] <= 1)%nat.
Proof.
  split; [discriminate |]. split; [reflexivity |].
  apply (getLiveArrivalsForRoute_single_entry sampleService sampleFeed 1000000
           "12345" "1"
           [sampleBusArrival [sampleArrivalTime 1180 3 "3 min";
                              sampleArrivalTime 1300 5 "5 min"]]);
    [discriminate | reflexivity].
Defined.

(** ** Scheduled departures: the shape of the answer *)

Lemma StronglySorted_firstn {X : Type} (R : X -> X -> Prop) (n : nat) (l : list X) :
  StronglySorted R l -> StronglySorted R (firstn n l).
Proof.
  revert n. induction l as [| x l IH]; intros n Hs.
  - rewrite firstn_nil. constructor.
  - destruct n as [| n]; simpl; [constructor |].
    inversion Hs as [| ? ? Hs' Hall]; subst. constructor; [apply IH, Hs' |].
    rewrite List.Forall_forall in *. intros y Hy.
    apply Hall. apply (firstn_incl n l y Hy).
Qed.

Lemma StronglySorted_map {X Y : Type} (f : X -> Y) (R : Y -> Y -> Prop)
    (l : list X) :
  StronglySorted (fun a b => R (f a) (f b)) l -> StronglySorted R (map f l).
Proof.
  induction 1 as [| x l Hs IH Hall]; simpl; constructor; [exact IH |].
  rewrite List.Forall_forall in *. intros y Hy.
  apply in_map_iff in Hy as (z & <- & Hz). apply Hall, Hz.
Qed.

Lemma departureWithHeadsign_minutes svc currentTime x :
  currentTime < d_time x < currentTime + 86400 ->
  let e := departureWithHeadsign svc currentTime x in
  0 <= minutesUntilDeparture e <= 1439 /\
  60 * minutesUntilDeparture e <= dt_time e - currentTime
    < 60 * minutesUntilDeparture e + 60.
Proof.
  intros Hw. simpl.
  pose proof (Z.div_mod (d_time x - currentTime) 60 ltac:(lia)) as Hdm.
  pose proof (Z.mod_pos_bound (d_time x - currentTime) 60 ltac:(lia)) as Hmod.
  split; [split |]; lia.
Qed.

Lemma uniqueDepartures_nonempty (data : list Departure) :
  data <> [] -> JsMap.values (uniqueDepartures data) <> [].
Proof.
  destruct data as [| x data]; [congruence |]. intros _ Hnil.
  assert (Hx : In x (JsMap.values (uniqueDepartures (x :: data)))).
  { apply uniqueDepartures_In. simpl. now rewrite Z.eqb_refl. }
  rewrite Hnil in Hx. destruct Hx.
Qed.

Lemma uniqueDepartures_kept (data : list Departure) (d : Departure) :
  In d (JsMap.values (uniqueDepartures data)) -> In d data.
Proof.
  intros Hd. apply uniqueDepartures_In in Hd.
  apply find_some in Hd. tauto.
Qed.

(** Every kept time has a survivor of the deduplication. *)
Lemma uniqueDepartures_covers (data : list Departure) (x : Departure) :
  In x data ->
  exists d, In d (JsMap.values (uniqueDepartures data)) /\ d_time d = d_time x.
Proof.
  intros Hx.
  destruct (find_exists (fun d' => d_time d' =? d_time x) data x Hx
              (Z.eqb_refl _)) as [d Hd].
  exists d. pose proof (find_some _ _ Hd) as [_ Heq].
  apply Z.eqb_eq in Heq. split; [| exact Heq].
  apply uniqueDepartures_In. now rewrite Heq.
Qed.

Lemma departuresOfRoute_fields svc stop maxDepartures currentTime groups results b :
  In b (fold_left (departuresOfRoute svc stop maxDepartures currentTime)
          groups results) ->
  In b results \/
  (bd_stopId b = stop /\
   bd_tripHeadsign b =
     match departureTimes b with
     | first :: _ => dt_headsign first
     | [] => ""
     end /\
   exists route,
     routes svc !! bd_routeId b = Some route /\
     bd_routeShortName b = shortName route /\
     bd_routeLongName b = longName route /\
     bd_routeColor b = routeColor route /\
     bd_routeTextColor b = routeTextColor route).
Proof.
  revert results.
  induction groups as [| [id data] groups IH]; intros results; simpl.
  - tauto.
  - intros Hb. apply IH in Hb as [Hb | Hb]; [| tauto].
    destruct (routes svc !! id) as [route |] eqn:Hroute; [| tauto].
    apply in_app_or in Hb as [Hb | [<- | []]]; [tauto |].
    right. simpl. split; [reflexivity |]. split; [reflexivity |].
    exists route. tauto.
Qed.

Lemma departuresOfRoute_filter r svc stop maxDepartures currentTime groups results :
  List.filter (fun b => bool_decide (bd_routeId b = r))
    (fold_left (departuresOfRoute svc stop maxDepartures currentTime)
       groups results) =
  fold_left (departuresOfRoute svc stop maxDepartures currentTime)
    (List.filter (fun entry => bool_decide (fst entry = r)) groups)
    (List.filter (fun b => bool_decide (bd_routeId b = r)) results).
Proof.
  revert results.
  induction groups as [| [id data] groups IH]; intros results; simpl;
    [reflexivity |].
  rewrite IH. destruct (bool_decide (id = r)) eqn:E; simpl.
  - destruct (routes svc !! id); [| reflexivity].
    rewrite List.filter_app. simpl. rewrite E. reflexivity.
  - destruct (routes svc !! id); [| reflexivity].
    rewrite List.filter_app. simpl. rewrite E, app_nil_r. reflexivity.
Qed.

Section DepartureFacts.
Variable LocalTZA : Z -> bool -> Z.
Variable toNumber : string -> option Z.

Lemma scanTrip_populated svc nowMs stop routeFilter currentTime departures entry :
  populated departures ->
  populated (scanTrip LocalTZA toNumber svc nowMs stop routeFilter currentTime
               departures entry).
Proof.
  intros Hm. unfold scanTrip. destruct entry as [id times].
  destruct (trips svc !! id) as [trip |]; [| exact Hm].
  destruct (routeMismatch _ _); [exact Hm |].
  destruct (find _ times) as [stopTime |]; [| exact Hm].
  destruct (parseGtfsTime _ _ _ _) as [departure |]; [| exact Hm].
  destruct (_ && _); [| exact Hm].
  apply populated_push, Hm.
Qed.

Lemma collectDepartures_populated svc nowMs stop routeFilter :
  populated (collectDepartures LocalTZA toNumber svc nowMs stop routeFilter).
Proof.
  unfold collectDepartures. apply populated_fold; [| constructor].
  intros m e. apply scanTrip_populated.
Qed.

Lemma kept_departure_window svc nowMs stop routeFilter id x :
  In x (group id (collectDepartures LocalTZA toNumber svc nowMs stop routeFilter)) ->
  nowMs / 1000 < d_time x < nowMs / 1000 + 86400.
Proof.
  rewrite collectDepartures_group. intros Hx.
  apply in_flat_map in Hx as (entry & _ & Hx).
  apply tripYield_In in Hx. tauto.
Qed.

(** The entry of a route in the answer, from the group of the route. *)
Lemma getScheduledDepartures_entry svc nowMs stop routeFilter maxDepartures b :
  In b (getScheduledDepartures LocalTZA toNumber svc nowMs stop routeFilter
          maxDepartures) ->
  let kept :=
    group (bd_routeId b)
      (collectDepartures LocalTZA toNumber svc nowMs stop routeFilter) in
  kept <> [] /\
  departureTimes b =
    map (departureWithHeadsign svc (nowMs / 1000))
      (Js.slice0 (orDefault maxDepartures 5)
         (Js.sortBy d_time (JsMap.values (uniqueDepartures kept)))).
Proof.
  intros Hb. unfold getScheduledDepartures in Hb.
  apply departuresOfRoute_In in Hb as [[] | (data & Hin & Htimes)].
  pose proof (collectDepartures_populated svc nowMs stop routeFilter) as Hpop.
  unfold populated in Hpop. rewrite List.Forall_forall in Hpop.
  pose proof (Hpop _ Hin) as Hne. simpl in Hne.
  apply (In_get _ _ _ (collectDepartures_NoDup LocalTZA toNumber svc nowMs stop
                         routeFilter)) in Hin.
  cbv zeta. unfold group. rewrite Hin. simpl. tauto.
Qed.

(** X9.  With a non-negative [maxDepartures] (5 when omitted), every route
    entry that [getScheduledDepartures] returns lists at most
    [maxDepartures] departure times, in strictly increasing order of time;
    each is built from a kept departure of the route, and the time of a kept
    departure of the route that is strictly earlier than a listed time is
    listed too: the entry holds the earliest distinct kept times of the
    route. *)
Theorem getScheduledDepartures_earliest_first (svc : GTFSService) (nowMs : Z)
    (stop : string) (routeFilter : option string) (maxDepartures : option Z)
    (b : BusDeparture) :
  0 <= orDefault maxDepartures 5 ->
  In b (getScheduledDepartures LocalTZA toNumber svc nowMs stop routeFilter
          maxDepartures) ->
  let kept :=
    group (bd_routeId b)
      (collectDepartures LocalTZA toNumber svc nowMs stop routeFilter) in
  Z.of_nat (length (departureTimes b)) <= orDefault maxDepartures 5 /\
  StronglySorted Z.lt (map dt_time (departureTimes b)) /\
  (forall e, In e (departureTimes b) ->
     exists x, In x kept /\ e = departureWithHeadsign svc (nowMs / 1000) x) /\
  (forall x e, In x kept -> In e (departureTimes b) -> d_time x < dt_time e ->
     In (d_time x) (map dt_time (departureTimes b))).
Proof.
  intros Hmax Hb kept.
  destruct (getScheduledDepartures_entry _ _ _ _ _ _ Hb) as [_ Htimes].
  fold kept in Htimes. rewrite Htimes. split; [| split; [| split]].
  - rewrite length_map. apply slice0_length, Hmax.
  - rewrite map_map. simpl. apply StronglySorted_map.
    apply StronglySorted_firstn, sorted_NoDup_strict; [apply sortBy_sorted |].
    apply (Permutation_NoDup (l := map d_time (JsMap.values (uniqueDepartures kept)))).
    + apply Permutation_map, sortBy_perm.
    + apply uniqueDepartures_NoDup.
  - intros e He. apply in_map_iff in He as (x & <- & Hx).
    exists x. split; [| reflexivity].
    apply slice0_incl in Hx. rewrite (sortBy_In d_time) in Hx.
    apply uniqueDepartures_kept, Hx.
  - intros x e Hx He Hlt. apply in_map_iff in He as (y & <- & Hy).
    simpl in Hlt.
    destruct (uniqueDepartures_covers kept x Hx) as (d & Hd & Heq).
    rewrite map_map. simpl. rewrite <- Heq. apply in_map.
    apply (firstn_earliest d_time _ _ d y); auto using sortBy_sorted; [| lia].
    now rewrite (sortBy_In d_time).
Qed.

(** X10.  For every departure time that [getScheduledDepartures] returns,
    the minutes until departure are the whole minutes between the clock and
    the departure, between 0 and 1439; the entry is flagged as scheduled and
    its status is "Departing" up to 119 seconds ahead, "Due" from 120 to 179
    seconds ahead and the minutes followed by " min" beyond. *)
Theorem getScheduledDepartures_minutes_status (svc : GTFSService) (nowMs : Z)
    (stop : string) (routeFilter : option string) (maxDepartures : option Z)
    (b : BusDeparture) (e : DepartureTime) :
  In b (getScheduledDepartures LocalTZA toNumber svc nowMs stop routeFilter
          maxDepartures) ->
  In e (departureTimes b) ->
  let ahead := dt_time e - nowMs / 1000 in
  0 <= minutesUntilDeparture e <= 1439 /\
  60 * minutesUntilDeparture e <= ahead < 60 * minutesUntilDeparture e + 60 /\
  isScheduled e = true /\
  (ahead < 120 -> dt_status e = "Departing") /\
  (120 <= ahead < 180 -> dt_status e = "Due") /\
  (180 <= ahead ->
     dt_status e = (Js.toString (minutesUntilDeparture e) ++ " min")%string).
Proof.
  intros Hb He ahead.
  destruct (getScheduledDepartures_entry _ _ _ _ _ _ Hb) as [_ Htimes].
  rewrite Htimes in He. apply in_map_iff in He as (x & <- & Hx).
  apply slice0_incl in Hx. rewrite (sortBy_In d_time) in Hx.
  apply uniqueDepartures_kept, kept_departure_window in Hx.
  destruct (departureWithHeadsign_minutes svc (nowMs / 1000) x Hx)
    as [Hrange Hdiv].
  split; [exact Hrange |]. split; [exact Hdiv |].
  split; [reflexivity |].
  subst ahead. revert Hrange Hdiv. simpl.
  generalize ((d_time x - nowMs / 1000) / 60) as minutes.
  intros minutes Hrange Hdiv. unfold getDepartureStatus.
  split; [| split]; intros Hahead.
  - destruct (minutes <=? 1) eqn:E; [reflexivity | lia].
  - destruct (minutes <=? 1) eqn:E1; [lia |].
    destruct (minutes <=? 2) eqn:E2; [reflexivity | lia].
  - destruct (minutes <=? 1) eqn:E1; [lia |].
    destruct (minutes <=? 2) eqn:E2; [lia | reflexivity].
Qed.

End DepartureFacts.

Lemma sample_departures_entry :
  getScheduledDepartures samplePST Js.Number scheduleService sampleNowMs "S100"
    None None = [sampleDepartures].
Proof. vm_compute. reflexivity. Qed.

Lemma getScheduledDepartures_earliest_first_witness :
  In sampleDepartures
    (getScheduledDepartures samplePST Js.Number scheduleService sampleNowMs
       "S100" None None) /\
  Z.of_nat (length (departureTimes sampleDepartures)) <= 5 /\
  StronglySorted Z.lt (map dt_time (departureTimes sampleDepartures)).
Proof.
  assert (Hin : In sampleDepartures
                  (getScheduledDepartures samplePST Js.Number scheduleService
                     sampleNowMs "S100" None None)).
  { rewrite sample_departures_entry. left. reflexivity. }
  split; [exact Hin |].
  destruct (getScheduledDepartures_earliest_first samplePST Js.Number
              scheduleService sampleNowMs "S100" None None sampleDepartures)
    as (Hlen & Hsorted & _); [simpl; lia | exact Hin |].
  split; [exact Hlen | exact Hsorted].
Defined.

Lemma getScheduledDepartures_minutes_status_witness :
  In sampleDepartures
    (getScheduledDepartures samplePST Js.Number scheduleService sampleNowMs
       "S100" None None) /\
  0 <= 1083 <= 1439 /\
  (180 <= 1762065000 - sampleNowMs / 1000 ->
   "1083 min" = (Js.toString 1083 ++ " min")%string).
Proof.
  assert (Hin : In sampleDepartures
                  (getScheduledDepartures samplePST Js.Number scheduleService
                     sampleNowMs "S100" None None)).
  { rewrite sample_departures_entry. left. reflexivity. }
  split; [exact Hin |].
  destruct (getScheduledDepartures_minutes_status samplePST Js.Number
              scheduleService sampleNowMs "S100" None None sampleDepartures
              (sampleDepartureTime 1762065000 "Crosstown" 1083 "1083 min"))
    as (Hrange & _ & _ & _ & _ & Hmin); [exact Hin | left; reflexivity |].
  split; [exact Hrange | exact Hmin].
Defined.

(** ** Scheduled departures of one route *)

Section RouteDepartureFacts.
Variable LocalTZA : Z -> bool -> Z.
Variable toNumber : string -> option Z.

Lemma routeMismatch_Some r route :
  r <> "" -> routeMismatch (Some r) route = negb (bool_decide (route = r)).
Proof.
  intros Hr. unfold routeMismatch. simpl.
  destruct (decide (r = "")); [congruence | reflexivity].
Qed.

Lemma scanTrip_filter r svc nowMs stop currentTime departures entry :
  r <> "" ->
  List.filter (fun group => bool_decide (fst group = r))
    (scanTrip LocalTZA toNumber svc nowMs stop None currentTime departures entry) =
  scanTrip LocalTZA toNumber svc nowMs stop (Some r) currentTime
    (List.filter (fun group => bool_decide (fst group = r)) departures) entry.
Proof.
  intros Hr. unfold scanTrip. destruct entry as [id times].
  destruct (trips svc !! id) as [trip |]; [| reflexivity].
  rewrite routeMismatch_Some by exact Hr.
  change (routeMismatch None ?route) with false. cbv iota.
  destruct (bool_decide (trip_routeId trip = r)) eqn:E; simpl.
  - apply bool_decide_eq_true_1 in E.
    destruct (find _ times) as [stopTime |]; [| reflexivity].
    destruct (parseGtfsTime _ _ _ _) as [departure |]; [| reflexivity].
    destruct (_ && _); [| reflexivity].
    rewrite E. apply filter_push_same.
  - apply bool_decide_eq_false_1 in E.
    destruct (find _ times) as [stopTime |]; [| reflexivity].
    destruct (parseGtfsTime _ _ _ _) as [departure |]; [| reflexivity].
    destruct (_ && _); [| reflexivity].
    apply filter_push_other, E.
Qed.

(** Collecting under a route filter is collecting without one and keeping
    the group of the route. *)
Lemma collectDepartures_filter r svc nowMs stop :
  r <> "" ->
  collectDepartures LocalTZA toNumber svc nowMs stop (Some r) =
  List.filter (fun group => bool_decide (fst group = r))
    (collectDepartures LocalTZA toNumber svc nowMs stop None).
Proof.
  intros Hr. unfold collectDepartures.
  change (@nil (string * list Departure)) with
    (List.filter (fun group : string * list Departure => bool_decide (fst group = r)) [])
    at 1.
  generalize (@nil (string * list Departure)) as departures.
  induction (stopTimes svc) as [| e entries IH]; intros departures; simpl;
    [reflexivity |].
  rewrite <- IH, scanTrip_filter by exact Hr. reflexivity.
Qed.

Lemma collectDepartures_single r svc nowMs stop :
  r <> "" ->
  collectDepartures LocalTZA toNumber svc nowMs stop (Some r) =
  match group r (collectDepartures LocalTZA toNumber svc nowMs stop (Some r)) with
  | [] => []
  | data => [(r, data)]
  end.
Proof.
  intros Hr. apply single_group.
  - apply collectDepartures_NoDup.
  - apply collectDepartures_populated.
  - intros k Hk. rewrite collectDepartures_filter in Hk by exact Hr.
    apply in_map_iff in Hk as (entry & <- & Hentry).
    apply filter_In in Hentry as [_ Hentry].
    now apply bool_decide_eq_true_1 in Hentry.
Qed.

(** X11.  Asking [getScheduledDepartures] for one route gives what is left
    of the answer for all routes when the entries of other routes are
    removed. *)
Theorem getScheduledDepartures_filter_selects (svc : GTFSService) (nowMs : Z)
    (stop route : string) (maxDepartures : option Z) :
  route <> "" ->
  getScheduledDepartures LocalTZA toNumber svc nowMs stop (Some route)
    maxDepartures =
  List.filter (fun b => bool_decide (bd_routeId b = route))
    (getScheduledDepartures LocalTZA toNumber svc nowMs stop None maxDepartures).
Proof.
  intros Hr. unfold getScheduledDepartures.
  rewrite departuresOfRoute_filter, <- collectDepartures_filter by exact Hr.
  reflexivity.
Qed.

(** X12.  [getNextScheduledDepartureForRoute], for a non-empty route id:
    the answer is [null] exactly when the route is not in the route index or
    no departure of the route at the stop is kept; otherwise it is the entry
    of the route with a single departure time, the earliest kept time of the
    route, built from the first kept departure with that time, whose
    headsign is the headsign of the entry. *)
Theorem getNextScheduledDepartureForRoute_earliest (svc : GTFSService)
    (nowMs : Z) (stop route : string) :
  route <> "" ->
  let kept :=
    group route
      (collectDepartures LocalTZA toNumber svc nowMs stop (Some route)) in
  let answer :=
    getNextScheduledDepartureForRoute LocalTZA toNumber svc nowMs stop route in
  (answer = None <-> routes svc !! route = None \/ kept = []) /\
  (forall b, answer = Some b ->
     bd_routeId b = route /\ bd_stopId b = stop /\
     exists x,
       find (fun d => d_time d =? d_time x) kept = Some x /\
       (forall y, In y kept -> d_time x <= d_time y) /\
       departureTimes b = [departureWithHeadsign svc (nowMs / 1000) x] /\
       bd_tripHeadsign b = headsignOf svc (d_tripId x)).
Proof.
  intros Hr kept answer.
  assert (Hanswer :
    answer =
    match kept with
    | [] => None
    | _ =>
        match routes svc !! route with
        | Some _ =>
            firstOrNull
              (departuresOfRoute svc stop 1 (nowMs / 1000) [] (route, kept))
        | None => None
        end
    end).
  { subst answer.
    unfold getNextScheduledDepartureForRoute, getScheduledDepartures.
    rewrite (collectDepartures_single route svc nowMs stop Hr).
    fold kept. destruct kept as [| x data]; [reflexivity |].
    unfold fold_left, departuresOfRoute. simpl orDefault.
    destruct (routes svc !! route); reflexivity. }
  rewrite Hanswer. clear Hanswer answer.
  split.
  - destruct kept as [| x data]; [tauto |].
    unfold departuresOfRoute.
    destruct (routes svc !! route) as [r |]; simpl; [| tauto].
    split; [discriminate |]. intros [H | H]; discriminate.
  - intros b Hb. destruct kept as [| x0 data] eqn:Hkept; [discriminate |].
    unfold departuresOfRoute in Hb.
    destruct (routes svc !! route) as [r |]; [| discriminate].
    cbn [app firstOrNull] in Hb. injection Hb as <-.
    cbn [bd_routeId bd_stopId departureTimes bd_tripHeadsign].
    split; [reflexivity |]. split; [reflexivity |].
    destruct (slice0_sortBy_head d_time 1
                (JsMap.values (uniqueDepartures (x0 :: data))) ltac:(lia)
                (uniqueDepartures_nonempty (x0 :: data) ltac:(discriminate)))
      as (x & rest & Hslice & Hx & Hmin).
    assert (Hrest : rest = []).
    { pose proof (slice0_length 1
                    (Js.sortBy d_time
                       (JsMap.values (uniqueDepartures (x0 :: data))))
                    ltac:(lia)) as Hlen.
      rewrite Hslice in Hlen. simpl in Hlen.
      destruct rest; [reflexivity | simpl in Hlen; lia]. }
    subst rest. exists x. rewrite Hslice.
    split; [apply uniqueDepartures_In, Hx |].
    split; [| simpl; tauto].
    intros y Hy. destruct (uniqueDepartures_covers _ y Hy) as (d & Hd & <-).
    apply Hmin, Hd.
Qed.

(** X13.  [getScheduledDeparturesForRoute], for a non-empty route id,
    returns at most one entry; the entry is for that route and lists between
    one and ten departure times. *)
Theorem getScheduledDeparturesForRoute_single_entry (svc : GTFSService)
    (nowMs : Z) (stop route : string) :
  route <> "" ->
  let results :=
    getScheduledDeparturesForRoute LocalTZA toNumber svc nowMs stop route in
  (length results <= 1)%nat /\
  forall b, In b results ->
    bd_routeId b = route /\ (1 <= length (departureTimes b) <= 10)%nat.
Proof.
  intros Hr results. subst results. unfold getScheduledDeparturesForRoute.
  assert (Hroute : forall b,
            In b (getScheduledDepartures LocalTZA toNumber svc nowMs stop
                    (Some route) (Some 10)) ->
            bd_routeId b = route).
  { intros b Hb. unfold getScheduledDepartures in Hb.
    apply departuresOfRoute_In in Hb as [[] | (data & Hin & _)].
    rewrite collectDepartures_filter in Hin by exact Hr.
    apply filter_In in Hin as [_ Hin]. now apply bool_decide_eq_true_1 in Hin. }
  split.
  - assert (Hids : List.NoDup
                     (map bd_routeId
                        (getScheduledDepartures LocalTZA toNumber svc nowMs stop
                           (Some route) (Some 10)))).
    { unfold getScheduledDepartures. rewrite departuresOfRoute_ids. simpl.
      apply List.NoDup_filter, collectDepartures_NoDup. }
    destruct (getScheduledDepartures LocalTZA toNumber svc nowMs stop
                (Some route) (Some 10)) as [| b1 [| b2 results']];
      simpl; [lia | lia |].
    exfalso. inversion Hids as [| ? ? Hnotin _]; subst. apply Hnotin.
    rewrite (Hroute b1), <- (Hroute b2) by (simpl; tauto).
    left. reflexivity.
  - intros b Hb. split; [apply Hroute, Hb |].
    destruct (getScheduledDepartures_entry LocalTZA toNumber _ _ _ _ _ _ Hb)
      as [Hne Htimes].
    rewrite Htimes, length_map. simpl orDefault.
    pose proof (slice0_length 10
                  (Js.sortBy d_time
                     (JsMap.values
                        (uniqueDepartures
                           (group (bd_routeId b)
                              (collectDepartures LocalTZA toNumber svc nowMs stop
                                 (Some route))))))
                  ltac:(lia)) as Hlen.
    destruct (slice0_sortBy_head d_time 10 _ ltac:(lia)
                (uniqueDepartures_nonempty _ Hne))
      as (x & rest & Hslice & _).
    rewrite Hslice in *. simpl in *. lia.
Qed.

End RouteDepartureFacts.

(** In the sample schedule every trip at "S100" with a route entry is on
    route "1": the filter "1" keeps the whole answer. *)
Lemma getScheduledDepartures_filter_selects_witness :
  "1" <> "" /\
  getScheduledDepartures samplePST Js.Number scheduleService sampleNowMs "S100"
    (Some "1") None = [sampleDepartures].
Proof.
  split; [discriminate |].
  rewrite (getScheduledDepartures_filter_selects samplePST Js.Number
             scheduleService sampleNowMs "S100" "1" None);
    [vm_compute; reflexivity | discriminate].
Defined.

(** The next departure of route "1" from "S100" is the one of trip "T4" at
    22:30:00. *)
Lemma getNextScheduledDepartureForRoute_earliest_witness :
  "1" <> "" /\
  getNextScheduledDepartureForRoute samplePST Js.Number scheduleService
    sampleNowMs "S100" "1" = Some sampleNextDeparture /\
  bd_routeId sampleNextDeparture = "1" /\
  routes scheduleService !! "99" = None /\
  getNextScheduledDepartureForRoute samplePST Js.Number scheduleService
    sampleNowMs "S100" "99" = None.
Proof.
  split; [discriminate |].
  assert (Hnext : getNextScheduledDepartureForRoute samplePST Js.Number
                    scheduleService sampleNowMs "S100" "1"
                  = Some sampleNextDeparture) by (vm_compute; reflexivity).
  split; [exact Hnext |].
  destruct (getNextScheduledDepartureForRoute_earliest samplePST Js.Number
              scheduleService sampleNowMs "S100" "1" ltac:(discriminate))
    as [_ Hsome].
  destruct (Hsome sampleNextDeparture Hnext) as [Hroute _].
  split; [exact Hroute |].
  assert (Hnone : routes scheduleService !! "99" = None) by reflexivity.
  split; [exact Hnone |].
  destruct (getNextScheduledDepartureForRoute_earliest samplePST Js.Number
              scheduleService sampleNowMs "S100" "99" ltac:(discriminate))
    as [[_ Hnull] _].
  apply Hnull. left. exact Hnone.
Defined.

Lemma getScheduledDeparturesForRoute_single_entry_witness :
  "1" <> "" /\
  (length (getScheduledDeparturesForRoute samplePST Js.Number scheduleService
             sampleNowMs "S100" "1") <= 1)%nat.
Proof.
  split; [discriminate |].
  destruct (getScheduledDeparturesForRoute_single_entry samplePST Js.Number
              scheduleService sampleNowMs "S100" "1" ltac:(discriminate))
    as [Hlen _].
  exact Hlen.
Defined.

(** ** Malformed schedule times *)

Section MalformedFacts.
Variable LocalTZA : Z -> bool -> Z.
Variable toNumber : string -> option Z.

Lemma setHours_NaN (tv hour min sec ms : option Z) :
  hour = None \/ min = None \/ sec = None ->
  JsDate.setHours LocalTZA tv hour min sec ms = None.
Proof.
  intros H. unfold JsDate.setHours.
  destruct tv; [| reflexivity].
  destruct hour; [| reflexivity].
  destruct min; [| reflexivity].
  destruct sec; [| reflexivity].
  destruct H as [H | [H | H]]; discriminate.
Qed.

Lemma parseGtfsTime_NaN (nowMs : Z) (timeStr : string) :
  (exists i, (i < 3)%nat /\
             nth i (map toNumber (Js.split ":" timeStr)) None = None) ->
  parseGtfsTime LocalTZA toNumber nowMs timeStr = None.
Proof.
  intros (i & Hi & Hnth). unfold parseGtfsTime. cbv zeta.
  assert (Hbad : nth 0 (map toNumber (Js.split ":" timeStr)) None = None \/
                 nth 1 (map toNumber (Js.split ":" timeStr)) None = None \/
                 nth 2 (map toNumber (Js.split ":" timeStr)) None = None).
  { destruct i as [| [| [| i]]]; [tauto .. | lia]. }
  destruct (Js.geNum _ 24).
  - rewrite setHours_NaN; [reflexivity |].
    destruct Hbad as [H | H]; [left; now rewrite H | right; exact H].
  - rewrite setHours_NaN; [reflexivity | exact Hbad].
Qed.

(** X14.  A departure time that lacks one of its three fields, or one of
    whose first three fields is not a number, converts to [NaN]; the trip
    whose first stop time at the requested stop carries it adds no
    departure, whatever the clock and the filter. *)
Theorem malformed_departure_time_skipped (svc : GTFSService) (nowMs : Z)
    (stop : string) (routeFilter : option string) (currentTime : Z)
    (departures : list (string * list Departure))
    (id : string) (times : list GTFSStopTime) (stopTime : GTFSStopTime) :
  find (fun st => bool_decide (st_stopId st = stop)) times = Some stopTime ->
  (exists i, (i < 3)%nat /\
     nth i (map toNumber (Js.split ":" (departureTime stopTime))) None = None) ->
  parseGtfsTime LocalTZA toNumber nowMs (departureTime stopTime) = None /\
  scanTrip LocalTZA toNumber svc nowMs stop routeFilter currentTime departures
    (id, times) = departures.
Proof.
  intros Hfind Hbad. pose proof (parseGtfsTime_NaN nowMs _ Hbad) as Hnan.
  split; [exact Hnan |]. unfold scanTrip.
  destruct (trips svc !! id) as [trip |]; [| reflexivity].
  destruct (routeMismatch _ _); [reflexivity |].
  rewrite Hfind, Hnan. reflexivity.
Qed.

End MalformedFacts.

(** The time "12:30" has no seconds field. *)
Lemma malformed_departure_time_skipped_witness :
  let times := [mkStopTime "T1" "12:30" "12:30" "S100" 1] in
  find (fun st => bool_decide (st_stopId st = "S100")) times
    = Some (mkStopTime "T1" "12:30" "12:30" "S100" 1) /\
  nth 2 (map Js.Number (Js.split ":" "12:30")) None = None /\
  scanTrip samplePST Js.Number sampleService sampleNowMs "S100" None
    (sampleNowMs / 1000) [] ("T1", times) = [].
Proof.
  cbv zeta. split; [reflexivity |]. split; [reflexivity |].
  apply (proj2 (malformed_departure_time_skipped samplePST Js.Number
                  sampleService sampleNowMs "S100" None (sampleNowMs / 1000) []
                  "T1" [mkStopTime "T1" "12:30" "12:30" "S100" 1]
                  (mkStopTime "T1" "12:30" "12:30" "S100" 1)
                  eq_refl
                  (ex_intro _ 2%nat (conj (le_n 3) eq_refl)))).
Defined.

(** ** Stop times of a trip, as loaded *)

Lemma addStopTime_group index row id :
  group id (addStopTime index row) = group id index ++ rowYield id row.
Proof.
  unfold addStopTime, rowYield.
  destruct (Js.truthyStr (f_tripId row)) as [tripId |];
    [| now rewrite app_nil_r].
  destruct (Js.truthyStr (f_stopId row)); [| now rewrite app_nil_r].
  destruct (Js.truthyStr (f_arrivalTime row)); [| now rewrite app_nil_r].
  destruct (Js.truthyStr (f_departureTime row)); [| now rewrite app_nil_r].
  destruct (f_stopSequence row); [| now rewrite app_nil_r].
  rewrite group_push. destruct (decide (tripId = id)) as [Heq | Hne].
  - rewrite bool_decide_eq_true_2 by exact Heq. reflexivity.
  - rewrite bool_decide_eq_false_2 by exact Hne. now rewrite app_nil_r.
Qed.

Lemma addStopTimes_group rows index id :
  group id (fold_left addStopTime rows index) =
  group id index ++ flat_map (rowYield id) rows.
Proof.
  revert index. induction rows as [| row rows IH]; intros index; simpl.
  - now rewrite app_nil_r.
  - rewrite IH, addStopTime_group, <- app_assoc. reflexivity.
Qed.

Lemma get_sortStopTimes index id :
  JsMap.get id (sortStopTimes index) =
  option_map (Js.sortBy stopSequence) (JsMap.get id index).
Proof.
  induction index as [| [k v] index IH]; simpl; [reflexivity |].
  destruct (decide (k = id)); [reflexivity | exact IH].
Qed.

Lemma rowYield_tripId id row st : In st (rowYield id row) -> st_tripId st = id.
Proof.
  unfold rowYield.
  destruct (Js.truthyStr (f_tripId row)) as [tripId |]; [| intros []].
  destruct (Js.truthyStr (f_stopId row)); [| intros []].
  destruct (Js.truthyStr (f_arrivalTime row)); [| intros []].
  destruct (Js.truthyStr (f_departureTime row)); [| intros []].
  destruct (f_stopSequence row); [| intros []].
  destruct (bool_decide (tripId = id)) eqn:E; [| intros []].
  apply bool_decide_eq_true_1 in E. intros [<- | []]. exact E.
Qed.

(** X15.  After [loadStopTimes] into an empty stop-time index, the stop
    times that [getTripDetails] shows for a trip are the complete lines of
    the file that carry the trip id, sorted by stop sequence, lines of equal
    sequence in file order; the trip and the route shown are the entries of
    the trip index and of the route index. *)
Theorem getTripDetails_stop_times_in_sequence (rows : list StopTimeFields)
    (svc0 : GTFSService) (id : string) (details : TripDetails) :
  stopTimes svc0 = [] ->
  getTripDetails (loadStopTimes (Some rows) svc0) id = Some details ->
  details_stopTimes details =
    Js.sortBy stopSequence (flat_map (rowYield id) rows) /\
  sortedBy stopSequence (details_stopTimes details) /\
  (forall st, In st (details_stopTimes details) -> st_tripId st = id) /\
  trips svc0 !! id = Some (details_trip details) /\
  routes svc0 !! trip_routeId (details_trip details)
    = Some (details_route details).
Proof.
  intros Hempty Hdetails. unfold getTripDetails in Hdetails.
  cbn [loadStopTimes trips routes stopTimes] in Hdetails.
  destruct (trips svc0 !! id) as [trip |] eqn:Htrip; [| discriminate].
  destruct (routes svc0 !! trip_routeId trip) as [route |] eqn:Hroute;
    [| discriminate].
  injection Hdetails as <-. cbn [details_stopTimes details_trip details_route].
  assert (Htimes :
    match JsMap.get id (sortStopTimes (fold_left addStopTime rows (stopTimes svc0))) with
    | Some l => l
    | None => []
    end = Js.sortBy stopSequence (flat_map (rowYield id) rows)).
  { rewrite get_sortStopTimes.
    pose proof (addStopTimes_group rows (stopTimes svc0) id) as Hgroup.
    rewrite Hempty in *. unfold group in Hgroup. simpl in Hgroup.
    destruct (JsMap.get id (fold_left addStopTime rows [])) as [l |];
      simpl in *; rewrite <- Hgroup; reflexivity. }
  rewrite Htimes. split; [reflexivity |].
  split; [apply sortBy_sorted |]. split; [| tauto].
  intros st Hst. rewrite (sortBy_In stopSequence) in Hst.
  apply in_flat_map in Hst as (row & _ & Hst).
  apply (rowYield_tripId id row st Hst).
Qed.

(** Trip "T1" of the sample schedule: the three lines of the file, which are
    in descending sequence there, come out in ascending sequence. *)
Lemma getTripDetails_stop_times_in_sequence_witness :
  let details :=
    {| details_trip := mkTrip "T1" "1" "Downtown";
       details_route := sampleRoute;
       details_stopTimes :=
         [ mkStopTime "T1" "22:00:00" "22:00:00" "S1" 1;
           mkStopTime "T1" "23:00:00" "23:00:00" "S100" 2;
           mkStopTime "T1" "23:30:00" "23:30:00" "S100" 3 ] |} in
  stopTimes sampleService = [] /\
  getTripDetails (loadStopTimes (Some sampleRows) sampleService) "T1"
    = Some details /\
  sortedBy stopSequence (details_stopTimes details).
Proof.
  cbv zeta. split; [reflexivity |].
  assert (H : getTripDetails (loadStopTimes (Some sampleRows) sampleService) "T1"
              = Some {| details_trip := mkTrip "T1" "1" "Downtown";
                        details_route := sampleRoute;
                        details_stopTimes :=
                          [ mkStopTime "T1" "22:00:00" "22:00:00" "S1" 1;
                            mkStopTime "T1" "23:00:00" "23:00:00" "S100" 2;
                            mkStopTime "T1" "23:30:00" "23:30:00" "S100" 3 ] |})
    by (vm_compute; reflexivity).
  split; [exact H |].
  apply (getTripDetails_stop_times_in_sequence sampleRows sampleService "T1" _
           eq_refl H).
Defined.

(** ** Stops of a route *)

Lemma includes_In (x : string) (arr : list string) :
  includes x arr = true <-> In x arr.
Proof.
  unfold includes. rewrite existsb_exists. split.
  - intros (y & Hy & Heq). apply bool_decide_eq_true_1 in Heq. now subst.
  - intros Hx. exists x. split; [exact Hx |].
    now apply bool_decide_eq_true_2.
Qed.

Lemma addRouteStops_In (times : list GTFSStopTime) (ids : list string)
    (stop : string) :
  In stop (fold_left addRouteStop times ids) <->
  In stop ids \/ exists st, In st times /\ st_stopId st = stop.
Proof.
  revert ids. induction times as [| t times IH]; intros ids; simpl.
  - split; [tauto | intros [H | (st & [] & _)]; exact H].
  - rewrite IH. unfold addRouteStop.
    destruct (includes (st_stopId t) ids) eqn:E.
    + apply includes_In in E. split.
      * intros [H | (st & Hst & Heq)]; [tauto | right; eauto].
      * intros [H | (st & [<- | Hst] & Heq)]; [tauto | subst; tauto |].
        right. eauto.
    + rewrite in_app_iff. simpl. split.
      * intros [[H | [H | []]] | (st & Hst & Heq)]; [tauto | | right; eauto].
        right. exists t. tauto.
      * intros [H | (st & [<- | Hst] & Heq)]; [tauto | tauto |].
        right. eauto.
Qed.

Lemma addRouteStops_NoDup (times : list GTFSStopTime) (ids : list string) :
  List.NoDup ids -> List.NoDup (fold_left addRouteStop times ids).
Proof.
  revert ids. induction times as [| t times IH]; intros ids Hnd; simpl;
    [exact Hnd |].
  apply IH. unfold addRouteStop.
  destruct (includes (st_stopId t) ids) eqn:E; [exact Hnd |].
  apply List.NoDup_app; [exact Hnd | repeat constructor; intros [] |].
  intros x Hx [<- | []].
  apply includes_In in Hx. congruence.
Qed.

Lemma addRouteStops_app (a b : list GTFSStopTime) (ids : list string) :
  fold_left addRouteStop (a ++ b) ids =
  fold_left addRouteStop b (fold_left addRouteStop a ids).
Proof. apply fold_left_app. Qed.

Lemma group_set {X : Type} (m : list (string * list X)) (k id : string)
    (v : list X) :
  group id (JsMap.set k v m) = if decide (k = id) then v else group id m.
Proof.
  unfold group. rewrite get_set. destruct (decide (k = id)); reflexivity.
Qed.

Lemma mapTripStops_group index mapping entry id :
  group id (mapTripStops index mapping entry) =
  fold_left addRouteStop (timesOfRoute index [entry] id) (group id mapping).
Proof.
  destruct entry as [key trip]. unfold mapTripStops, timesOfRoute.
  cbn [flat_map fst snd]. rewrite app_nil_r.
  destruct (JsMap.get key index) as [times |] eqn:Hget; cbn [orDefault].
  - assert (Hstored :
      JsMap.get (trip_routeId trip)
        (if JsMap.has (trip_routeId trip) mapping then mapping
         else JsMap.set (trip_routeId trip) [] mapping) =
      Some (group (trip_routeId trip) mapping)).
    { rewrite has_get. unfold group.
      destruct (JsMap.get (trip_routeId trip) mapping) as [l |] eqn:E.
      - rewrite E. reflexivity.
      - rewrite get_set.
        destruct (decide (trip_routeId trip = trip_routeId trip));
          [reflexivity | congruence]. }
    rewrite Hstored, group_set.
    destruct (decide (trip_routeId trip = id)) as [Heq | Hne].
    + rewrite bool_decide_eq_true_2 by exact Heq. now rewrite Heq.
    + rewrite bool_decide_eq_false_2 by exact Hne. simpl.
      destruct (JsMap.has (trip_routeId trip) mapping); [reflexivity |].
      rewrite group_set.
      destruct (decide (trip_routeId trip = id)); [congruence | reflexivity].
  - destruct (bool_decide (trip_routeId trip = id)); reflexivity.
Qed.

Lemma mapTripsStops_group index tripEntries mapping id :
  group id (fold_left (mapTripStops index) tripEntries mapping) =
  fold_left addRouteStop (timesOfRoute index tripEntries id) (group id mapping).
Proof.
  revert mapping. induction tripEntries as [| entry entries IH];
    intros mapping; [reflexivity |].
  cbn [fold_left]. rewrite IH, mapTripStops_group.
  assert (Hcons : timesOfRoute index (entry :: entries) id =
                  timesOfRoute index [entry] id ++ timesOfRoute index entries id).
  { unfold timesOfRoute. cbn [flat_map]. now rewrite app_nil_r. }
  now rewrite Hcons, addRouteStops_app.
Qed.

Lemma timesOfRoute_served index tripEntries id stop :
  (exists st, In st (timesOfRoute index tripEntries id) /\ st_stopId st = stop)
  <-> servedBy index tripEntries id stop.
Proof.
  unfold timesOfRoute, servedBy. split.
  - intros (st & Hst & Heq). apply in_flat_map in Hst as ([key trip] & Hin & Hst).
    cbn [fst snd] in Hst.
    destruct (bool_decide (trip_routeId trip = id)) eqn:E; [| destruct Hst].
    apply bool_decide_eq_true_1 in E.
    destruct (JsMap.get key index) as [times |] eqn:Hget; [| destruct Hst].
    exists key, trip, times, st. tauto.
  - intros (key & trip & times & st & Hin & Hroute & Hget & Hst & Heq).
    exists st. split; [| exact Heq].
    apply in_flat_map. exists (key, trip). split; [exact Hin |].
    cbn [fst snd]. rewrite bool_decide_eq_true_2 by exact Hroute.
    rewrite Hget. exact Hst.
Qed.

(** X16.  [buildRouteStopsMapping], started from an empty mapping, gives
    every route the stop ids that the trips of the route call at, each
    once: a stop id is in the array of a route exactly when some trip of
    the route has a stop time at that stop.  The other indexes are left as
    they are. *)
Theorem buildRouteStopsMapping_stops_of_route
    (tripEntries : list (string * GTFSTrip)) (svc : GTFSService) (id : string) :
  routeStops svc = [] ->
  let built := buildRouteStopsMapping tripEntries svc in
  let stopIds := group id (routeStops built) in
  List.NoDup stopIds /\
  (forall stop,
     In stop stopIds <-> servedBy (stopTimes svc) tripEntries id stop) /\
  routes built = routes svc /\ trips built = trips svc /\
  stops built = stops svc /\ stopTimes built = stopTimes svc.
Proof.
  intros Hempty built stopIds. subst stopIds built.
  unfold buildRouteStopsMapping. cbn [routeStops routes trips stops stopTimes].
  rewrite mapTripsStops_group, Hempty.
  change (group id (@nil (string * list string))) with (@nil string).
  split; [apply addRouteStops_NoDup; constructor |].
  split; [| tauto].
  intros stop. rewrite addRouteStops_In, <- timesOfRoute_served. simpl. tauto.
Qed.

Lemma buildRouteStopsMapping_stops_of_route_witness :
  routeStops scheduleService = [] /\
  group "1" (routeStops (buildRouteStopsMapping sampleTripEntries scheduleService))
    = ["S1"; "S100"] /\
  List.NoDup
    (group "1"
       (routeStops (buildRouteStopsMapping sampleTripEntries scheduleService))).
Proof.
  split; [reflexivity |].
  destruct (buildRouteStopsMapping_stops_of_route sampleTripEntries
              scheduleService "1" eq_refl) as [Hnd _].
  split; [vm_compute; reflexivity | exact Hnd].
Defined.

Lemma filterBoolean_In {A : Type} (arr : list (option A)) (x : A) :
  In x (filterBoolean arr) <-> In (Some x) arr.
Proof.
  unfold filterBoolean. rewrite in_flat_map. split.
  - intros ([y |] & Hy & Hx); [| destruct Hx].
    destruct Hx as [<- | []]. exact Hy.
  - intros Hx. exists (Some x). split; [exact Hx | left; reflexivity].
Qed.

Lemma filterBoolean_length {A : Type} (arr : list (option A)) :
  (length (filterBoolean arr) <= length arr)%nat.
Proof.
  induction arr as [| [x |] arr IH]; simpl; lia.
Qed.

Lemma filterBoolean_NoDup {A B : Type} (f : A -> B) (g : B -> option A)
    (ids : list B) :
  (forall k s, g k = Some s -> f s = k) ->
  List.NoDup ids -> List.NoDup (map f (filterBoolean (map g ids))).
Proof.
  intros Hkey. induction 1 as [| k ids Hnotin Hnd IH]; simpl; [constructor |].
  destruct (g k) as [s |] eqn:E; simpl; [| exact IH].
  constructor; [| exact IH].
  intros Hin. apply in_map_iff in Hin as (s' & Heq & Hs').
  apply filterBoolean_In, in_map_iff in Hs' as (k' & Hg & Hk').
  apply Hkey in Hg. apply Hkey in E. congruence.
Qed.

(** X17.  [getRouteWithStops] after [buildRouteStopsMapping]: the answer is
    [undefined] exactly when the route is not in the route index; otherwise
    it shows the route of the index and exactly the stops of the stop index
    whose key is a stop that a trip of the route calls at, so a stop id
    that the stop index lacks is left out without notice; there are no more
    stops than stop ids, and when every stop is stored under its own id no
    stop is shown twice. *)
Theorem getRouteWithStops_served_stops
    (tripEntries : list (string * GTFSTrip)) (svc0 : GTFSService) (id : string) :
  routeStops svc0 = [] ->
  let svc := buildRouteStopsMapping tripEntries svc0 in
  (getRouteWithStops svc id = None <-> getRoute svc0 id = None) /\
  forall answer, getRouteWithStops svc id = Some answer ->
    getRoute svc0 id = Some (rws_route answer) /\
    (forall s, In s (rws_stops answer) <->
       exists stop, servedBy (stopTimes svc0) tripEntries id stop /\
                    getStop svc0 stop = Some s) /\
    (length (rws_stops answer) <= length (group id (routeStops svc)))%nat /\
    ((forall key s, getStop svc0 key = Some s -> stopId s = key) ->
     List.NoDup (map stopId (rws_stops answer))).
Proof.
  intros Hempty svc.
  assert (Hids : forall stop,
            In stop (group id (routeStops svc)) <->
            servedBy (stopTimes svc0) tripEntries id stop).
  { intros stop. subst svc. unfold buildRouteStopsMapping. cbn [routeStops].
    rewrite mapTripsStops_group, Hempty.
    change (group id (@nil (string * list string))) with (@nil string).
    rewrite addRouteStops_In, <- timesOfRoute_served. simpl. tauto. }
  assert (Hnd : List.NoDup (group id (routeStops svc))).
  { subst svc. unfold buildRouteStopsMapping. cbn [routeStops].
    rewrite mapTripsStops_group, Hempty.
    change (group id (@nil (string * list string))) with (@nil string).
    apply addRouteStops_NoDup. constructor. }
  unfold getRouteWithStops, getRoute.
  change (routes svc) with (routes svc0). change (stops svc) with (stops svc0).
  fold (group id (routeStops svc)) in *.
  change (match JsMap.get id (routeStops svc) with Some l => l | None => [] end)
    with (group id (routeStops svc)).
  destruct (routes svc0 !! id) as [route |].
  - split; [split; discriminate |].
    intros answer Hanswer. injection Hanswer as <-.
    cbn [rws_route rws_stops]. split; [reflexivity |]. split; [| split].
    + intros s. rewrite filterBoolean_In, in_map_iff. unfold getStop. split.
      * intros (stop & Hget & Hin). exists stop. split; [apply Hids, Hin | exact Hget].
      * intros (stop & Hserved & Hget). exists stop.
        split; [exact Hget | apply Hids, Hserved].
    + etransitivity; [apply filterBoolean_length |]. now rewrite length_map.
    + intros Hkey. apply filterBoolean_NoDup; [exact Hkey | exact Hnd].
  - split; [tauto |]. intros answer Hanswer. discriminate.
Qed.

(** Route "1" of the sample schedule with a two-stop index: both stops. *)
Lemma getRouteWithStops_served_stops_witness :
  routeStops scheduleService = [] /\
  getRouteWithStops browsingService "1" =
    Some {| rws_route := sampleRoute; rws_stops := [sampleStopS1; sampleStop] |} /\
  (getRouteWithStops (buildRouteStopsMapping sampleTripEntries scheduleService)
     "99" = None <-> getRoute scheduleService "99" = None).
Proof.
  split; [reflexivity |]. split; [reflexivity |].
  destruct (getRouteWithStops_served_stops sampleTripEntries scheduleService
              "99" eq_refl) as [Hnone _].
  exact Hnone.
Defined.

(** ** Nearby stops: radius and distance *)

Section StableSortFacts.
Context {A : Type} (key : A -> Z) (p : A -> bool).




End StableSortFacts.



Section RadiusFacts.
Local Open Scope R_scope.




End RadiusFacts.


(** ** Service alerts *)

Section AlertFacts.
Variable SeverityLevelName : Z -> option string.
Variable EffectName : Z -> option string.
Variable longs : bool.

Lemma scanAlert_app routeId stopId alerts entity :
  scanAlert SeverityLevelName EffectName longs routeId stopId alerts entity =
  alerts ++ scanAlert SeverityLevelName EffectName longs routeId stopId [] entity.
Proof.
  unfold scanAlert. destruct (alert entity) as [a |]; [| now rewrite app_nil_r].
  destruct (_ && _); [now rewrite app_nil_r | reflexivity].
Qed.

Lemma scanAlerts_fold routeId stopId entities alerts :
  fold_left (scanAlert SeverityLevelName EffectName longs routeId stopId) entities alerts =
  alerts ++
  flat_map (scanAlert SeverityLevelName EffectName longs routeId stopId []) entities.
Proof.
  revert alerts. induction entities as [| e entities IH]; intros alerts; simpl.
  - now rewrite app_nil_r.
  - rewrite IH, scanAlert_app, <- app_assoc. reflexivity.
Qed.

Lemma strictEq_truthy (value : option string) (wanted : string) :
  wanted <> "" ->
  Js.strictEq (Js.truthyStr value) wanted = Js.strictEq value wanted.
Proof.
  intros Hw. destruct value as [v |]; [| reflexivity]. simpl.
  destruct (decide (v = "")) as [-> | _]; [| reflexivity].
  simpl. symmetry. apply bool_decide_eq_false_2. congruence.
Qed.

Lemma truthyStr_nonempty (s : option string) (v : string) :
  Js.truthyStr s = Some v -> v <> "".
Proof. intros H. apply truthyStr_Some in H. tauto. Qed.

(** The filter reads the same from the feed and from the answer. *)
Lemma namesRouteOrStop_alertOf routeId stopId id a :
  namesRouteOrStop routeId stopId
    (alertOf SeverityLevelName EffectName longs id a) =
  existsb (informedMatches routeId stopId) (informedEntity a).
Proof.
  unfold namesRouteOrStop. cbn [alertOf informedEntities].
  induction (informedEntity a) as [| informed l IH]; [reflexivity |].
  cbn [map existsb]. rewrite IH. f_equal.
  unfold informedMatches. cbn [ie_routeId ie_stopId].
  destruct (Js.truthyStr routeId) as [r |] eqn:Hr;
    destruct (Js.truthyStr stopId) as [s |] eqn:Hs;
    repeat rewrite strictEq_truthy by (eapply truthyStr_nonempty; eassumption);
    reflexivity.
Qed.

Lemma scanAlert_filter routeId stopId entity :
  scanAlert SeverityLevelName EffectName longs routeId stopId [] entity =
  if filterGiven routeId stopId
  then List.filter (namesRouteOrStop routeId stopId)
         (scanAlert SeverityLevelName EffectName longs None None [] entity)
  else scanAlert SeverityLevelName EffectName longs None None [] entity.
Proof.
  unfold scanAlert. destruct (alert entity) as [a |];
    [| destruct (filterGiven routeId stopId); reflexivity].
  change (filterGiven None None) with false. cbn [andb app].
  destruct (filterGiven routeId stopId); [| reflexivity].
  cbn [andb List.filter]. rewrite namesRouteOrStop_alertOf.
  destruct (existsb _ _); reflexivity.
Qed.

(** X21.  [getServiceAlerts] with a route or stop filter returns the alerts
    of the unfiltered answer that name the wanted route or the wanted stop
    in one of their informed entities, in the same order; with no filter
    (both absent or empty) it returns the unfiltered answer, which holds one
    alert for every entity of the feed that carries one, in feed order; a
    failure of the fetch is reported in the same way with or without a
    filter. *)
Theorem getServiceAlerts_filter_selects (response : Fetched AlertEntity)
    (routeId stopId : option string) :
  getServiceAlerts SeverityLevelName EffectName longs response routeId stopId =
  match getServiceAlerts SeverityLevelName EffectName longs response None None with
  | Returns alerts =>
      Returns (if filterGiven routeId stopId
               then List.filter (namesRouteOrStop routeId stopId) alerts
               else alerts)
  | Throws message => Throws message
  end /\
  forall entity,
    getServiceAlerts SeverityLevelName EffectName longs (FetchFeed entity) None None =
    Returns
      (flat_map
         (fun e =>
            match alert e with
            | Some a => [alertOf SeverityLevelName EffectName longs (ae_id e) a]
            | None => []
            end)
         entity).
Proof.
  split.
  - destruct response as [status text | message | entities]; simpl;
      [reflexivity | reflexivity |].
    f_equal. rewrite !scanAlerts_fold. simpl.
    induction entities as [| e entities IH]; simpl.
    + destruct (filterGiven routeId stopId); reflexivity.
    + rewrite IH, (scanAlert_filter routeId stopId e).
      destruct (filterGiven routeId stopId); [| reflexivity].
      now rewrite List.filter_app.
  - intros entity. simpl. rewrite scanAlerts_fold. reflexivity.
Qed.

Lemma In_scanAlerts routeId stopId entities x :
  In x (fold_left (scanAlert SeverityLevelName EffectName longs routeId stopId)
          entities []) <->
  exists entity a,
    In entity entities /\ alert entity = Some a /\
    x = alertOf SeverityLevelName EffectName longs (ae_id entity) a /\
    (filterGiven routeId stopId = false \/
     existsb (informedMatches routeId stopId) (informedEntity a) = true).
Proof.
  rewrite scanAlerts_fold. simpl. rewrite in_flat_map. split.
  - intros (entity & Hin & Hx). unfold scanAlert in Hx.
    destruct (alert entity) as [a |] eqn:Ha; [| destruct Hx].
    destruct (filterGiven routeId stopId) eqn:Hgiven;
      destruct (existsb _ _) eqn:Hex; simpl in Hx;
      try (destruct Hx as [<- | []]; exists entity, a; tauto).
    destruct Hx.
  - intros (entity & a & Hin & Ha & -> & Hkeep).
    exists entity. split; [exact Hin |]. unfold scanAlert. rewrite Ha.
    destruct Hkeep as [-> | ->]; simpl.
    + left. reflexivity.
    + rewrite andb_false_r. left. reflexivity.
Qed.

Lemma informedMatches_split (route stop : string) (informed : EntitySelector) :
  informedMatches (Some route) (Some stop) informed =
  informedMatches (Some route) None informed
  || informedMatches None (Some stop) informed.
Proof.
  unfold informedMatches.
  destruct (Js.truthyStr (Some route)), (Js.truthyStr (Some stop));
    cbn [Js.truthyStr];
    repeat match goal with |- context [Js.strictEq ?a ?b] =>
             destruct (Js.strictEq a b) end;
    reflexivity.
Qed.

(** X22.  Giving [getServiceAlerts] both a route and a stop widens the
    answer: an alert is returned exactly when it is returned for the route
    alone or for the stop alone. *)
Theorem getServiceAlerts_filters_widen (entity : list AlertEntity)
    (route stop : string) (both byRoute byStop : list ServiceAlert)
    (a : ServiceAlert) :
  route <> "" -> stop <> "" ->
  getServiceAlerts SeverityLevelName EffectName longs (FetchFeed entity)
    (Some route) (Some stop) = Returns both ->
  getServiceAlerts SeverityLevelName EffectName longs (FetchFeed entity)
    (Some route) None = Returns byRoute ->
  getServiceAlerts SeverityLevelName EffectName longs (FetchFeed entity)
    None (Some stop) = Returns byStop ->
  (In a both <-> In a byRoute \/ In a byStop).
Proof.
  intros Hr Hs Hboth Hroute Hstop. simpl in Hboth, Hroute, Hstop.
  injection Hboth as <-. injection Hroute as <-. injection Hstop as <-.
  rewrite !In_scanAlerts.
  assert (G1 : filterGiven (Some route) (Some stop) = true).
  { unfold filterGiven. simpl. destruct (decide (route = "")); [congruence |].
    reflexivity. }
  assert (G2 : filterGiven (Some route) None = true).
  { unfold filterGiven. simpl. destruct (decide (route = "")); [congruence |].
    reflexivity. }
  assert (G3 : filterGiven None (Some stop) = true).
  { unfold filterGiven. simpl. destruct (decide (stop = "")); [congruence |].
    reflexivity. }
  assert (Hsplit : forall l,
            existsb (informedMatches (Some route) (Some stop)) l =
            existsb (informedMatches (Some route) None) l
            || existsb (informedMatches None (Some stop)) l).
  { induction l as [| informed l IH]; [reflexivity |].
    cbn [existsb]. rewrite IH, (informedMatches_split route stop informed).
    generalize (informedMatches (Some route) None informed) as b1.
    generalize (informedMatches None (Some stop) informed) as b2.
    generalize (existsb (informedMatches (Some route) None) l) as b3.
    generalize (existsb (informedMatches None (Some stop)) l) as b4.
    intros [] [] [] []; reflexivity. }
  split.
  - intros (e & al & Hin & Ha & Hx & [Hg | Hex]); [congruence |].
    rewrite Hsplit in Hex. apply orb_true_iff in Hex as [Hex | Hex].
    + left. exists e, al. tauto.
    + right. exists e, al. tauto.
  - intros [(e & al & Hin & Ha & Hx & [Hg | Hex])
           | (e & al & Hin & Ha & Hx & [Hg | Hex])]; try congruence;
      exists e, al; rewrite Hsplit, Hex; simpl;
      rewrite ?orb_true_r; tauto.
Qed.

End AlertFacts.

(** Of the three sample alerts the filter for route "1" and stop "S100"
    returns the first two; the agency-wide alert is left out. *)
Lemma getServiceAlerts_filters_widen_witness :
  let both :=
    [ alertOf sampleEnumName sampleEnumName true "a1"
        (sampleAlert [mkSelector None (Some "1") None]);
      alertOf sampleEnumName sampleEnumName true "a2"
        (sampleAlert [mkSelector None None (Some "S100")]) ] in
  "1" <> "" /\ "S100" <> "" /\
  getServiceAlerts sampleEnumName sampleEnumName true (FetchFeed sampleAlerts)
    (Some "1") (Some "S100") = Returns both /\
  (In (alertOf sampleEnumName sampleEnumName true "a2"
         (sampleAlert [mkSelector None None (Some "S100")])) both <->
   In (alertOf sampleEnumName sampleEnumName true "a2"
         (sampleAlert [mkSelector None None (Some "S100")]))
      [ alertOf sampleEnumName sampleEnumName true "a1"
          (sampleAlert [mkSelector None (Some "1") None]) ] \/
   In (alertOf sampleEnumName sampleEnumName true "a2"
         (sampleAlert [mkSelector None None (Some "S100")]))
      [ alertOf sampleEnumName sampleEnumName true "a2"
          (sampleAlert [mkSelector None None (Some "S100")]) ]).
Proof.
  cbv zeta. split; [discriminate |]. split; [discriminate |].
  split; [reflexivity |].
  apply (getServiceAlerts_filters_widen sampleEnumName sampleEnumName true
           sampleAlerts "1" "S100");
    [discriminate | discriminate | reflexivity | reflexivity | reflexivity].
Defined.

(** ** Vehicle positions *)

Section VehicleFacts.
Variable OccupancyStatusName : Z -> option string.
Variable CongestionLevelName : Z -> option string.
Variable longs : bool.

Lemma scanVehicle_app nowMs routeId vehicles entity :
  scanVehicle OccupancyStatusName CongestionLevelName longs nowMs routeId vehicles entity =
  vehicles ++
  scanVehicle OccupancyStatusName CongestionLevelName longs nowMs routeId [] entity.
Proof.
  unfold scanVehicle.
  destruct (vehicle entity) as [v |]; [| now rewrite app_nil_r].
  destruct (vm_position v) as [position |]; [| now rewrite app_nil_r].
  destruct (filteredOut _ _); [now rewrite app_nil_r |].
  destruct (pos_latitude position); [| now rewrite app_nil_r].
  destruct (pos_longitude position); [reflexivity | now rewrite app_nil_r].
Qed.

Lemma scanVehicles_fold nowMs routeId entities vehicles :
  fold_left (scanVehicle OccupancyStatusName CongestionLevelName longs nowMs routeId)
    entities vehicles =
  vehicles ++
  flat_map (scanVehicle OccupancyStatusName CongestionLevelName longs nowMs routeId [])
    entities.
Proof.
  revert vehicles. induction entities as [| e entities IH]; intros vehicles;
    simpl.
  - now rewrite app_nil_r.
  - rewrite IH, scanVehicle_app, <- app_assoc. reflexivity.
Qed.

Lemma scanVehicle_filter nowMs route entity :
  route <> "" ->
  scanVehicle OccupancyStatusName CongestionLevelName longs nowMs (Some route) [] entity =
  List.filter (fun v => bool_decide (vp_routeId v = route))
    (scanVehicle OccupancyStatusName CongestionLevelName longs nowMs None [] entity).
Proof.
  intros Hr. unfold scanVehicle.
  destruct (vehicle entity) as [v |]; [| reflexivity].
  destruct (vm_position v) as [position |]; [| reflexivity].
  rewrite filteredOut_Some by exact Hr.
  change (filteredOut None ?r) with false. cbv iota.
  destruct (pos_latitude position) as [lat |];
    [| destruct (negb _); reflexivity].
  destruct (pos_longitude position) as [lon |];
    [| destruct (negb _); reflexivity].
  cbn [app List.filter vehicleOf vp_routeId].
  destruct (match vm_trip v with Some d => td_routeId d | None => None end)
    as [r |]; simpl.
  - destruct (decide (r = "")) as [-> | Hne].
    + rewrite !bool_decide_eq_false_2 by congruence. reflexivity.
    + destruct (bool_decide (r = route)); reflexivity.
  - rewrite bool_decide_eq_false_2 by congruence. reflexivity.
Qed.

(** X23.  Asking [getVehiclePositions] for one route gives the vehicles of
    the unfiltered answer whose route id is that route, in the same order
    and with the same data; a vehicle without a trip or without a route id
    is shown with the route id "" and is never among them. *)
Theorem getVehiclePositions_filter_selects (response : Fetched VehicleEntity)
    (nowMs : Z) (route : string) :
  route <> "" ->
  getVehiclePositions OccupancyStatusName CongestionLevelName longs response nowMs
    (Some route) =
  match getVehiclePositions OccupancyStatusName CongestionLevelName longs response
          nowMs None with
  | Returns vehicles =>
      Returns (List.filter (fun v => bool_decide (vp_routeId v = route)) vehicles)
  | Throws message => Throws message
  end.
Proof.
  intros Hr. destruct response as [status text | message | entities]; simpl;
    [reflexivity | reflexivity |].
  f_equal. rewrite !scanVehicles_fold. simpl.
  induction entities as [| e entities IH]; simpl; [reflexivity |].
  rewrite IH, (scanVehicle_filter nowMs route e Hr), List.filter_app.
  reflexivity.
Qed.

End VehicleFacts.

Lemma getVehiclePositions_filter_selects_witness :
  "1" <> "" /\
  getVehiclePositions sampleEnumName sampleEnumName true (FetchFeed sampleVehicles)
    1000000 (Some "1") =
  match getVehiclePositions sampleEnumName sampleEnumName true
          (FetchFeed sampleVehicles) 1000000 None with
  | Returns vehicles =>
      Returns (List.filter (fun v => bool_decide (vp_routeId v = "1")) vehicles)
  | Throws message => Throws message
  end.
Proof.
  assert (H : "1" <> "") by discriminate.
  split; [exact H |].
  exact (getVehiclePositions_filter_selects sampleEnumName sampleEnumName true
           (FetchFeed sampleVehicles) 1000000 "1" H).
Defined.

(** ** Request validation and pagination *)

Section RequestFacts.
Variable parseInt : string -> option Z.

Lemma validatePositiveInteger_positive (value : option string)
    (defaultValue : Z) :
  0 < defaultValue -> 0 < validatePositiveInteger parseInt value defaultValue.
Proof.
  intros Hd. unfold validatePositiveInteger.
  destruct (Js.truthyStr value) as [v |]; [| exact Hd].
  destruct (parseInt v) as [parsed |]; [| exact Hd].
  destruct (parsed <=? 0) eqn:E; [exact Hd | lia].
Qed.

Lemma slice_window {A : Type} (a n : Z) (l : list A) :
  0 <= a -> 0 <= n ->
  slice a (a + n) l = firstn (Z.to_nat n) (skipn (Z.to_nat a) l).
Proof.
  intros Ha Hn. unfold slice, sliceIndex.
  destruct (a <? 0) eqn:Ea; [lia |].
  destruct (a + n <? 0) eqn:Ean; [lia |].
  destruct (Z_le_gt_dec a (Z.of_nat (length l))) as [Hin | Hout].
  - rewrite (Z.min_l a) by exact Hin.
    destruct (Z_le_gt_dec (a + n) (Z.of_nat (length l))) as [Hin' | Hout'].
    + rewrite (Z.min_l (a + n)) by exact Hin'. f_equal. lia.
    + rewrite (Z.min_r (a + n)) by lia. rewrite Nat2Z.id.
      rewrite !firstn_all2; [reflexivity | |]; rewrite length_skipn; lia.
  - rewrite !Z.min_r by lia. rewrite Nat2Z.id, Nat.sub_diag.
    assert (Hskip : skipn (Z.to_nat a) l = []) by (apply skipn_all2; lia).
    rewrite Hskip. now rewrite firstn_nil.
Qed.

(** X24.  The page of routes of [GET /api/routes], whatever the query
    parameters: the page number is at least 1 and the limit is between 1
    and 100; the data are the [limit] routes that follow the first
    [(page - 1) * limit], fewer at the end of the list, so consecutive pages
    tile the list; [hasNext] tells exactly whether a route is left after the
    page, and [hasPrev] whether the page number is above 1. *)
Theorem routesPage_window (timestamp : string) (allRoutes : list GTFSRoute)
    (page limit : option string) :
  let answer := routesPage parseInt timestamp allRoutes page limit in
  let p := pg_page (pagination answer) in
  let n := pg_limit (pagination answer) in
  1 <= p /\ 1 <= n <= 100 /\
  pg_total (pagination answer) = Z.of_nat (length allRoutes) /\
  pr_data answer =
    firstn (Z.to_nat n) (skipn (Z.to_nat ((p - 1) * n)) allRoutes) /\
  skipn (Z.to_nat ((p - 1) * n)) allRoutes =
    pr_data answer ++ skipn (Z.to_nat (p * n)) allRoutes /\
  (hasNext (pagination answer) = true <->
   skipn (Z.to_nat (p * n)) allRoutes <> []) /\
  (hasPrev (pagination answer) = true <-> 1 < p).
Proof.
  cbv zeta. unfold routesPage, createPaginatedResponse.
  cbn [pagination pg_page pg_limit pg_total pr_data hasNext hasPrev].
  pose proof (validatePositiveInteger_positive (Some (orDefault page "1")) 1
                ltac:(lia)) as Hp.
  pose proof (validatePositiveInteger_positive (Some (orDefault limit "50")) 50
                ltac:(lia)) as Hn.
  set (p := validatePositiveInteger parseInt (Some (orDefault page "1")) 1) in *.
  set (n := Z.min (validatePositiveInteger parseInt
                     (Some (orDefault limit "50")) 50) 100).
  assert (Hn' : 1 <= n <= 100) by (subst n; lia).
  clearbody p n. clear Hn.
  assert (Hdata : slice ((p - 1) * n) ((p - 1) * n + n) allRoutes =
                  firstn (Z.to_nat n) (skipn (Z.to_nat ((p - 1) * n)) allRoutes)).
  { apply slice_window; nia. }
  rewrite Hdata.
  split; [lia |]. split; [exact Hn' |]. split; [reflexivity |].
  split; [reflexivity |]. split; [| split].
  - replace (Z.to_nat (p * n))
      with (Z.to_nat n + Z.to_nat ((p - 1) * n))%nat by nia.
    rewrite <- skipn_skipn. symmetry. apply firstn_skipn.
  - rewrite Z.ltb_lt. split.
    + intros Hlt Hnil. apply (f_equal (@length GTFSRoute)) in Hnil.
      rewrite length_skipn in Hnil. simpl in Hnil. nia.
    + intros Hne.
      destruct (Z_lt_ge_dec (p * n) (Z.of_nat (length allRoutes)))
        as [Hlt | Hge]; [exact Hlt | exfalso].
      apply Hne. apply skipn_all2. nia.
  - rewrite Z.gtb_ltb, Z.ltb_lt. reflexivity.
Qed.

(** X25.  With a configured cap of at least 1, the handlers of
    [GET /api/arrivals/:stopId] and [GET /api/departures/:stopId] return,
    whatever the [max] query parameter, route entries that list at least
    one time and at most as many as the cap. *)
Theorem requests_respect_cap (LocalTZA : Z -> bool -> Z)
    (toNumber : string -> option Z) (maxArrivalsPerRoute : Z)
    (svc : GTFSService) (entity : list FeedEntity) (nowMs : Z) (stop : string)
    (routeId max : option string) :
  1 <= maxArrivalsPerRoute ->
  (forall results b,
     arrivalsRequest parseInt maxArrivalsPerRoute svc (Feed entity) nowMs stop
       routeId max = Returns results ->
     In b results ->
     1 <= Z.of_nat (length (arrivalTimes b)) <= maxArrivalsPerRoute) /\
  (forall b,
     In b (departuresRequest parseInt LocalTZA toNumber maxArrivalsPerRoute
             svc nowMs stop routeId max) ->
     1 <= Z.of_nat (length (departureTimes b)) <= maxArrivalsPerRoute).
Proof.
  intros Hcap.
  pose proof (validatePositiveInteger_positive max 5 ltac:(lia)) as Hmax.
  unfold arrivalsRequest, departuresRequest.
  set (n := Z.min (validatePositiveInteger parseInt max 5) maxArrivalsPerRoute).
  assert (Hn : 1 <= n <= maxArrivalsPerRoute) by (subst n; lia).
  clearbody n. clear Hmax. split.
  - intros results b Hret Hb.
    destruct (getNextArrivals_entry _ _ _ _ _ _ _ _ Hret Hb) as [Hne Htimes].
    rewrite Htimes, length_map. cbn [orDefault].
    pose proof (slice0_length n
                  (Js.sortBy a_time
                     (group (ba_routeId b)
                        (collectArrivals stop routeId (nowMs / 1000) entity)))
                  ltac:(lia)) as Hlen.
    destruct (slice0_sortBy_head a_time n _ ltac:(lia) Hne)
      as (x & rest & Hslice & _).
    rewrite Hslice in *. cbn [length] in *. lia.
  - intros b Hb.
    destruct (getScheduledDepartures_entry LocalTZA toNumber _ _ _ _ _ _ Hb)
      as [Hne Htimes].
    rewrite Htimes, length_map. cbn [orDefault].
    pose proof (slice0_length n
                  (Js.sortBy d_time
                     (JsMap.values
                        (uniqueDepartures
                           (group (bd_routeId b)
                              (collectDepartures LocalTZA toNumber svc nowMs stop
                                 routeId)))))
                  ltac:(lia)) as Hlen.
    destruct (slice0_sortBy_head d_time n _ ltac:(lia)
                (uniqueDepartures_nonempty _ Hne))
      as (x & rest & Hslice & _).
    rewrite Hslice in *. cbn [length] in *. lia.
Qed.

End RequestFacts.

(** The second page of two of the three sample routes holds the third route
    and has no successor. *)
Example routesPage_second_page :
  routesPage sampleParseInt "2025-11-01T12:26:40.000Z" sampleRoutes
    (Some "2") (Some "2") =
  {| pr_success := true; pr_timestamp := "2025-11-01T12:26:40.000Z";
     pr_data := [mkRoute "3" "3" "Beacon Hill" "000000" "FFFFFF"];
     pagination :=
       {| pg_page := 2; pg_limit := 2; pg_total := 3;
          hasNext := false; hasPrev := true |} |}.
Proof. vm_compute. reflexivity. Qed.

(** A request for 50 arrivals under a cap of 1 gets one arrival per
    route. *)
Lemma requests_respect_cap_witness :
  1 <= 1 /\
  arrivalsRequest sampleParseInt 1 sampleService (Feed sampleFeed) 1000000
    "12345" None (Some "50")
  = Returns [sampleBusArrival [sampleArrivalTime 1180 3 "3 min"]] /\
  1 <= Z.of_nat (length [sampleArrivalTime 1180 3 "3 min"]) <= 1.
Proof.
  split; [lia |].
  assert (H : arrivalsRequest sampleParseInt 1 sampleService (Feed sampleFeed)
                1000000 "12345" None (Some "50")
              = Returns [sampleBusArrival [sampleArrivalTime 1180 3 "3 min"]])
    by (vm_compute; reflexivity).
  split; [exact H |].
  destruct (requests_respect_cap sampleParseInt samplePST Js.Number 1
              sampleService sampleFeed 1000000 "12345" None (Some "50")
              ltac:(lia)) as [Harrivals _].
  exact (Harrivals _ (sampleBusArrival [sampleArrivalTime 1180 3 "3 min"]) H
           (or_introl eq_refl)).
Defined.

(** ** Loading the static catalog *)

Section LoaderFacts.
Variable isWhiteSpace : ascii -> bool.

Lemma orString_nonempty (value fallback : string) :
  fallback <> "" -> orString value fallback <> "".
Proof.
  intros Hf. unfold orString. destruct (decide (value = "")); assumption.
Qed.

(** What [loadRouteLine] stores for a line that it accepts. *)
Lemma loadRouteLines_sound (lines : list string) (index : gmap string GTFSRoute)
    (id : string) (route : GTFSRoute) :
  fold_left (loadRouteLine isWhiteSpace) lines index !! id = Some route ->
  index !! id = Some route \/
  exists line,
    In line lines /\ (6 <= length (Js.split "," line))%nat /\
    route =
      {| routeId := id;
         shortName := trim isWhiteSpace (nth 1 (Js.split "," line) "");
         longName := trim isWhiteSpace (nth 2 (Js.split "," line) "");
         routeColor :=
           orString (trim isWhiteSpace (nth 4 (Js.split "," line) "")) "000000";
         routeTextColor :=
           orString (trim isWhiteSpace (nth 5 (Js.split "," line) "")) "FFFFFF" |} /\
    id = trim isWhiteSpace (nth 0 (Js.split "," line) "").
Proof.
  revert index. induction lines as [| line lines IH]; intros index Hget.
  - left. exact Hget.
  - cbn [fold_left] in Hget. apply IH in Hget as [Hget | (l & Hl & Hrest)].
    + unfold loadRouteLine in Hget.
      destruct (decide (trim isWhiteSpace line = "")); [tauto |].
      destruct (6 <=? length (Js.split "," line))%nat eqn:Hlen; [| tauto].
      apply Nat.leb_le in Hlen.
      apply lookup_insert_Some in Hget as [[<- <-] | [_ Hget]]; [| tauto].
      right. exists line. split; [left; reflexivity |]. tauto.
    + right. exists l. split; [right; exact Hl | exact Hrest].
Qed.


Lemma loadTripLines_sound (lines : list string) (index : gmap string GTFSTrip)
    (id : string) (trip : GTFSTrip) :
  fold_left (loadTripLine isWhiteSpace) lines index !! id = Some trip ->
  index !! id = Some trip \/
  exists line,
    In line lines /\ (4 <= length (Js.split "," line))%nat /\
    trip =
      {| tripId := id;
         trip_routeId := trim isWhiteSpace (nth 0 (Js.split "," line) "");
         tripHeadsign := trim isWhiteSpace (nth 3 (Js.split "," line) "") |} /\
    id = trim isWhiteSpace (nth 2 (Js.split "," line) "").
Proof.
  revert index. induction lines as [| line lines IH]; intros index Hget.
  - left. exact Hget.
  - cbn [fold_left] in Hget. apply IH in Hget as [Hget | (l & Hl & Hrest)].
    + unfold loadTripLine in Hget.
      destruct (decide (trim isWhiteSpace line = "")); [tauto |].
      destruct (4 <=? length (Js.split "," line))%nat eqn:Hlen; [| tauto].
      apply Nat.leb_le in Hlen.
      apply lookup_insert_Some in Hget as [[<- <-] | [_ Hget]]; [| tauto].
      right. exists line. split; [left; reflexivity |]. tauto.
    + right. exists l. split; [right; exact Hl | exact Hrest].
Qed.

(** X27.  With the route index and the trip index loaded by [loadRoutes]
    and [loadTrips] from empty indexes, the details that [getTripDetails]
    shows are consistent: the trip carries the requested id, the route
    carries the route id of the trip, and the route has non-empty
    colours. *)
Theorem getTripDetails_consistent (routesData tripsData : string)
    (svc0 svc1 svc2 svc : GTFSService) (id : string) (details : TripDetails) :
  routes svc0 = ∅ -> trips svc0 = ∅ ->
  loadRoutes isWhiteSpace (Some routesData) svc0 = Returns svc1 ->
  loadTrips isWhiteSpace (Some tripsData) svc1 = Returns svc2 ->
  routes svc = routes svc2 -> trips svc = trips svc2 ->
  getTripDetails svc id = Some details ->
  tripId (details_trip details) = id /\
  routeId (details_route details) = trip_routeId (details_trip details) /\
  routeColor (details_route details) <> "" /\
  routeTextColor (details_route details) <> "".
Proof.
  intros Hroutes0 Htrips0 Hload1 Hload2 Hroutes Htrips Hdetails.
  unfold loadRoutes in Hload1. injection Hload1 as <-.
  unfold loadTrips in Hload2. injection Hload2 as <-.
  cbn [routes trips] in Hroutes, Htrips.
  unfold getTripDetails in Hdetails. rewrite Hroutes, Htrips in Hdetails.
  rewrite Hroutes0, Htrips0 in Hdetails.
  destruct (fold_left (loadTripLine isWhiteSpace) _ ∅ !! id) as [trip |] eqn:Htrip;
    [| discriminate].
  destruct (fold_left (loadRouteLine isWhiteSpace) _ ∅ !! trip_routeId trip)
    as [route |] eqn:Hroute; [| discriminate].
  injection Hdetails as <-. cbn [details_trip details_route].
  apply loadTripLines_sound in Htrip as [Htrip | (line & _ & _ & -> & _)];
    [rewrite lookup_empty in Htrip; discriminate |].
  apply loadRouteLines_sound in Hroute as [Hroute | (line' & _ & _ & -> & _)];
    [rewrite lookup_empty in Hroute; discriminate |].
  cbn [tripId trip_routeId routeId routeColor routeTextColor].
  split; [reflexivity |]. split; [reflexivity |].
  split; apply orString_nonempty; discriminate.
Qed.

(** X28.  With the route index loaded by [loadRoutes] from an empty index,
    every entry of the answers of [getNextArrivals] and of
    [getScheduledDepartures] shows non-empty route colours. *)
Theorem answers_show_route_colours (LocalTZA : Z -> bool -> Z)
    (toNumber : string -> option Z) (routesData : string)
    (svc0 svc1 svc : GTFSService) (entity : list FeedEntity) (nowMs : Z)
    (stop : string) (routeFilter : option string) (max : option Z) :
  routes svc0 = ∅ ->
  loadRoutes isWhiteSpace (Some routesData) svc0 = Returns svc1 ->
  routes svc = routes svc1 ->
  (forall results b,
     getNextArrivals svc (Feed entity) nowMs stop routeFilter max
       = Returns results ->
     In b results ->
     ba_routeColor b <> "" /\ ba_routeTextColor b <> "") /\
  (forall b,
     In b (getScheduledDepartures LocalTZA toNumber svc nowMs stop routeFilter
             max) ->
     bd_routeColor b <> "" /\ bd_routeTextColor b <> "").
Proof.
  intros Hroutes0 Hload Hroutes.
  unfold loadRoutes in Hload. injection Hload as <-.
  cbn [routes] in Hroutes. rewrite Hroutes0 in Hroutes.
  assert (Hsound : forall id route,
            routes svc !! id = Some route ->
            routeColor route <> "" /\ routeTextColor route <> "").
  { intros id route Hget. rewrite Hroutes in Hget.
    apply loadRouteLines_sound in Hget as [Hget | (line & _ & _ & -> & _)];
      [rewrite lookup_empty in Hget; discriminate |].
    cbn [routeColor routeTextColor].
    split; apply orString_nonempty; discriminate. }
  split.
  - intros results b Hret Hb. simpl in Hret. injection Hret as <-.
    apply arrivalsOfRoute_fields in Hb
      as [[] | (_ & _ & route & Hget & _ & _ & -> & ->)].
    apply (Hsound _ _ Hget).
  - intros b Hb. unfold getScheduledDepartures in Hb.
    apply departuresOfRoute_fields in Hb
      as [[] | (_ & _ & route & Hget & _ & _ & -> & ->)].
    apply (Hsound _ _ Hget).
Qed.

End LoaderFacts.



Lemma getTripDetails_consistent_witness :
  let details :=
    {| details_trip := mkTrip "T1" "1" "Downtown";
       details_route := mkRoute "1" "1" "University/Downtown" "000000" "FFFFFF";
       details_stopTimes := [] |} in
  getTripDetails loadedService "T1" = Some details /\
  tripId (details_trip details) = "T1" /\
  routeId (details_route details) = trip_routeId (details_trip details).
Proof.
  cbv zeta.
  assert (H : getTripDetails loadedService "T1" =
              Some {| details_trip := mkTrip "T1" "1" "Downtown";
                      details_route :=
                        mkRoute "1" "1" "University/Downtown" "000000" "FFFFFF";
                      details_stopTimes := [] |})
    by (vm_compute; reflexivity).
  split; [exact H |].
  destruct (getTripDetails_consistent sampleWhiteSpace sampleRoutesFile
              sampleTripsFile emptyService
              {| routes := routes loadedService; trips := ∅; stops := [];
                 stopTimes := []; routeStops := [] |}
              loadedService loadedService "T1" _
              eq_refl eq_refl eq_refl eq_refl eq_refl eq_refl H)
    as (Hid & Hroute & _).
  split; [exact Hid | exact Hroute].
Defined.

Lemma answers_show_route_colours_witness :
  routes emptyService = ∅ /\
  getNextArrivals loadedService (Feed sampleFeed) 1000000 "12345" None (Some 1)
    = Returns [sampleBusArrival [sampleArrivalTime 1180 3 "3 min"]] /\
  ba_routeColor (sampleBusArrival [sampleArrivalTime 1180 3 "3 min"]) <> "".
Proof.
  split; [reflexivity |].
  assert (H : getNextArrivals loadedService (Feed sampleFeed) 1000000 "12345"
                None (Some 1)
              = Returns [sampleBusArrival [sampleArrivalTime 1180 3 "3 min"]])
    by (vm_compute; reflexivity).
  split; [exact H |].
  destruct (answers_show_route_colours sampleWhiteSpace samplePST Js.Number
              sampleRoutesFile emptyService
              {| routes := routes loadedService; trips := ∅; stops := [];
                 stopTimes := []; routeStops := [] |}
              loadedService sampleFeed 1000000 "12345" None (Some 1)
              eq_refl eq_refl eq_refl) as [Harrivals _].
  destruct (Harrivals _ (sampleBusArrival [sampleArrivalTime 1180 3 "3 min"]) H
              (or_introl eq_refl)) as [Hcolor _].
  exact Hcolor.
Defined.

Section StopLoaderFacts.
Variable isWhiteSpace : ascii -> bool.
Variable parseFloat : string -> option R.






End StopLoaderFacts.


(** ** The nearby-stops request *)

Section NearbyRequestFacts.
Variable parseFloat : string -> option R.
Local Open Scope R_scope.



End NearbyRequestFacts.

